(** * NWSRadarAnimation: the pattern-sequence builder and the sweep state machine

    A shallow embedding of [RadarAnimation.py] (class [RadarApp]).

    - Python [float] is IEEE-754 binary64: it is modelled by Rocq's primitive
      [float], whose operations are the same binary64 operations with
      round-to-nearest-even.  Python [int]s that only ever hold small values
      ([cone_width], [range], the multiplier) are [Z]; an [int] is converted
      with [float_of_int] where Python promotes it in mixed arithmetic.
    - A scan step is a Python [dict]; its keys are record fields, and the
      keys that one shape of step lacks ([range] / [range_z], [range_v]) are
      [option]s, so that a subscript of a missing key raises [KeyError].
    - Strings are byte strings in UTF-8; equality of Python strings is
      equality of their encodings.
    - Methods of [RadarApp] are computations in a state-and-exception monad
      over the record of the object's attributes.  The Tk widgets are kept
      only as the texts and states the methods write; the canvas polygons
      are not modelled. *)

From Stdlib Require Import ZArith List String Ascii Bool Lia Floats.
From Stdlib Require DecimalString.
Import ListNotations.

Set Warnings "-inexact-float".

Local Open Scope string_scope.
Local Open Scope list_scope.

(** ** Scan steps *)

Record ScanStep : Type := mkStep {
  step_label      : string;
  step_angle      : string;
  step_speed      : float;
  step_cone_width : Z;
  step_range      : option Z;
  step_range_z    : option Z;
  step_range_v    : option Z
}.

(** [{"label": l, "angle": a, "speed": s, "cone_width": w, "range": r}] *)
Definition cone (l a : string) (s : float) (w r : Z) : ScanStep :=
  mkStep l a s w (Some r) None None.

(** [{"label": l, "angle": a, "speed": s, "cone_width": w,
      "range_z": rz, "range_v": rv}] *)
Definition cones (l a : string) (s : float) (w rz rv : Z) : ScanStep :=
  mkStep l a s w None (Some rz) (Some rv).

(** The shape invariant of the data model: a ["Z/V"] step carries the two
    ranges and no single range, any other step the single range only. *)
Definition wf_step (p : ScanStep) : bool :=
  if step_label p =? "Z/V"
  then match step_range p, step_range_z p, step_range_v p with
       | None, Some _, Some _ => true
       | _, _, _ => false
       end
  else match step_range p, step_range_z p, step_range_v p with
       | Some _, None, None => true
       | _, _, _ => false
       end.

(** ** The pattern catalog: the literal [patterns] of [build_pattern_sequence] *)

Definition vcp_212 : list ScanStep :=
  [ cone "Z" "0.5°" (-0.35)%float 8 250;
    cone "V" "0.5°" (-0.29)%float 8 74;
    cone "Z" "0.9°" (-0.35)%float 8 250;
    cone "V" "0.9°" (-0.29)%float 8 74;
    cone "Z" "1.3°" (-0.38)%float 8 231;
    cone "V" "1.3°" (-0.29)%float 8 74;
    cones "Z/V" "1.8°" (-0.43)%float 8 208 80;
    cones "Z/V" "2.4°" (-0.46)%float 8 181 80;
    cones "Z/V" "3.1°" (-0.46)%float 8 158 80;
    cones "Z/V" "4.0°" (-0.46)%float 8 134 80;
    cones "Z/V" "5.1°" (-0.46)%float 8 113 80;
    cones "Z/V" "6.4°" (-0.46)%float 8 94 80;
    cone "V" "8.0°" (-0.5)%float 8 74;
    cone "V" "10.0°" (-0.5)%float 8 68;
    cone "V" "12.5°" (-0.5)%float 8 63;
    cone "V" "15.6°" (-0.5)%float 8 63;
    cone "V" "19.5°" (-0.5)%float 8 63 ].

Definition vcp_35 : list ScanStep :=
  [ cone "Z" "0.5°" (-0.08)%float 8 250;
    cone "V" "0.5°" (-0.26)%float 8 80;
    cone "Z" "0.9°" (-0.08)%float 8 250;
    cone "V" "0.9°" (-0.26)%float 8 80;
    cone "Z" "1.3°" (-0.09)%float 8 231;
    cone "V" "1.3°" (-0.26)%float 8 80;
    cones "Z/V" "1.8°" (-0.26)%float 8 208 80;
    cones "Z/V" "2.4°" (-0.30)%float 8 181 80;
    cones "Z/V" "3.1°" (-0.29)%float 8 158 80;
    cones "Z/V" "4.0°" (-0.30)%float 8 134 80;
    cones "Z/V" "5.1°" (-0.30)%float 8 134 80;
    cones "Z/V" "6.4°" (-0.30)%float 8 134 80 ].

Definition vcp_215 : list ScanStep :=
  [ cone "Z" "0.5°" (-0.19)%float 8 250;
    cone "V" "0.5°" (-0.29)%float 8 74;
    cone "Z" "0.9°" (-0.22)%float 8 250;
    cone "V" "0.9°" (-0.29)%float 8 74;
    cone "Z" "1.3°" (-0.26)%float 8 231;
    cone "V" "1.3°" (-0.29)%float 8 74;
    cones "Z/V" "1.8°" (-0.29)%float 8 208 80;
    cones "Z/V" "2.4°" (-0.33)%float 8 181 80;
    cones "Z/V" "3.1°" (-0.33)%float 8 158 80;
    cones "Z/V" "4.0°" (-0.33)%float 8 134 80;
    cones "Z/V" "5.1°" (-0.33)%float 8 134 80;
    cones "Z/V" "6.4°" (-0.33)%float 8 134 80;
    cone "V" "8.0°" (-0.43)%float 8 63;
    cone "V" "10.0°" (-0.43)%float 8 63;
    cone "V" "12.0°" (-0.43)%float 8 63;
    cone "V" "14.0°" (-0.43)%float 8 63;
    cone "V" "16.7°" (-0.43)%float 8 63;
    cone "V" "19.5°" (-0.43)%float 8 63 ].

Definition vcp_12 : list ScanStep :=
  [ cone "Z" "0.5°" (-0.35)%float 8 250;
    cone "V" "0.5°" (-0.40)%float 8 80;
    cone "Z" "0.9°" (-0.35)%float 8 250;
    cone "V" "0.9°" (-0.40)%float 8 80;
    cone "Z" "1.3°" (-0.38)%float 8 231;
    cone "V" "1.3°" (-0.40)%float 8 80;
    cones "Z/V" "1.8°" (-0.43)%float 8 208 80;
    cones "Z/V" "2.4°" (-0.43)%float 8 181 80;
    cones "Z/V" "3.1°" (-0.43)%float 8 158 80;
    cones "Z/V" "4.0°" (-0.46)%float 8 134 80;
    cones "Z/V" "5.1°" (-0.43)%float 8 134 80;
    cones "Z/V" "6.4°" (-0.43)%float 8 134 80;
    cone "V" "8.0°" (-0.46)%float 8 74;
    cone "V" "10.0°" (-0.46)%float 8 68;
    cone "V" "12.5°" (-0.46)%float 8 63;
    cone "V" "15.6°" (-0.46)%float 8 63;
    cone "V" "19.5°" (-0.46)%float 8 63 ].

(** A [dict] literal with string keys, in source order, and [d.get(k, default)]. *)
Fixpoint dict_get {A : Type} (d : list (string * A)) (k : string) (default : A) : A :=
  match d with
  | [] => default
  | (k', v) :: d' => if k' =? k then v else dict_get d' k default
  end.

Definition patterns : list (string * list ScanStep) :=
  [ ("VCP 212", vcp_212); ("VCP 35", vcp_35); ("VCP 215", vcp_215); ("VCP 12", vcp_12) ].

(** [x in xs] for a list of strings. *)
Definition str_in (x : string) (xs : list string) : bool :=
  existsb (String.eqb x) xs.

(** The four names the VCP buttons pass to [set_vcp]. *)
Definition vcp_buttons : list string := ["VCP 12"; "VCP 35"; "VCP 212"; "VCP 215"].

(** ** The supplemental scan inserter (second half of [build_pattern_sequence]) *)

(** The exceptions the modelled statements can raise. *)
Inductive exn : Type :=
| AttributeError (attr : string)
| KeyError (key : string)
| IndexError
| ValueError.

(** [pattern[i:i] = block] *)
Definition slice_insert (pattern : list ScanStep) (i : nat) (block : list ScanStep)
  : list ScanStep :=
  firstn i pattern ++ block ++ skipn i pattern.

Definition sails_scans : list ScanStep :=
  [ cone "Z" "0.5°" (-0.5)%float 8 250;
    cone "V" "0.5°" (-0.5)%float 8 80 ].

Definition insert_points : list (string * list string) :=
  [ ("SAILS 1", ["3.1°"]);
    ("SAILS 2", ["1.8°"; "6.4°"]);
    ("SAILS 3", ["1.3°"; "4.0°"; "8.0°"]) ].

(** The inner loop [for i in reversed(range(len(pattern)))], over the indices
    still to visit; it ends at the first insertion ([break]).  The indices
    come from [range(len(pattern))], so [pattern[i]] is always there. *)
Fixpoint sails_scan (sails angle : string) (pattern : list ScanStep) (idxs : list nat)
  : list ScanStep :=
  match idxs with
  | [] => pattern
  | i :: idxs' =>
      match nth_error pattern i with
      | None => pattern
      | Some p =>
          if step_angle p =? angle then
            if (angle =? "1.3°") && (sails =? "SAILS 3") && (step_label p =? "V") then
              slice_insert pattern (i + 1) sails_scans
            else if negb (angle =? "1.3°") || negb (sails =? "SAILS 3") then
              slice_insert pattern (i + 1) sails_scans
            else sails_scan sails angle pattern idxs'
          else sails_scan sails angle pattern idxs'
      end
  end.

(** One pass of the outer loop body for one anchor [angle]. *)
Definition sails_insert (sails angle : string) (pattern : list ScanStep) : list ScanStep :=
  sails_scan sails angle pattern (rev (seq 0 (List.length pattern))).

(** The block [if sails != "None": ...]. *)
Definition apply_sails (sails : string) (pattern : list ScanStep) : list ScanStep :=
  if negb (sails =? "None") then
    fold_left (fun pat angle => sails_insert sails angle pat)
              (dict_get insert_points sails []) pattern
  else pattern.

(** [mrle[-1]] *)
Fixpoint last_char (s : string) : option ascii :=
  match s with
  | EmptyString => None
  | String c EmptyString => Some c
  | String _ s' => last_char s'
  end.

(** [int(c)] for a one-character string: the ASCII digits.  (The digits
    outside ASCII that Python also accepts are not single bytes here.) *)
Definition int_of_char (c : ascii) : option Z :=
  let n := Z.of_nat (nat_of_ascii c) in
  if ((48 <=? n) && (n <=? 57))%Z then Some (n - 48)%Z else None.

Definition mrle_base_scans : list ScanStep :=
  [ cone "Z" "0.5°" (-0.35)%float 8 250;
    cone "V" "0.5°" (-0.40)%float 8 80;
    cone "Z" "0.9°" (-0.35)%float 8 250;
    cone "V" "0.9°" (-0.40)%float 8 80 ].

(** [mrle_scans] as it stands after the two conditional appends. *)
Definition mrle_scans (count : Z) : list ScanStep :=
  let scans := mrle_base_scans in
  let scans :=
    if (3 <=? count)%Z then
      scans ++ [ cone "Z" "1.3°" (-0.38)%float 8 231 ]
            ++ [ cone "V" "1.3°" (-0.40)%float 8 80 ]
    else scans in
  if (count =? 4)%Z then scans ++ [ cones "Z/V" "1.8°" (-0.43)%float 8 208 80 ]
  else scans.

(** [[i for i, step in enumerate(pattern) if step["angle"] == angle]],
    with [enumerate] starting at [start]. *)
Fixpoint indices_with_angle (angle : string) (start : nat) (pattern : list ScanStep)
  : list nat :=
  match pattern with
  | [] => []
  | p :: rest =>
      if step_angle p =? angle
      then start :: indices_with_angle angle (S start) rest
      else indices_with_angle angle (S start) rest
  end.

(** [xs[-1]] of a list known to be non-empty ([None] on the empty list). *)
Definition last_index (xs : list nat) : option nat :=
  match rev xs with
  | [] => None
  | i :: _ => Some i
  end.

(** The tail of the MRLE block: locate the last ["5.1°"] step and insert. *)
Definition mrle_insert (block pattern : list ScanStep) : list ScanStep :=
  match last_index (indices_with_angle "5.1°" 0 pattern) with
  | None => pattern
  | Some insert_idx => slice_insert pattern (insert_idx + 1) block
  end.

(** The block [if mrle != "None" and self.selected_vcp in [...]: ...]. *)
Definition apply_mrle (mrle selected_vcp : string) (pattern : list ScanStep)
  : list ScanStep + exn :=
  if negb (mrle =? "None") && str_in selected_vcp ["VCP 212"; "VCP 12"] then
    match last_char mrle with
    | None => inr IndexError
    | Some c =>
        match int_of_char c with
        | None => inr ValueError
        | Some count => inl (mrle_insert (mrle_scans count) pattern)
        end
    end
  else inl pattern.

(** The value [build_pattern_sequence] assigns to [self.pattern_sequence],
    as a function of the three attributes it reads. *)
Definition build_sequence (selected_vcp sails mrle : string) : list ScanStep + exn :=
  let pattern := dict_get patterns selected_vcp [] in
  match pattern with
  | [] => inl []
  | _ => apply_mrle mrle selected_vcp (apply_sails sails pattern)
  end.

(** ** The object: attributes of [RadarApp] and the widget properties it writes

    [selected_vcp], [sweep_speed], [cone_angle_width], [current_label] and
    [sweep_radius] are not assigned by [__init__]: they are [None] until a
    method assigns them, and reading one before that raises
    [AttributeError].  [stdout] collects what [print] writes; [after_queue]
    counts the [animate] callbacks handed to [root.after] and not yet run. *)

Record Widgets : Type := mkWidgets {
  toggle_button_text   : string;
  toggle_button_state  : string;
  vcp_title_label      : string;
  fast_button_text     : string;
  sails_dropdown_state : string;
  mrle_dropdown_state  : string;
  sails_menu           : list string;
  z_label              : string;
  angle_label          : string
}.

Definition config_toggle_button_text (v : string) (w : Widgets) : Widgets :=
  mkWidgets v (toggle_button_state w) (vcp_title_label w) (fast_button_text w)
    (sails_dropdown_state w) (mrle_dropdown_state w) (sails_menu w) (z_label w)
    (angle_label w).

Definition config_toggle_button_state (v : string) (w : Widgets) : Widgets :=
  mkWidgets (toggle_button_text w) v (vcp_title_label w) (fast_button_text w)
    (sails_dropdown_state w) (mrle_dropdown_state w) (sails_menu w) (z_label w)
    (angle_label w).

Definition config_vcp_title_label (v : string) (w : Widgets) : Widgets :=
  mkWidgets (toggle_button_text w) (toggle_button_state w) v (fast_button_text w)
    (sails_dropdown_state w) (mrle_dropdown_state w) (sails_menu w) (z_label w)
    (angle_label w).

Definition config_fast_button_text (v : string) (w : Widgets) : Widgets :=
  mkWidgets (toggle_button_text w) (toggle_button_state w) (vcp_title_label w) v
    (sails_dropdown_state w) (mrle_dropdown_state w) (sails_menu w) (z_label w)
    (angle_label w).

Definition config_sails_dropdown_state (v : string) (w : Widgets) : Widgets :=
  mkWidgets (toggle_button_text w) (toggle_button_state w) (vcp_title_label w)
    (fast_button_text w) v (mrle_dropdown_state w) (sails_menu w) (z_label w)
    (angle_label w).

Definition config_mrle_dropdown_state (v : string) (w : Widgets) : Widgets :=
  mkWidgets (toggle_button_text w) (toggle_button_state w) (vcp_title_label w)
    (fast_button_text w) (sails_dropdown_state w) v (sails_menu w) (z_label w)
    (angle_label w).

Definition config_sails_menu (v : list string) (w : Widgets) : Widgets :=
  mkWidgets (toggle_button_text w) (toggle_button_state w) (vcp_title_label w)
    (fast_button_text w) (sails_dropdown_state w) (mrle_dropdown_state w) v (z_label w)
    (angle_label w).

Definition config_z_label (v : string) (w : Widgets) : Widgets :=
  mkWidgets (toggle_button_text w) (toggle_button_state w) (vcp_title_label w)
    (fast_button_text w) (sails_dropdown_state w) (mrle_dropdown_state w) (sails_menu w)
    v (angle_label w).

Definition config_angle_label (v : string) (w : Widgets) : Widgets :=
  mkWidgets (toggle_button_text w) (toggle_button_state w) (vcp_title_label w)
    (fast_button_text w) (sails_dropdown_state w) (mrle_dropdown_state w) (sails_menu w)
    (z_label w) v.

Record RadarApp : Type := mkRadarApp {
  angle              : float;
  running            : bool;
  vcp_selected       : bool;
  speed_multiplier   : Z;
  fast_mode          : Z;
  sweep_progress     : float;
  pattern_step_index : nat;
  pattern_sequence   : list ScanStep;
  selected_vcp       : option string;
  sweep_speed        : option float;
  cone_angle_width   : option Z;
  current_label      : option string;
  sweep_radius       : option Z;
  sails_var          : string;
  mrle_var           : string;
  widgets            : Widgets;
  stdout             : list string;
  after_queue        : nat
}.

Definition set_angle (v : float) (a : RadarApp) : RadarApp :=
  mkRadarApp v (running a) (vcp_selected a) (speed_multiplier a) (fast_mode a)
    (sweep_progress a) (pattern_step_index a) (pattern_sequence a) (selected_vcp a)
    (sweep_speed a) (cone_angle_width a) (current_label a) (sweep_radius a)
    (sails_var a) (mrle_var a) (widgets a) (stdout a) (after_queue a).

Definition set_running (v : bool) (a : RadarApp) : RadarApp :=
  mkRadarApp (angle a) v (vcp_selected a) (speed_multiplier a) (fast_mode a)
    (sweep_progress a) (pattern_step_index a) (pattern_sequence a) (selected_vcp a)
    (sweep_speed a) (cone_angle_width a) (current_label a) (sweep_radius a)
    (sails_var a) (mrle_var a) (widgets a) (stdout a) (after_queue a).

Definition set_vcp_selected (v : bool) (a : RadarApp) : RadarApp :=
  mkRadarApp (angle a) (running a) v (speed_multiplier a) (fast_mode a)
    (sweep_progress a) (pattern_step_index a) (pattern_sequence a) (selected_vcp a)
    (sweep_speed a) (cone_angle_width a) (current_label a) (sweep_radius a)
    (sails_var a) (mrle_var a) (widgets a) (stdout a) (after_queue a).

Definition set_speed_multiplier (v : Z) (a : RadarApp) : RadarApp :=
  mkRadarApp (angle a) (running a) (vcp_selected a) v (fast_mode a) (sweep_progress a)
    (pattern_step_index a) (pattern_sequence a) (selected_vcp a) (sweep_speed a)
    (cone_angle_width a) (current_label a) (sweep_radius a) (sails_var a) (mrle_var a)
    (widgets a) (stdout a) (after_queue a).

Definition set_fast_mode (v : Z) (a : RadarApp) : RadarApp :=
  mkRadarApp (angle a) (running a) (vcp_selected a) (speed_multiplier a) v
    (sweep_progress a) (pattern_step_index a) (pattern_sequence a) (selected_vcp a)
    (sweep_speed a) (cone_angle_width a) (current_label a) (sweep_radius a)
    (sails_var a) (mrle_var a) (widgets a) (stdout a) (after_queue a).

Definition set_sweep_progress (v : float) (a : RadarApp) : RadarApp :=
  mkRadarApp (angle a) (running a) (vcp_selected a) (speed_multiplier a) (fast_mode a) v
    (pattern_step_index a) (pattern_sequence a) (selected_vcp a) (sweep_speed a)
    (cone_angle_width a) (current_label a) (sweep_radius a) (sails_var a) (mrle_var a)
    (widgets a) (stdout a) (after_queue a).

Definition set_pattern_step_index (v : nat) (a : RadarApp) : RadarApp :=
  mkRadarApp (angle a) (running a) (vcp_selected a) (speed_multiplier a) (fast_mode a)
    (sweep_progress a) v (pattern_sequence a) (selected_vcp a) (sweep_speed a)
    (cone_angle_width a) (current_label a) (sweep_radius a) (sails_var a) (mrle_var a)
    (widgets a) (stdout a) (after_queue a).

Definition set_pattern_sequence (v : list ScanStep) (a : RadarApp) : RadarApp :=
  mkRadarApp (angle a) (running a) (vcp_selected a) (speed_multiplier a) (fast_mode a)
    (sweep_progress a) (pattern_step_index a) v (selected_vcp a) (sweep_speed a)
    (cone_angle_width a) (current_label a) (sweep_radius a) (sails_var a) (mrle_var a)
    (widgets a) (stdout a) (after_queue a).

Definition set_selected_vcp (v : option string) (a : RadarApp) : RadarApp :=
  mkRadarApp (angle a) (running a) (vcp_selected a) (speed_multiplier a) (fast_mode a)
    (sweep_progress a) (pattern_step_index a) (pattern_sequence a) v (sweep_speed a)
    (cone_angle_width a) (current_label a) (sweep_radius a) (sails_var a) (mrle_var a)
    (widgets a) (stdout a) (after_queue a).

Definition set_sweep_speed (v : option float) (a : RadarApp) : RadarApp :=
  mkRadarApp (angle a) (running a) (vcp_selected a) (speed_multiplier a) (fast_mode a)
    (sweep_progress a) (pattern_step_index a) (pattern_sequence a) (selected_vcp a) v
    (cone_angle_width a) (current_label a) (sweep_radius a) (sails_var a) (mrle_var a)
    (widgets a) (stdout a) (after_queue a).

Definition set_cone_angle_width (v : option Z) (a : RadarApp) : RadarApp :=
  mkRadarApp (angle a) (running a) (vcp_selected a) (speed_multiplier a) (fast_mode a)
    (sweep_progress a) (pattern_step_index a) (pattern_sequence a) (selected_vcp a)
    (sweep_speed a) v (current_label a) (sweep_radius a) (sails_var a) (mrle_var a)
    (widgets a) (stdout a) (after_queue a).

Definition set_current_label (v : option string) (a : RadarApp) : RadarApp :=
  mkRadarApp (angle a) (running a) (vcp_selected a) (speed_multiplier a) (fast_mode a)
    (sweep_progress a) (pattern_step_index a) (pattern_sequence a) (selected_vcp a)
    (sweep_speed a) (cone_angle_width a) v (sweep_radius a) (sails_var a) (mrle_var a)
    (widgets a) (stdout a) (after_queue a).

Definition set_sweep_radius (v : option Z) (a : RadarApp) : RadarApp :=
  mkRadarApp (angle a) (running a) (vcp_selected a) (speed_multiplier a) (fast_mode a)
    (sweep_progress a) (pattern_step_index a) (pattern_sequence a) (selected_vcp a)
    (sweep_speed a) (cone_angle_width a) (current_label a) v (sails_var a) (mrle_var a)
    (widgets a) (stdout a) (after_queue a).

Definition set_sails_var (v : string) (a : RadarApp) : RadarApp :=
  mkRadarApp (angle a) (running a) (vcp_selected a) (speed_multiplier a) (fast_mode a)
    (sweep_progress a) (pattern_step_index a) (pattern_sequence a) (selected_vcp a)
    (sweep_speed a) (cone_angle_width a) (current_label a) (sweep_radius a) v
    (mrle_var a) (widgets a) (stdout a) (after_queue a).

Definition set_mrle_var (v : string) (a : RadarApp) : RadarApp :=
  mkRadarApp (angle a) (running a) (vcp_selected a) (speed_multiplier a) (fast_mode a)
    (sweep_progress a) (pattern_step_index a) (pattern_sequence a) (selected_vcp a)
    (sweep_speed a) (cone_angle_width a) (current_label a) (sweep_radius a)
    (sails_var a) v (widgets a) (stdout a) (after_queue a).

Definition set_widgets (v : Widgets) (a : RadarApp) : RadarApp :=
  mkRadarApp (angle a) (running a) (vcp_selected a) (speed_multiplier a) (fast_mode a)
    (sweep_progress a) (pattern_step_index a) (pattern_sequence a) (selected_vcp a)
    (sweep_speed a) (cone_angle_width a) (current_label a) (sweep_radius a)
    (sails_var a) (mrle_var a) v (stdout a) (after_queue a).

Definition set_stdout (v : list string) (a : RadarApp) : RadarApp :=
  mkRadarApp (angle a) (running a) (vcp_selected a) (speed_multiplier a) (fast_mode a)
    (sweep_progress a) (pattern_step_index a) (pattern_sequence a) (selected_vcp a)
    (sweep_speed a) (cone_angle_width a) (current_label a) (sweep_radius a)
    (sails_var a) (mrle_var a) (widgets a) v (after_queue a).

Definition set_after_queue (v : nat) (a : RadarApp) : RadarApp :=
  mkRadarApp (angle a) (running a) (vcp_selected a) (speed_multiplier a) (fast_mode a)
    (sweep_progress a) (pattern_step_index a) (pattern_sequence a) (selected_vcp a)
    (sweep_speed a) (cone_angle_width a) (current_label a) (sweep_radius a)
    (sails_var a) (mrle_var a) (widgets a) (stdout a) v.

(** The object as [__init__] leaves it (with [draw_static_elements]). *)
Definition init : RadarApp :=
  {| angle := 90%float;
     running := false;
     vcp_selected := false;
     speed_multiplier := 1;
     fast_mode := 1;
     sweep_progress := 0%float;
     pattern_step_index := 0;
     pattern_sequence := [];
     selected_vcp := None;
     sweep_speed := None;
     cone_angle_width := None;
     current_label := None;
     sweep_radius := None;
     sails_var := "None";
     mrle_var := "None";
     widgets :=
       {| toggle_button_text := "Run";
          toggle_button_state := "disabled";
          vcp_title_label := "VCP";
          fast_button_text := "1x";
          sails_dropdown_state := "normal";
          mrle_dropdown_state := "normal";
          sails_menu := ["None"; "SAILS 1"; "SAILS 2"; "SAILS 3"];
          z_label := "Z";
          angle_label := "0.5°" |};
     stdout := [];
     after_queue := 0 |}.

(** ** Methods: state and exceptions *)

Definition M (A : Type) : Type := RadarApp -> (A + exn) * RadarApp.

Definition ret {A : Type} (x : A) : M A := fun a => (inl x, a).

Definition bind {A B : Type} (m : M A) (k : A -> M B) : M B :=
  fun a =>
    match m a with
    | (inl x, a') => k x a'
    | (inr e, a') => (inr e, a')
    end.

Definition raise {A : Type} (e : exn) : M A := fun a => (inr e, a).

Definition gets {A : Type} (f : RadarApp -> A) : M A := fun a => (inl (f a), a).

Definition modify (f : RadarApp -> RadarApp) : M unit := fun a => (inl tt, f a).

Declare Scope radar_scope.
Delimit Scope radar_scope with radar.
Notation "x <- m ;; k" := (bind m (fun x => k))
  (at level 61, m at next level, right associativity) : radar_scope.
Notation "m ;; k" := (bind m (fun _ => k))
  (at level 61, right associativity) : radar_scope.
Local Open Scope radar_scope.

(** The state a method call leaves, and how it completed. *)
Definition exec {A : Type} (m : M A) (a : RadarApp) : RadarApp := snd (m a).

Definition completion {A : Type} (m : M A) (a : RadarApp) : A + exn := fst (m a).

(** [self.<name>] for an attribute that may not exist yet. *)
Definition attr {A : Type} (name : string) (f : RadarApp -> option A) : M A :=
  fun a =>
    match f a with
    | Some x => (inl x, a)
    | None => (inr (AttributeError name), a)
    end.

(** [pattern["<key>"]] for a key that a step may lack. *)
Definition item {A : Type} (key : string) (v : option A) : M A :=
  match v with
  | Some x => ret x
  | None => raise (KeyError key)
  end.

(** [xs[i]] *)
Definition subscript {A : Type} (xs : list A) (i : nat) : M A :=
  match nth_error xs i with
  | Some x => ret x
  | None => raise IndexError
  end.

Definition lift {A : Type} (r : A + exn) : M A :=
  match r with
  | inl x => ret x
  | inr e => raise e
  end.

Definition print (s : string) : M unit :=
  modify (fun a => set_stdout (stdout a ++ [s]) a).

(** [widget.config(...)] / [canvas.itemconfig(...)] *)
Definition config (f : Widgets -> Widgets) : M unit :=
  modify (fun a => set_widgets (f (widgets a)) a).

(** [self.root.after(25, self.animate)] *)
Definition root_after_animate : M unit :=
  modify (fun a => set_after_queue (S (after_queue a)) a).

(** Promotion of an [int] in mixed arithmetic (exact below 2^53 in
    magnitude, which covers every value the program holds). *)
Definition float_of_int (z : Z) : float :=
  if (z <? 0)%Z then (- of_uint63 (Uint63.of_Z (- z)))%float
  else of_uint63 (Uint63.of_Z z).

(** [str(n)] for an [int]. *)
Definition str (n : Z) : string := DecimalString.NilZero.string_of_int (Z.to_int n).

Definition is_empty {A : Type} (xs : list A) : bool :=
  match xs with [] => true | _ => false end.

(** *** [advance_pattern_step] *)
Definition advance_pattern_step : M unit :=
  sequence <- gets pattern_sequence ;;
  if is_empty sequence then
    print "Pattern sequence is empty!" ;;
    modify (set_running false) ;;
    config (config_toggle_button_text "Run")
  else
    index <- gets pattern_step_index ;;
    (if (List.length sequence <=? index)%nat then modify (set_pattern_step_index 0)
     else ret tt) ;;
    modify (set_sweep_progress 0%float) ;;
    modify (set_angle 90%float) ;;
    index <- gets pattern_step_index ;;
    pattern <- subscript sequence index ;;
    multiplier <- gets speed_multiplier ;;
    modify (set_sweep_speed (Some (step_speed pattern * float_of_int multiplier)%float)) ;;
    modify (set_cone_angle_width (Some (step_cone_width pattern))) ;;
    modify (set_current_label (Some (step_label pattern))) ;;
    (if negb (step_label pattern =? "Z/V") then
       r <- item "range" (step_range pattern) ;;
       modify (set_sweep_radius (Some r))
     else
       modify (set_sweep_radius
                 (Some (Z.max (match step_range_z pattern with Some z => z | None => 0%Z end)
                              (match step_range_v pattern with Some v => v | None => 0%Z end))))) ;;
    config (config_z_label (step_label pattern)) ;;
    config (config_angle_label (step_angle pattern)).

(** *** [draw_sweep_cone]: the attribute and key reads that can fail; the
    polygons it puts on the canvas are outside the model. *)
Definition draw_sweep_cone : M unit :=
  _ <- attr "cone_angle_width" cone_angle_width ;;
  label <- attr "current_label" current_label ;;
  if label =? "Z/V" then
    sequence <- gets pattern_sequence ;;
    index <- gets pattern_step_index ;;
    pattern <- subscript sequence index ;;
    _ <- item "range_z" (step_range_z pattern) ;;
    _ <- item "range_v" (step_range_v pattern) ;;
    ret tt
  else
    _ <- attr "sweep_radius" sweep_radius ;;
    ret tt.

(** *** [animate]: one tick

    The body is in two parts: [animate_boundary] is what follows the two
    decrements, from [if self.angle <= -270:] to the end of the method. *)
Definition animate_boundary : M unit :=
  current <- gets angle ;;
  if (current <=? -270)%float then
    modify (set_angle 90%float) ;;
    modify (fun a => set_pattern_step_index (pattern_step_index a + 1) a) ;;
    index <- gets pattern_step_index ;;
    sequence <- gets pattern_sequence ;;
    if (List.length sequence <=? index)%nat then
      modify (set_pattern_step_index 0) ;;
      modify (set_running false) ;;
      config (config_toggle_button_text "Run")
    else
      advance_pattern_step ;;
      root_after_animate
  else root_after_animate.

Definition animate : M unit :=
  is_running <- gets running ;;
  if negb is_running then ret tt
  else
    draw_sweep_cone ;;
    speed <- attr "sweep_speed" sweep_speed ;;
    modify (fun a => set_sweep_progress (sweep_progress a + abs speed * 5)%float a) ;;
    speed <- attr "sweep_speed" sweep_speed ;;
    modify (fun a => set_angle (angle a - abs speed * 5)%float a) ;;
    animate_boundary.

(** The event loop running one callback that [root.after] registered. *)
Definition tick : M unit :=
  modify (fun a => set_after_queue (pred (after_queue a)) a) ;;
  animate.

(** *** [toggle_animation] *)
Definition toggle_animation : M unit :=
  selected <- gets vcp_selected ;;
  if negb selected then print "Please select a VCP pattern first."
  else
    is_running <- gets running ;;
    if negb is_running then
      modify (set_pattern_step_index 0) ;;
      advance_pattern_step ;;
      modify (set_angle 90%float) ;;
      modify (set_running true) ;;
      config (config_toggle_button_text "Stop") ;;
      animate
    else
      modify (set_running false) ;;
      config (config_toggle_button_text "Run").

(** *** [speed_multiply] *)
Definition speed_multiply : M unit :=
  modify (fun a => set_fast_mode ((fast_mode a mod 4) + 1)%Z a) ;;
  modify (fun a => set_speed_multiplier (2 ^ (fast_mode a - 1))%Z a) ;;
  multiplier <- gets speed_multiplier ;;
  config (config_fast_button_text (str multiplier ++ "x")%string) ;;
  sequence <- gets pattern_sequence ;;
  if negb (is_empty sequence) then advance_pattern_step else ret tt.

(** *** [build_pattern_sequence] *)
Definition build_pattern_sequence : M unit :=
  modify (set_pattern_sequence []) ;;
  vcp <- attr "selected_vcp" selected_vcp ;;
  let pattern := dict_get patterns vcp [] in
  if is_empty pattern then modify (set_pattern_sequence [])
  else
    sails <- gets sails_var ;;
    let pattern := apply_sails sails pattern in
    mrle <- gets mrle_var ;;
    pattern <- lift (apply_mrle mrle vcp pattern) ;;
    modify (set_pattern_sequence pattern).

(** *** [sails_selected] and [mrle_selected] *)
Definition sails_selected : M unit :=
  selected <- gets vcp_selected ;;
  if negb selected then modify (set_sails_var "None")
  else
    sails <- gets sails_var ;;
    (if negb (sails =? "None") then
       modify (set_mrle_var "None") ;;
       config (config_mrle_dropdown_state "disabled")
     else
       vcp <- attr "selected_vcp" selected_vcp ;;
       if str_in vcp ["VCP 212"; "VCP 12"]
       then config (config_mrle_dropdown_state "normal")
       else ret tt) ;;
    modify (set_running false) ;;
    modify (set_pattern_step_index 0) ;;
    modify (set_angle 90%float) ;;
    build_pattern_sequence ;;
    advance_pattern_step.

Definition mrle_selected : M unit :=
  selected <- gets vcp_selected ;;
  if negb selected then modify (set_mrle_var "None")
  else
    mrle <- gets mrle_var ;;
    (if negb (mrle =? "None") then
       modify (set_sails_var "None") ;;
       config (config_sails_dropdown_state "disabled")
     else config (config_sails_dropdown_state "normal")) ;;
    modify (set_running false) ;;
    modify (set_pattern_step_index 0) ;;
    modify (set_angle 90%float) ;;
    build_pattern_sequence ;;
    advance_pattern_step.

(** [set_sails(value)], the command of the rebuilt SAILS menu entries. *)
Definition set_sails (value : string) : M unit :=
  modify (set_sails_var value) ;;
  sails_selected.

(** Choosing an entry of an [OptionMenu]: Tk stores the entry in the
    variable and then calls the command.  For SAILS this is the original
    menu's [sails_selected] command and the rebuilt menu's [set_sails]
    alike; for MRLE it is [mrle_selected]. *)
Definition choose_sails (value : string) : M unit := set_sails value.

Definition choose_mrle (value : string) : M unit :=
  modify (set_mrle_var value) ;;
  mrle_selected.

(** *** [set_vcp] *)
Definition set_vcp (vcp_name : string) : M unit :=
  modify (set_running false) ;;
  modify (set_vcp_selected true) ;;
  config (fun w => config_toggle_button_state "normal" (config_toggle_button_text "Run" w)) ;;
  config (config_vcp_title_label vcp_name) ;;
  modify (set_selected_vcp (Some vcp_name)) ;;
  modify (set_sails_var "None") ;;
  modify (set_mrle_var "None") ;;
  (if str_in vcp_name ["VCP 212"; "VCP 12"] then
     config (config_mrle_dropdown_state "normal")
   else
     config (config_mrle_dropdown_state "disabled") ;;
     modify (set_mrle_var "None")) ;;
  config (config_sails_menu []) ;;
  (if vcp_name =? "VCP 35" then
     config (config_sails_menu ["None"; "SAILS 1"])
   else
     config (config_sails_menu ["None"; "SAILS 1"; "SAILS 2"; "SAILS 3"])) ;;
  modify (set_sails_var "None") ;;
  config (config_sails_dropdown_state "normal") ;;
  build_pattern_sequence ;;
  advance_pattern_step ;;
  (if str_in vcp_name ["VCP 212"; "VCP 12"] then
     config (config_mrle_dropdown_state "normal")
   else
     config (config_mrle_dropdown_state "disabled") ;;
     modify (set_mrle_var "None")) ;;
  build_pattern_sequence ;;
  advance_pattern_step.

(** [n] callbacks of the event loop in a row. *)
Fixpoint ticks (n : nat) : M unit :=
  match n with
  | O => ret tt
  | S n' => tick ;; ticks n'
  end.

(** ** Notions the statements use *)

(** What the two-branch test inside the SAILS loop accepts: the anchor's
    angle text, and label ["V"] as well for the ["1.3°"] anchor of SAILS 3. *)
Definition sails_match (sails angle : string) (p : ScanStep) : bool :=
  (step_angle p =? angle) &&
  (if (angle =? "1.3°") && (sails =? "SAILS 3") then step_label p =? "V" else true).

(** The anchor resolution rule as the specification words it, without the
    label refinement, for comparison with [sails_insert]: [block] goes after
    the last step whose elevation-angle text is [angle]; a pattern without
    such a step is returned as it is. *)
Fixpoint spec_insert_after_last (angle : string) (block pattern : list ScanStep)
  : list ScanStep :=
  match pattern with
  | [] => []
  | p :: rest =>
      if (step_angle p =? angle) && negb (existsb (fun q => step_angle q =? angle) rest)
      then p :: block ++ rest
      else p :: spec_insert_after_last angle block rest
  end.

(** The radius [advance_pattern_step] stores for a step ([None]: the
    subscript [pattern["range"]] raises [KeyError]). *)
Definition step_radius (p : ScanStep) : option Z :=
  if negb (step_label p =? "Z/V") then step_range p
  else Some (Z.max (match step_range_z p with Some z => z | None => 0%Z end)
                   (match step_range_v p with Some v => v | None => 0%Z end)).

(** The object after [advance_pattern_step] has loaded step [p], of radius
    [r], at the index the object holds. *)
Definition load (p : ScanStep) (r : Z) (a : RadarApp) : RadarApp :=
  {| angle := 90%float;
     running := running a;
     vcp_selected := vcp_selected a;
     speed_multiplier := speed_multiplier a;
     fast_mode := fast_mode a;
     sweep_progress := 0%float;
     pattern_step_index := pattern_step_index a;
     pattern_sequence := pattern_sequence a;
     selected_vcp := selected_vcp a;
     sweep_speed := Some (step_speed p * float_of_int (speed_multiplier a))%float;
     cone_angle_width := Some (step_cone_width p);
     current_label := Some (step_label p);
     sweep_radius := Some r;
     sails_var := sails_var a;
     mrle_var := mrle_var a;
     widgets := config_angle_label (step_angle p) (config_z_label (step_label p) (widgets a));
     stdout := stdout a;
     after_queue := after_queue a |}.

(** The parameters of step [p], the current step of the sequence, are the
    ones the object holds: speed (times the multiplier), cone width, label
    and radius. *)
Definition Loaded (a : RadarApp) (p : ScanStep) : Prop :=
  nth_error (pattern_sequence a) (pattern_step_index a) = Some p
  /\ wf_step p = true
  /\ sweep_speed a = Some (step_speed p * float_of_int (speed_multiplier a))%float
  /\ cone_angle_width a = Some (step_cone_width p)
  /\ current_label a = Some (step_label p)
  /\ sweep_radius a = step_radius p.

(** The three machine states of the spec, read off the object. *)
Inductive machine_state : Type := Idle | Stopped | Running.

Definition state_of (a : RadarApp) : machine_state :=
  if negb (vcp_selected a) then Idle
  else if running a then Running else Stopped.

(** The index [advance_pattern_step] works with: the stored one, or 0 when
    the stored one is past the end of the sequence. *)
Definition clamp_index (a : RadarApp) : nat :=
  if (List.length (pattern_sequence a) <=? pattern_step_index a)%nat then 0
  else pattern_step_index a.

(** ** Objects the window can reach *)

(** The entries of the MRLE menu. *)
Definition mrle_menu : list string := ["None"; "MRLE 2"; "MRLE 3"; "MRLE 4"].

(** What the window can call: the four VCP buttons, an entry of either
    menu, the Run/Stop button, the speed button, and a scheduled tick. *)
Inductive gui_call : M unit -> Prop :=
| call_set_vcp (name : string) : In name vcp_buttons -> gui_call (set_vcp name)
| call_choose_sails (value : string) : gui_call (choose_sails value)
| call_choose_mrle (value : string) : In value mrle_menu -> gui_call (choose_mrle value)
| call_toggle_animation : gui_call toggle_animation
| call_speed_multiply : gui_call speed_multiply
| call_animate : gui_call animate.

Inductive reachable : RadarApp -> Prop :=
| reachable_init : reachable init
| reachable_call (a : RadarApp) (m : M unit) :
    reachable a -> gui_call m -> reachable (exec m a).

(** What holds of every reachable object. *)
Record Inv (a : RadarApp) : Prop := mkInv {
  inv_multiplier : In (speed_multiplier a) [1; 2; 4; 8]%Z;
  inv_wf : forallb wf_step (pattern_sequence a) = true;
  inv_loaded : running a = true -> exists p, Loaded a p;
  inv_selected : vcp_selected a = true ->
                 exists vcp, selected_vcp a = Some vcp /\ In vcp vcp_buttons
                             /\ is_empty (pattern_sequence a) = false;
  inv_mrle : In (mrle_var a) mrle_menu;
  inv_index : is_empty (pattern_sequence a) = false ->
              pattern_step_index a < List.length (pattern_sequence a)
}.

(** ** Objects reached by the buttons, used as concrete inputs *)

(** VCP 12 chosen, Run pressed: the first tick has run inside
    [toggle_animation]. *)
Definition running_vcp_12 : RadarApp :=
  exec (set_vcp "VCP 12" ;; toggle_animation) init.

(** The same after 204 more ticks: the last tick before step 0 ends. *)
Definition vcp_12_before_boundary : RadarApp := exec (ticks 204) running_vcp_12.

(** One tick later: running at step index 1. *)
Definition vcp_12_at_step_1 : RadarApp := exec (ticks 205) running_vcp_12.

(** Run pressed on VCP 12, then the speed button pressed through its whole
    cycle: running at step 0, multiplier 1, angle 90. *)
Definition running_vcp_12_at_90 : RadarApp :=
  exec (speed_multiply ;; speed_multiply ;; speed_multiply ;; speed_multiply)
       running_vcp_12.

(** VCP 212 at multiplier 8, Run pressed, 381 ticks later: running at the
    last step (index 16), angle -250, 20 degrees per tick. *)
Definition fast_vcp_212_at_last_step : RadarApp :=
  exec (set_vcp "VCP 212" ;; speed_multiply ;; speed_multiply ;; speed_multiply ;;
        toggle_animation ;; ticks 381) init.

(** A VCP chosen, Run pressed, and [n] ticks. *)
Definition full_pass (vcp : string) (n : nat) : RadarApp :=
  exec (set_vcp vcp ;; toggle_animation ;; ticks n) init.

(** [set_vcp] called with a name that is not a key of [patterns]. *)
Definition unknown_vcp_chosen : RadarApp := exec (set_vcp "VCP 31") init.

(** The same on an object that had loaded VCP 12 before. *)
Definition unknown_vcp_after_vcp_12 : RadarApp :=
  exec (set_vcp "VCP 12" ;; set_vcp "VCP 31") init.

(** ** Notions of the further properties *)

(** [l1] is [l2] with some elements left out: same elements, same order. *)
Inductive subseq {A : Type} : list A -> list A -> Prop :=
| subseq_nil : subseq [] []
| subseq_skip (x : A) (l1 l2 : list A) : subseq l1 l2 -> subseq l1 (x :: l2)
| subseq_take (x : A) (l1 l2 : list A) : subseq l1 l2 -> subseq (x :: l1) (x :: l2).

(** Further facts of every reachable object: the two selections are never
    both active; the angle is never left at or below the boundary; before a
    VCP is chosen nothing runs and nothing is built; while the sweep runs the
    button reads "Stop"; and the sequence is the one the builder gives for
    the chosen VCP and the two selections. *)
Record Inv2 (a : RadarApp) : Prop := mkInv2 {
  inv_exclusive : sails_var a = "None" \/ mrle_var a = "None";
  inv_angle : (angle a <=? -270)%float = false;
  inv_idle : vcp_selected a = false ->
             running a = false /\ pattern_sequence a = [] /\ selected_vcp a = None;
  inv_button : running a = true -> toggle_button_text (widgets a) = "Stop";
  inv_built : forall vcp, selected_vcp a = Some vcp ->
              build_sequence vcp (sails_var a) (mrle_var a) = inl (pattern_sequence a)
}.

(** The selections the window offers: a SAILS entry or an MRLE entry, never
    both. *)
Definition selections : list (string * string) :=
  [ ("None", "None"); ("SAILS 1", "None"); ("SAILS 2", "None"); ("SAILS 3", "None");
    ("None", "MRLE 2"); ("None", "MRLE 3"); ("None", "MRLE 4") ].

(** The sequences the builder gives for the four buttons and these
    selections. *)
Definition gui_sequences : list (list ScanStep) :=
  flat_map (fun vcp =>
              map (fun sm => match build_sequence vcp (fst sm) (snd sm) with
                             | inl l => l
                             | inr _ => []
                             end) selections) vcp_buttons.

(** A stopped object holding sequence [seq] and multiplier [mult]. *)
Definition sweep_object (seq : list ScanStep) (mult : Z) : RadarApp :=
  set_vcp_selected true (set_speed_multiplier mult (set_pattern_sequence seq init)).

(** The attributes [animate] and [advance_pattern_step] read. *)
Definition sweep_view (a : RadarApp) :=
  (angle a, running a, pattern_step_index a, pattern_sequence a, speed_multiplier a,
   (sweep_speed a, cone_angle_width a, current_label a, sweep_radius a)).

(** Program [m] returns on [a] and leaves the sweep stopped at step index
    0. *)
Definition sweep_stops (m : M unit) (a : RadarApp) : bool :=
  match completion m a with
  | inl _ => negb (running (exec m a)) && (pattern_step_index (exec m a) =? 0)%nat
  | inr _ => false
  end.

(** * Tactics *)

(** Reading an attribute of an object after assignments. *)
Ltac attrs :=
  cbn [angle running vcp_selected speed_multiplier fast_mode sweep_progress
       pattern_step_index pattern_sequence selected_vcp sweep_speed cone_angle_width
       current_label sweep_radius sails_var mrle_var widgets stdout after_queue
       set_angle set_running set_vcp_selected set_speed_multiplier set_fast_mode
       set_sweep_progress set_pattern_step_index set_pattern_sequence set_selected_vcp
       set_sweep_speed set_cone_angle_width set_current_label set_sweep_radius
       set_sails_var set_mrle_var set_widgets set_stdout set_after_queue load
       toggle_button_text toggle_button_state vcp_title_label fast_button_text
       sails_dropdown_state mrle_dropdown_state sails_menu z_label angle_label
       config_toggle_button_text config_toggle_button_state config_vcp_title_label
       config_fast_button_text config_sails_dropdown_state config_mrle_dropdown_state
       config_sails_menu config_z_label config_angle_label].

Ltac attrs_in H :=
  cbn [angle running vcp_selected speed_multiplier fast_mode sweep_progress
       pattern_step_index pattern_sequence selected_vcp sweep_speed cone_angle_width
       current_label sweep_radius sails_var mrle_var widgets stdout after_queue
       set_angle set_running set_vcp_selected set_speed_multiplier set_fast_mode
       set_sweep_progress set_pattern_step_index set_pattern_sequence set_selected_vcp
       set_sweep_speed set_cone_angle_width set_current_label set_sweep_radius
       set_sails_var set_mrle_var set_widgets set_stdout set_after_queue load] in H.

Ltac run_method :=
  cbv beta iota delta [bind gets modify config print ret raise attr item subscript lift
                       root_after_animate].

(** * Lists and floats *)

Lemma slice_insert_app (xs ys block : list ScanStep) :
  slice_insert (xs ++ ys) (List.length xs) block = xs ++ block ++ ys.
Proof.
  unfold slice_insert.
  induction xs as [|x xs IH]; simpl.
  - reflexivity.
  - now rewrite IH.
Qed.

Lemma slice_insert_after (l1 l2 block : list ScanStep) (p : ScanStep) :
  slice_insert (l1 ++ p :: l2) (List.length l1 + 1) block = l1 ++ p :: block ++ l2.
Proof.
  replace (l1 ++ p :: l2) with ((l1 ++ [p]) ++ l2) by now rewrite <- app_assoc.
  replace (List.length l1 + 1) with (List.length (l1 ++ [p]))
    by now rewrite length_app.
  rewrite slice_insert_app. now rewrite <- app_assoc.
Qed.

Lemma rev_seq_S (n : nat) : rev (seq 0 (S n)) = n :: rev (seq 0 n).
Proof. now rewrite seq_S, rev_app_distr. Qed.

Lemma nth_error_not_empty {A : Type} (xs : list A) (i : nat) (x : A) :
  nth_error xs i = Some x -> is_empty xs = false /\ (List.length xs <=? i)%nat = false.
Proof.
  intros H. split.
  - destruct xs; [now destruct i|reflexivity].
  - apply Nat.leb_gt. apply nth_error_Some. now rewrite H.
Qed.

Lemma nth_error_in_range {A : Type} (xs : list A) (i : nat) (x : A) :
  nth_error xs i = Some x -> i < List.length xs.
Proof. intros H. apply nth_error_Some. now rewrite H. Qed.

Lemma forallb_nth_error {A : Type} (f : A -> bool) (xs : list A) (i : nat) (x : A) :
  forallb f xs = true -> nth_error xs i = Some x -> f x = true.
Proof.
  intros H Hx. apply nth_error_In in Hx.
  rewrite forallb_forall in H. now apply H.
Qed.

Lemma is_empty_length {A : Type} (xs : list A) :
  0 < List.length xs -> is_empty xs = false.
Proof. destruct xs; simpl; [lia|reflexivity]. Qed.

Lemma bool_cases (b : bool) : b = true \/ b = false.
Proof. destruct b; auto. Qed.

Lemma multiplier_cycle (x : Z) : In (2 ^ (x mod 4 + 1 - 1))%Z [1; 2; 4; 8]%Z.
Proof.
  pose proof (Z.mod_pos_bound x 4 eq_refl) as Hb.
  replace (x mod 4 + 1 - 1)%Z with (x mod 4)%Z by lia.
  assert (H : (x mod 4 = 0 \/ x mod 4 = 1 \/ x mod 4 = 2 \/ x mod 4 = 3)%Z) by lia.
  destruct H as [-> | [-> | [-> | ->]]]; simpl; auto.
Qed.

(** IEEE multiplication commutes with [abs]. *)
Lemma SFabs_binary_round_aux (prec emax : Z) (sx : bool) (mx ex : Z) (lx : location) :
  SFabs (binary_round_aux prec emax sx mx ex lx)
  = binary_round_aux prec emax false mx ex lx.
Proof.
  unfold binary_round_aux.
  destruct (shr_fexp prec emax mx ex lx) as [mrs e'].
  destruct (shr_fexp prec emax _ e' loc_Exact) as [mrs' e''].
  destruct (shr_m mrs'); [reflexivity| |reflexivity].
  destruct (Z.leb e'' (emax - prec)); reflexivity.
Qed.

Lemma abs_mul (x y : float) : (abs (x * y) = abs x * abs y)%float.
Proof.
  apply Prim2SF_inj.
  rewrite abs_spec, !mul_spec, !abs_spec.
  destruct (Prim2SF x) as [sx|sx| |sx mx ex], (Prim2SF y) as [sy|sy| |sy my ey];
    try reflexivity.
  simpl. apply SFabs_binary_round_aux.
Qed.

Lemma abs_speed_times_multiplier (s : float) (m : Z) :
  In m [1; 2; 4; 8]%Z ->
  (abs (s * float_of_int m) = abs s * float_of_int m)%float.
Proof.
  intros Hm. rewrite abs_mul. simpl in Hm.
  destruct Hm as [<-|[<-|[<-|[<-|[]]]]]; reflexivity.
Qed.

(** * The inserter *)

Section Inserter.

Variables sails angle : string.

Lemma sails_scan_cons (pattern : list ScanStep) (i : nat) (idxs : list nat)
      (p : ScanStep) :
  nth_error pattern i = Some p ->
  sails_scan sails angle pattern (i :: idxs) =
  if sails_match sails angle p
  then slice_insert pattern (i + 1) sails_scans
  else sails_scan sails angle pattern idxs.
Proof.
  intros Hp. simpl. rewrite Hp. unfold sails_match.
  destruct (step_angle p =? angle), (angle =? "1.3°"), (sails =? "SAILS 3"),
    (step_label p =? "V"); reflexivity.
Qed.

(** The scan over the indices of a prefix [l1 ++ p :: l2] whose last
    accepted step is [p]. *)
Lemma sails_scan_found (p : ScanStep) (l1 : list ScanStep) :
  sails_match sails angle p = true ->
  forall l2 tail : list ScanStep,
    forallb (fun q => negb (sails_match sails angle q)) l2 = true ->
    sails_scan sails angle (l1 ++ p :: l2 ++ tail)
               (rev (seq 0 (List.length (l1 ++ p :: l2))))
    = l1 ++ p :: sails_scans ++ l2 ++ tail.
Proof.
  intros Hp l2. induction l2 as [|x l2 IH] using rev_ind; intros tail Hl2.
  - simpl app.
    replace (List.length (l1 ++ [p])) with (S (List.length l1))
      by (rewrite length_app; simpl; lia).
    rewrite rev_seq_S.
    rewrite (sails_scan_cons _ _ _ p), Hp.
    + apply slice_insert_after.
    + rewrite nth_error_app2 by lia. now rewrite Nat.sub_diag.
  - rewrite forallb_app in Hl2. apply andb_true_iff in Hl2 as [Hl2 Hx].
    simpl in Hx. rewrite andb_true_r in Hx. apply negb_true_iff in Hx.
    replace (l1 ++ p :: (l2 ++ [x]) ++ tail) with ((l1 ++ p :: l2) ++ x :: tail)
      by (repeat rewrite <- app_assoc; reflexivity).
    replace (List.length (l1 ++ p :: l2 ++ [x])) with (S (List.length (l1 ++ p :: l2)))
      by (rewrite !length_app; simpl; rewrite length_app; simpl; lia).
    rewrite rev_seq_S.
    rewrite (sails_scan_cons _ _ _ x), Hx.
    + rewrite <- app_assoc. simpl app at 2. rewrite (IH (x :: tail) Hl2).
      repeat rewrite <- app_assoc. reflexivity.
    + rewrite nth_error_app2 by lia. now rewrite Nat.sub_diag.
Qed.

(** The scan over the indices of a prefix with no accepted step. *)
Lemma sails_scan_absent :
  forall l tail : list ScanStep,
    forallb (fun q => negb (sails_match sails angle q)) l = true ->
    sails_scan sails angle (l ++ tail) (rev (seq 0 (List.length l))) = l ++ tail.
Proof.
  intros l. induction l as [|x l IH] using rev_ind; intros tail Hl.
  - reflexivity.
  - rewrite forallb_app in Hl. apply andb_true_iff in Hl as [Hl Hx].
    simpl in Hx. rewrite andb_true_r in Hx. apply negb_true_iff in Hx.
    replace (List.length (l ++ [x])) with (S (List.length l))
      by (rewrite length_app; simpl; lia).
    rewrite rev_seq_S, <- app_assoc. simpl app at 2.
    rewrite (sails_scan_cons _ _ _ x), Hx.
    + apply IH, Hl.
    + rewrite nth_error_app2 by lia. now rewrite Nat.sub_diag.
Qed.

Lemma sails_insert_found (l1 l2 : list ScanStep) (p : ScanStep) :
  sails_match sails angle p = true ->
  forallb (fun q => negb (sails_match sails angle q)) l2 = true ->
  sails_insert sails angle (l1 ++ p :: l2) = l1 ++ p :: sails_scans ++ l2.
Proof.
  intros Hp Hl2. unfold sails_insert.
  pose proof (sails_scan_found p l1 Hp l2 [] Hl2) as H.
  now rewrite !app_nil_r in H.
Qed.

Lemma sails_insert_absent (pattern : list ScanStep) :
  forallb (fun q => negb (sails_match sails angle q)) pattern = true ->
  sails_insert sails angle pattern = pattern.
Proof.
  intros H. unfold sails_insert.
  pose proof (sails_scan_absent pattern [] H) as H'.
  now rewrite !app_nil_r in H'.
Qed.

Lemma forallb_no_angle (l : list ScanStep) :
  (forall q, In q l -> step_angle q <> angle) ->
  forallb (fun q => negb (sails_match sails angle q)) l = true.
Proof.
  intros H. apply forallb_forall. intros q Hq. unfold sails_match.
  destruct (String.eqb_spec (step_angle q) angle) as [E|E]; [|reflexivity].
  now apply H in Hq.
Qed.

End Inserter.

Lemma spec_insert_after_last_found (angle : string) (block l1 l2 : list ScanStep)
      (p : ScanStep) :
  step_angle p = angle ->
  (forall q, In q l2 -> step_angle q <> angle) ->
  spec_insert_after_last angle block (l1 ++ p :: l2) = l1 ++ p :: block ++ l2.
Proof.
  intros Hp Hl2.
  assert (Hnone : existsb (fun q => step_angle q =? angle) l2 = false).
  { destruct (existsb _ l2) eqn:E; [|reflexivity].
    apply existsb_exists in E as [q [Hq E]].
    apply String.eqb_eq in E. now apply Hl2 in Hq. }
  induction l1 as [|x l1 IH]; simpl.
  - now rewrite Hp, String.eqb_refl, Hnone.
  - rewrite IH, existsb_app. simpl.
    rewrite Hp, String.eqb_refl, orb_true_r, andb_false_r. reflexivity.
Qed.

Lemma spec_insert_after_last_absent (angle : string) (block pattern : list ScanStep) :
  (forall q, In q pattern -> step_angle q <> angle) ->
  spec_insert_after_last angle block pattern = pattern.
Proof.
  induction pattern as [|x pattern IH]; intros H; [reflexivity|].
  simpl. destruct (String.eqb_spec (step_angle x) angle) as [E|E].
  - exfalso. apply (H x); [now left|exact E].
  - simpl. rewrite IH; [reflexivity|]. intros q Hq. apply H. now right.
Qed.

(** A list either has a last element accepted by [f], or none at all. *)
Lemma last_accepted_split {A : Type} (f : A -> bool) (l : list A) :
  (exists l1 x l2, l = l1 ++ x :: l2 /\ f x = true /\ forall y, In y l2 -> f y = false)
  \/ (forall y, In y l -> f y = false).
Proof.
  induction l as [|x l [(l1 & z & l2 & -> & Hz & Hl2)|Hnone]].
  - right. intros y [].
  - left. exists (x :: l1), z, l2. repeat split; assumption.
  - destruct (f x) eqn:Hx.
    + left. exists [], x, l. repeat split; assumption.
    + right. intros y [<-|Hy]; [exact Hx|now apply Hnone].
Qed.

(** Outside the SAILS 3 / 1.3° combination the loop is the rule the
    specification words. *)
Lemma sails_insert_is_spec (sails angle : string) (pattern : list ScanStep) :
  (angle =? "1.3°") && (sails =? "SAILS 3") = false ->
  sails_insert sails angle pattern = spec_insert_after_last angle sails_scans pattern.
Proof.
  intros Hsp.
  destruct (last_accepted_split (fun q => step_angle q =? angle) pattern)
    as [(l1 & p & l2 & -> & Hp & Hl2)|Hnone].
  - apply String.eqb_eq in Hp.
    assert (Hl2' : forall q, In q l2 -> step_angle q <> angle).
    { intros q Hq. apply String.eqb_neq. now apply Hl2. }
    rewrite (spec_insert_after_last_found angle sails_scans l1 l2 p Hp Hl2').
    apply sails_insert_found.
    + unfold sails_match. now rewrite Hp, String.eqb_refl, Hsp.
    + now apply forallb_no_angle.
  - assert (Hnone' : forall q, In q pattern -> step_angle q <> angle).
    { intros q Hq. apply String.eqb_neq. now apply Hnone. }
    rewrite (spec_insert_after_last_absent angle sails_scans pattern Hnone').
    apply sails_insert_absent. now apply forallb_no_angle.
Qed.

Lemma indices_with_angle_last (angle : string) (p : ScanStep) :
  step_angle p = angle ->
  forall (l1 l2 : list ScanStep) (start : nat),
    (forall q, In q l2 -> step_angle q <> angle) ->
    indices_with_angle angle start (l1 ++ p :: l2)
    = indices_with_angle angle start l1 ++ [start + List.length l1].
Proof.
  intros Hp l1. induction l1 as [|x l1 IH]; intros l2 start Hl2.
  - simpl. rewrite Hp, String.eqb_refl, Nat.add_0_r. f_equal.
    clear Hp. revert start. induction l2 as [|y l2 IHl]; intros start; [reflexivity|].
    simpl. destruct (String.eqb_spec (step_angle y) angle) as [E|E].
    + exfalso. apply (Hl2 y); [now left|exact E].
    + apply IHl. intros q Hq. apply Hl2. now right.
  - simpl. rewrite (IH l2 (S start) Hl2).
    replace (S start + List.length l1) with (start + S (List.length l1)) by lia.
    now destruct (step_angle x =? angle).
Qed.

Lemma indices_with_angle_none (angle : string) :
  forall (l : list ScanStep) (start : nat),
    (forall q, In q l -> step_angle q <> angle) ->
    indices_with_angle angle start l = [].
Proof.
  intros l. induction l as [|y l IH]; intros start Hl; [reflexivity|].
  simpl. destruct (String.eqb_spec (step_angle y) angle) as [E|E].
  - exfalso. apply (Hl y); [now left|exact E].
  - apply IH. intros q Hq. apply Hl. now right.
Qed.

Lemma mrle_insert_found (block l1 l2 : list ScanStep) (p : ScanStep) :
  step_angle p = "5.1°" ->
  (forall q, In q l2 -> step_angle q <> "5.1°") ->
  mrle_insert block (l1 ++ p :: l2) = l1 ++ p :: block ++ l2.
Proof.
  intros Hp Hl2. unfold mrle_insert, last_index.
  rewrite (indices_with_angle_last _ p Hp l1 l2 0 Hl2), rev_app_distr. simpl.
  apply slice_insert_after.
Qed.

Lemma mrle_insert_absent (block pattern : list ScanStep) :
  (forall q, In q pattern -> step_angle q <> "5.1°") ->
  mrle_insert block pattern = pattern.
Proof.
  intros H. unfold mrle_insert. now rewrite (indices_with_angle_none _ pattern 0 H).
Qed.

Lemma apply_mrle_choice (vcp mrle : string) (count : Z) (pattern : list ScanStep) :
  In vcp ["VCP 12"; "VCP 212"] ->
  In (mrle, count) [("MRLE 2", 2%Z); ("MRLE 3", 3%Z); ("MRLE 4", 4%Z)] ->
  apply_mrle mrle vcp pattern = inl (mrle_insert (mrle_scans count) pattern).
Proof.
  intros Hv Hm. simpl in Hv, Hm.
  destruct Hv as [<-|[<-|[]]];
    destruct Hm as [E|[E|[E|[]]]]; inversion E; subst; reflexivity.
Qed.

Lemma build_sequence_no_inserts (vcp : string) :
  build_sequence vcp "None" "None" = inl (dict_get patterns vcp []).
Proof.
  unfold build_sequence. destruct (dict_get patterns vcp []); reflexivity.
Qed.

Lemma catalog_wf (vcp : string) : forallb wf_step (dict_get patterns vcp []) = true.
Proof.
  unfold patterns, dict_get.
  repeat (match goal with |- context [if ?b then _ else _] => destruct b end;
          [reflexivity|]).
  reflexivity.
Qed.

Lemma slice_insert_wf (pattern block : list ScanStep) (i : nat) :
  forallb wf_step pattern = true ->
  forallb wf_step block = true ->
  forallb wf_step (slice_insert pattern i block) = true.
Proof.
  intros Hp Hb. unfold slice_insert.
  rewrite <- (firstn_skipn i pattern), forallb_app in Hp.
  apply andb_true_iff in Hp as [Hf Hs].
  now rewrite !forallb_app, Hf, Hb, Hs.
Qed.

Lemma sails_scan_wf (sails angle : string) (pattern : list ScanStep) (idxs : list nat) :
  forallb wf_step pattern = true ->
  forallb wf_step (sails_scan sails angle pattern idxs) = true.
Proof.
  intros Hp. induction idxs as [|i idxs IH]; [exact Hp|].
  simpl. destruct (nth_error pattern i) as [p|]; [|exact Hp].
  destruct (step_angle p =? angle); [|exact IH].
  destruct ((angle =? "1.3°") && (sails =? "SAILS 3") && (step_label p =? "V"));
    [now apply slice_insert_wf|].
  destruct (negb (angle =? "1.3°") || negb (sails =? "SAILS 3"));
    [now apply slice_insert_wf|exact IH].
Qed.

Lemma apply_sails_wf (sails : string) (pattern : list ScanStep) :
  forallb wf_step pattern = true ->
  forallb wf_step (apply_sails sails pattern) = true.
Proof.
  unfold apply_sails. destruct (negb (sails =? "None")); [|trivial].
  generalize (dict_get insert_points sails []). intros anchors. revert pattern.
  induction anchors as [|angle anchors IH]; intros pattern Hp; [exact Hp|].
  simpl. apply IH. now apply sails_scan_wf.
Qed.

Lemma mrle_scans_wf (count : Z) : forallb wf_step (mrle_scans count) = true.
Proof.
  unfold mrle_scans. destruct (3 <=? count)%Z, (count =? 4)%Z; reflexivity.
Qed.

Lemma apply_mrle_wf (mrle vcp : string) (pattern built : list ScanStep) :
  forallb wf_step pattern = true ->
  apply_mrle mrle vcp pattern = inl built ->
  forallb wf_step built = true.
Proof.
  intros Hp. unfold apply_mrle.
  destruct (negb (mrle =? "None") && str_in vcp ["VCP 212"; "VCP 12"]).
  - destruct (last_char mrle) as [c|]; [|discriminate].
    destruct (int_of_char c) as [count|]; [|discriminate].
    intros [= <-]. unfold mrle_insert.
    destruct (last_index _); [|exact Hp].
    apply slice_insert_wf; [exact Hp|apply mrle_scans_wf].
  - now intros [= <-].
Qed.

(** Every sequence the builder produces keeps the shape invariant of the
    steps, whatever the three strings are. *)
Lemma build_sequence_wf (vcp sails mrle : string) (built : list ScanStep) :
  build_sequence vcp sails mrle = inl built ->
  forallb wf_step built = true.
Proof.
  unfold build_sequence. pose proof (catalog_wf vcp) as Hwf.
  destruct (dict_get patterns vcp []) as [|p0 pattern]; [now intros [= <-]|].
  apply apply_mrle_wf. now apply apply_sails_wf.
Qed.

Lemma slice_insert_length (pattern block : list ScanStep) (i : nat) :
  List.length (slice_insert pattern i block) = List.length pattern + List.length block.
Proof.
  unfold slice_insert. rewrite !length_app.
  rewrite <- (firstn_skipn i pattern) at 3. rewrite length_app. lia.
Qed.

Lemma sails_scan_length (sails angle : string) (pattern : list ScanStep) (idxs : list nat) :
  List.length pattern <= List.length (sails_scan sails angle pattern idxs).
Proof.
  induction idxs as [|i idxs IH]; [reflexivity|].
  simpl. destruct (nth_error pattern i) as [p|]; [|reflexivity].
  destruct (step_angle p =? angle); [|exact IH].
  destruct ((angle =? "1.3°") && (sails =? "SAILS 3") && (step_label p =? "V"));
    [rewrite slice_insert_length; lia|].
  destruct (negb (angle =? "1.3°") || negb (sails =? "SAILS 3"));
    [rewrite slice_insert_length; lia|exact IH].
Qed.

Lemma apply_sails_length (sails : string) (pattern : list ScanStep) :
  List.length pattern <= List.length (apply_sails sails pattern).
Proof.
  unfold apply_sails. destruct (negb (sails =? "None")); [|reflexivity].
  generalize (dict_get insert_points sails []). intros anchors. revert pattern.
  induction anchors as [|angle anchors IH]; intros pattern; [reflexivity|].
  simpl. etransitivity; [|apply IH]. apply sails_scan_length.
Qed.

Lemma apply_mrle_menu (mrle vcp : string) (pattern : list ScanStep) :
  In mrle mrle_menu ->
  exists built, apply_mrle mrle vcp pattern = inl built
                /\ List.length pattern <= List.length built.
Proof.
  intros Hm. unfold apply_mrle.
  simpl in Hm. destruct Hm as [<-|[<-|[<-|[<-|[]]]]].
  1: exists pattern; split; [reflexivity|lia].
  all: destruct (str_in vcp ["VCP 212"; "VCP 12"]); simpl;
    [|exists pattern; split; [reflexivity|lia]];
    eexists; (split; [reflexivity|]); unfold mrle_insert;
    destruct (last_index _); [rewrite slice_insert_length|]; lia.
Qed.

(** From the window the builder never raises and never builds an empty
    sequence. *)
Lemma build_sequence_gui (vcp sails mrle : string) :
  In vcp vcp_buttons -> In mrle mrle_menu ->
  exists built, build_sequence vcp sails mrle = inl built
                /\ is_empty built = false
                /\ forallb wf_step built = true.
Proof.
  intros Hv Hm.
  assert (Hlen : 0 < List.length (dict_get patterns vcp [])).
  { simpl in Hv. destruct Hv as [<-|[<-|[<-|[<-|[]]]]]; simpl; lia. }
  destruct (apply_mrle_menu mrle vcp (apply_sails sails (dict_get patterns vcp [])) Hm)
    as (built & Hb & Hl).
  pose proof (apply_sails_length sails (dict_get patterns vcp [])) as Hs.
  assert (E : build_sequence vcp sails mrle = inl built).
  { unfold build_sequence. destruct (dict_get patterns vcp []); [simpl in Hlen; lia|exact Hb]. }
  exists built. split; [exact E|]. split.
  - apply is_empty_length. lia.
  - exact (build_sequence_wf _ _ _ _ E).
Qed.

(** * The sweep state machine *)

Lemma wf_step_radius (p : ScanStep) :
  wf_step p = true -> exists r, step_radius p = Some r.
Proof.
  unfold wf_step, step_radius.
  destruct (step_label p =? "Z/V"); simpl.
  - intros _. eexists. reflexivity.
  - destruct (step_range p) as [r|]; [|discriminate]. intros _. now exists r.
Qed.

(** [advance_pattern_step] with the index in range: the step is loaded, the
    index stays. *)
Lemma advance_pattern_step_loads (a : RadarApp) (p : ScanStep) (r : Z) :
  nth_error (pattern_sequence a) (pattern_step_index a) = Some p ->
  step_radius p = Some r ->
  advance_pattern_step a = (inl tt, load p r a).
Proof.
  intros Hp Hr. destruct (nth_error_not_empty _ _ _ Hp) as [Hne Hlen].
  unfold advance_pattern_step. run_method. rewrite Hne, Hlen. simpl. rewrite Hp.
  unfold step_radius in Hr. cbv beta iota.
  destruct (negb (step_label p =? "Z/V")).
  - rewrite Hr. reflexivity.
  - injection Hr as <-. reflexivity.
Qed.

(** [advance_pattern_step] with the index past the end of a non-empty
    sequence: the index is put back to 0 and the first step is loaded. *)
Lemma advance_pattern_step_clamps (a : RadarApp) (p : ScanStep) (r : Z) :
  (List.length (pattern_sequence a) <=? pattern_step_index a)%nat = true ->
  nth_error (pattern_sequence a) 0 = Some p ->
  step_radius p = Some r ->
  advance_pattern_step a = (inl tt, load p r (set_pattern_step_index 0 a)).
Proof.
  intros Hlen Hp Hr. destruct (nth_error_not_empty _ _ _ Hp) as [Hne _].
  unfold advance_pattern_step. run_method. rewrite Hne, Hlen.
  change (pattern_step_index
            (set_angle 90%float
               (set_sweep_progress 0%float (set_pattern_step_index 0 a)))) with 0.
  rewrite Hp. unfold step_radius in Hr. cbv beta iota.
  destruct (negb (step_label p =? "Z/V")).
  - rewrite Hr. reflexivity.
  - injection Hr as <-. reflexivity.
Qed.

Lemma advance_pattern_step_empty (a : RadarApp) :
  pattern_sequence a = [] ->
  advance_pattern_step a
  = (inl tt,
     set_widgets (config_toggle_button_text "Run" (widgets a))
       (set_running false (set_stdout (stdout a ++ ["Pattern sequence is empty!"]) a))).
Proof.
  intros H. unfold advance_pattern_step. run_method. rewrite H. reflexivity.
Qed.

Lemma advance_pattern_step_wf (a : RadarApp) :
  is_empty (pattern_sequence a) = false ->
  forallb wf_step (pattern_sequence a) = true ->
  exists (p : ScanStep) (r : Z),
    nth_error (pattern_sequence a) (clamp_index a) = Some p
    /\ wf_step p = true
    /\ step_radius p = Some r
    /\ advance_pattern_step a = (inl tt, load p r (set_pattern_step_index (clamp_index a) a)).
Proof.
  intros Hne Hwf. unfold clamp_index.
  destruct (List.length (pattern_sequence a) <=? pattern_step_index a)%nat eqn:Hlen.
  - destruct (pattern_sequence a) as [|p0 rest] eqn:Hseq; [discriminate|].
    assert (Hw0 : wf_step p0 = true) by (simpl in Hwf; now apply andb_true_iff in Hwf).
    destruct (wf_step_radius p0 Hw0) as [r Hr].
    exists p0, r. repeat split; try assumption.
    apply advance_pattern_step_clamps; [now rewrite Hseq|now rewrite Hseq|exact Hr].
  - apply Nat.leb_gt in Hlen.
    destruct (nth_error (pattern_sequence a) (pattern_step_index a)) as [p|] eqn:Hp;
      [|apply nth_error_None in Hp; lia].
    pose proof (forallb_nth_error _ _ _ _ Hwf Hp) as Hwp.
    destruct (wf_step_radius p Hwp) as [r Hr].
    exists p, r. repeat split; try assumption.
    apply (advance_pattern_step_loads a p r Hp Hr).
Qed.

(** What [advance_pattern_step] leaves in the object when the index is in
    range, whether or not the step has the key its label calls for. *)
Lemma advance_pattern_step_fields (a : RadarApp) (p : ScanStep) :
  nth_error (pattern_sequence a) (pattern_step_index a) = Some p ->
  let a' := exec advance_pattern_step a in
  angle a' = 90%float
  /\ pattern_step_index a' = pattern_step_index a
  /\ sweep_speed a' = Some (step_speed p * float_of_int (speed_multiplier a))%float
  /\ pattern_sequence a' = pattern_sequence a
  /\ running a' = running a
  /\ speed_multiplier a' = speed_multiplier a
  /\ fast_mode a' = fast_mode a
  /\ sails_var a' = sails_var a
  /\ mrle_var a' = mrle_var a.
Proof.
  intros Hp. destruct (step_radius p) as [r|] eqn:Hr.
  - unfold exec. rewrite (advance_pattern_step_loads a p r Hp Hr). simpl.
    repeat split.
  - destruct (nth_error_not_empty _ _ _ Hp) as [Hne Hlen].
    unfold step_radius in Hr.
    unfold exec, advance_pattern_step. run_method. rewrite Hne, Hlen. attrs.
    rewrite Hp. cbv beta iota.
    destruct (negb (step_label p =? "Z/V")); [|discriminate].
    rewrite Hr. simpl. repeat split.
Qed.

(** [advance_pattern_step] never moves an angle that is already 90. *)
Lemma advance_pattern_step_angle (a : RadarApp) :
  angle a = 90%float -> angle (exec advance_pattern_step a) = 90%float.
Proof.
  intros Ha. unfold exec, advance_pattern_step. run_method.
  destruct (is_empty (pattern_sequence a)); [exact Ha|].
  destruct (List.length (pattern_sequence a) <=? pattern_step_index a)%nat; attrs;
    (match goal with |- context [nth_error ?l ?i] => destruct (nth_error l i) as [q|] end;
     [|reflexivity]);
    cbv beta iota;
    (destruct (negb (step_label q =? "Z/V")); [destruct (step_range q)|]); reflexivity.
Qed.

Lemma draw_sweep_cone_loaded (a : RadarApp) (p : ScanStep) :
  Loaded a p -> draw_sweep_cone a = (inl tt, a).
Proof.
  intros (Hp & Hwf & _ & Hw & Hl & Hr).
  unfold draw_sweep_cone. run_method. rewrite Hw, Hl.
  unfold wf_step in Hwf. unfold step_radius in Hr.
  destruct (step_label p =? "Z/V"); simpl in *.
  - rewrite Hp.
    destruct (step_range p), (step_range_z p), (step_range_v p);
      try discriminate; reflexivity.
  - rewrite Hr. destruct (step_range p); [reflexivity|discriminate].
Qed.

(** The first half of a tick of a running object whose current step is
    loaded: [sweep_progress] goes up and [angle] goes down by
    [abs(self.sweep_speed) * 5], and the boundary test runs on the result. *)
Lemma animate_decrements (a : RadarApp) (p : ScanStep) :
  running a = true ->
  Loaded a p ->
  let x := (abs (step_speed p * float_of_int (speed_multiplier a)) * 5)%float in
  animate a
  = animate_boundary (set_angle (angle a - x)%float
                        (set_sweep_progress (sweep_progress a + x)%float a)).
Proof.
  intros Hrun HL. pose proof (draw_sweep_cone_loaded a p HL) as Hdraw.
  destruct HL as (Hp & Hwf & Hs & _).
  intros x. unfold animate.
  cbv beta iota delta [bind gets modify ret attr].
  rewrite Hrun. cbv beta iota delta [negb].
  rewrite Hdraw. cbv beta iota. rewrite Hs. cbv beta iota. attrs.
  rewrite Hs. cbv beta iota. attrs.
  reflexivity.
Qed.

(** The second half, on an object whose angle the first half has brought
    to [d]. *)
Lemma animate_boundary_cases (a : RadarApp) :
  animate_boundary a =
  if (angle a <=? -270)%float then
    let a2 := set_pattern_step_index (pattern_step_index a + 1) (set_angle 90%float a) in
    if (List.length (pattern_sequence a) <=? pattern_step_index a + 1)%nat then
      (inl tt,
       set_widgets (config_toggle_button_text "Run" (widgets a))
         (set_running false (set_pattern_step_index 0 a2)))
    else (advance_pattern_step ;; root_after_animate) a2
  else (inl tt, set_after_queue (S (after_queue a)) a).
Proof.
  unfold animate_boundary. run_method.
  destruct (angle a <=? -270)%float; [|reflexivity].
  attrs.
  destruct (List.length (pattern_sequence a) <=? pattern_step_index a + 1)%nat; reflexivity.
Qed.

(** One tick of a running object whose current step is loaded, as an
    equation: the decrement [angle -= abs(self.sweep_speed) * 5], then the
    test against -270. *)
Lemma animate_running (a : RadarApp) (p : ScanStep) :
  running a = true ->
  Loaded a p ->
  let s := (step_speed p * float_of_int (speed_multiplier a))%float in
  let d := (angle a - abs s * 5)%float in
  let a1 := set_angle d (set_sweep_progress (sweep_progress a + abs s * 5)%float a) in
  animate a =
  if (d <=? -270)%float then
    let a2 := set_pattern_step_index (pattern_step_index a + 1) (set_angle 90%float a1) in
    if (List.length (pattern_sequence a) <=? pattern_step_index a + 1)%nat then
      (inl tt,
       set_widgets (config_toggle_button_text "Run" (widgets a))
         (set_running false (set_pattern_step_index 0 a2)))
    else (advance_pattern_step ;; root_after_animate) a2
  else (inl tt, set_after_queue (S (after_queue a)) a1).
Proof.
  intros Hrun HL s d a1.
  pose proof (animate_decrements a p Hrun HL) as E. cbv zeta in E.
  rewrite E, animate_boundary_cases. reflexivity.
Qed.

(** [build_pattern_sequence] stores the value of [build_sequence]; when the
    MRLE block raises, the sequence is left empty. *)
Lemma build_pattern_sequence_stores (a : RadarApp) (vcp : string) :
  selected_vcp a = Some vcp ->
  build_pattern_sequence a
  = match build_sequence vcp (sails_var a) (mrle_var a) with
    | inl pattern => (inl tt, set_pattern_sequence pattern a)
    | inr e => (inr e, set_pattern_sequence [] a)
    end.
Proof.
  intros Hv. unfold build_pattern_sequence, build_sequence. run_method. attrs.
  rewrite Hv. cbv beta iota.
  destruct (dict_get patterns vcp []) as [|p0 pattern]; [reflexivity|].
  cbv beta iota delta [is_empty].
  destruct (apply_mrle _ _ _); reflexivity.
Qed.

Lemma set_vcp_effect (a : RadarApp) (vcp_name : string) :
  In vcp_name vcp_buttons ->
  let pattern := dict_get patterns vcp_name [] in
  let i := if (List.length pattern <=? pattern_step_index a)%nat then 0
           else pattern_step_index a in
  let a' := exec (set_vcp vcp_name) a in
  completion (set_vcp vcp_name) a = inl tt
  /\ state_of a' = Stopped
  /\ sails_var a' = "None" /\ mrle_var a' = "None"
  /\ pattern_sequence a' = pattern
  /\ angle a' = 90%float
  /\ pattern_step_index a' = i
  /\ selected_vcp a' = Some vcp_name
  /\ speed_multiplier a' = speed_multiplier a
  /\ exists p, nth_error pattern i = Some p /\ Loaded a' p.
Proof.
  intros Hin pattern i a'.
  assert (Hne : is_empty pattern = false).
  { subst pattern. simpl in Hin. destruct Hin as [<-|[<-|[<-|[<-|[]]]]]; reflexivity. }
  pose proof (catalog_wf vcp_name) as Hwf. fold pattern in Hwf.
  assert (Hi : nth_error pattern i <> None).
  { apply nth_error_Some. subst i.
    destruct (List.length pattern <=? pattern_step_index a)%nat eqn:Hlen.
    - destruct pattern; [discriminate|simpl; lia].
    - now apply Nat.leb_gt in Hlen. }
  assert (Hi2 : (List.length pattern <=? i)%nat = false).
  { apply Nat.leb_gt. now apply nth_error_Some. }
  subst a'. unfold exec, completion, set_vcp. run_method. attrs.
  destruct (str_in vcp_name ["VCP 212"; "VCP 12"]), (vcp_name =? "VCP 35");
    cbv beta iota; attrs;
    (match goal with |- context [build_pattern_sequence ?s] =>
       rewrite (build_pattern_sequence_stores s vcp_name eq_refl) end); attrs;
    rewrite build_sequence_no_inserts; fold pattern; cbv beta iota;
    (match goal with
     | |- context [advance_pattern_step ?s] =>
         destruct (advance_pattern_step_wf s Hne Hwf) as (p & r & Hp & Hwp & Hr & E);
         rewrite E; clear E
     end);
    unfold clamp_index in Hp |- *; attrs_in Hp; attrs; fold i in Hp |- *;
    (match goal with |- context [build_pattern_sequence ?s] =>
       rewrite (build_pattern_sequence_stores s vcp_name eq_refl) end); attrs;
    rewrite build_sequence_no_inserts; fold pattern; cbv beta iota;
    (match goal with
     | |- context [advance_pattern_step ?s] =>
         destruct (advance_pattern_step_wf s Hne Hwf) as (p' & r' & Hp' & Hwp' & Hr' & E);
         rewrite E; clear E
     end);
    unfold clamp_index in Hp' |- *; attrs_in Hp'; attrs; rewrite Hi2 in Hp' |- *;
    rewrite Hp in Hp'; injection Hp' as Hpp; subst p';
    (repeat split; try reflexivity;
     exists p; split; [exact Hp|]; unfold Loaded; simpl;
     repeat split; try assumption; symmetry; assumption).
Qed.

(** [toggle_animation] on a stopped object with a VCP chosen and an empty
    sequence: the message is printed, and then [running] is set and
    [animate] is called all the same. *)
Lemma toggle_animation_empty_sequence (a : RadarApp) :
  vcp_selected a = true -> running a = false -> pattern_sequence a = [] ->
  exists b,
    toggle_animation a = animate b
    /\ running b = true
    /\ stdout b = stdout a ++ ["Pattern sequence is empty!"]
    /\ toggle_button_text (widgets b) = "Stop"
    /\ pattern_sequence b = [].
Proof.
  intros Hsel Hrun Hseq. eexists. split.
  - unfold toggle_animation. run_method.
    rewrite Hsel. cbv beta iota delta [negb].
    rewrite Hrun. cbv beta iota delta [negb].
    rewrite (advance_pattern_step_empty (set_pattern_step_index 0 a) Hseq).
    cbv beta iota. reflexivity.
  - attrs. repeat split. exact Hseq.
Qed.

(** One full pass of each base pattern at multiplier 1 stops by itself
    within 5500 ticks, with the step index back at 0. *)
Lemma full_pass_auto_stops (vcp : string) :
  In vcp vcp_buttons ->
  let a := full_pass vcp (55 * 100) in
  running a = false /\ pattern_step_index a = 0.
Proof.
  intros Hin. simpl in Hin.
  destruct Hin as [<-|[<-|[<-|[<-|[]]]]]; vm_compute; split; reflexivity.
Qed.

(** * Reachable objects *)

Lemma Loaded_empty (a : RadarApp) (p : ScanStep) :
  Loaded a p -> is_empty (pattern_sequence a) = false.
Proof.
  intros (Hp & _). now destruct (nth_error_not_empty _ _ _ Hp).
Qed.

Lemma speed_multiply_inv (a : RadarApp) :
  Inv a -> Inv (exec speed_multiply a) /\ completion speed_multiply a = inl tt.
Proof.
  intros [Hm Hwf Hl Hs Hmr Hidx].
  unfold exec, completion, speed_multiply. run_method. attrs.
  destruct (is_empty (pattern_sequence a)) eqn:Hne; cbv beta iota delta [negb].
  - split; [|reflexivity]. cbn [snd]. constructor; attrs; try assumption.
    + apply multiplier_cycle.
    + intros Hrun. destruct (Hl Hrun) as [p HL].
      apply Loaded_empty in HL. congruence.
    + intros Hsel. destruct (Hs Hsel) as (vcp & _ & _ & Habs). discriminate Habs.
    + intros Habs. congruence.
  - match goal with
    | |- context [advance_pattern_step ?s] =>
        destruct (advance_pattern_step_wf s Hne Hwf) as (p & r & Hp & Hwp & Hr & E);
        rewrite E; clear E
    end.
    split; [|reflexivity]. cbn [snd]. constructor; attrs; try assumption.
    + apply multiplier_cycle.
    + intros _. exists p. unfold Loaded. attrs. rewrite Hr. repeat split; assumption.
    + intros Hsel. destruct (Hs Hsel) as (vcp & Hv & Hin & _).
      exists vcp. repeat split; assumption.
    + intros _. exact (nth_error_in_range _ _ _ Hp).
Qed.

Lemma animate_inv (a : RadarApp) :
  Inv a -> Inv (exec animate a) /\ completion animate a = inl tt.
Proof.
  intros HI. destruct (running a) eqn:Hrun.
  - destruct HI as [Hm Hwf Hl Hs Hmr Hidx]. destruct (Hl Hrun) as [p HL].
    pose proof (animate_running a p Hrun HL) as E. cbv zeta in E.
    unfold exec, completion. rewrite E. clear E.
    destruct (_ <=? -270)%float.
    + destruct (_ <=? _)%nat eqn:Hn.
      * split; [|reflexivity]. cbn [snd]. constructor; attrs; try assumption.
        -- discriminate.
        -- intros Hne. destruct (pattern_sequence a); [discriminate|simpl; lia].
      * apply Nat.leb_gt in Hn.
        destruct (nth_error (pattern_sequence a) (pattern_step_index a + 1)) as [q|] eqn:Hq;
          [|apply nth_error_None in Hq; lia].
        pose proof (forallb_nth_error _ _ _ _ Hwf Hq) as Hwq.
        destruct (wf_step_radius q Hwq) as [r Hr].
        match goal with
        | |- context [(advance_pattern_step ;; root_after_animate) ?a2] =>
            assert (Hadv : (advance_pattern_step ;; root_after_animate) a2
                           = (inl tt, set_after_queue (S (after_queue a)) (load q r a2)))
              by (unfold bind;
                  rewrite (advance_pattern_step_loads a2 q r Hq Hr); reflexivity);
            rewrite Hadv
        end.
        split; [|reflexivity]. cbn [snd]. constructor; attrs; try assumption.
        -- intros _. exists q. unfold Loaded. attrs. rewrite Hr.
           repeat split; assumption.
        -- intros _. exact Hn.
    + split; [|reflexivity]. cbn [snd]. constructor; attrs; assumption.
  - assert (E : animate a = (inl tt, a))
      by (unfold animate; run_method; rewrite Hrun; reflexivity).
    unfold exec, completion. rewrite E. split; [exact HI|reflexivity].
Qed.

Lemma toggle_animation_inv (a : RadarApp) :
  Inv a -> Inv (exec toggle_animation a) /\ completion toggle_animation a = inl tt.
Proof.
  intros [Hm Hwf Hl Hs Hmr Hidx].
  unfold exec, completion, toggle_animation. run_method.
  destruct (bool_cases (vcp_selected a)) as [Hsel|Hsel]; rewrite Hsel;
    cbv beta iota delta [negb].
  - destruct (bool_cases (running a)) as [Hrun|Hrun]; rewrite Hrun;
      cbv beta iota delta [negb].
    + split; [|reflexivity]. cbn [snd]. constructor; attrs; try assumption.
      discriminate.
    + destruct (Hs Hsel) as (vcp & Hv & Hin & Hne). attrs.
      match goal with
      | |- context [advance_pattern_step ?s] =>
          destruct (advance_pattern_step_wf s Hne Hwf) as (p & r & Hp & Hwp & Hr & E);
          rewrite E; clear E
      end.
      cbv beta iota. attrs.
      match goal with
      | |- context [animate ?b] =>
          assert (HIb : Inv b);
          [|destruct (animate_inv b HIb) as [H1 H2]; split; assumption]
      end.
      constructor; attrs; try assumption.
      * intros _. exists p. unfold Loaded. attrs. rewrite Hr. repeat split; assumption.
      * intros _. exact (nth_error_in_range _ _ _ Hp).
  - split; [|reflexivity]. cbn [snd]. constructor; attrs; assumption.
Qed.

Lemma set_vcp_inv (a : RadarApp) (name : string) :
  In name vcp_buttons ->
  Inv a -> Inv (exec (set_vcp name) a) /\ completion (set_vcp name) a = inl tt.
Proof.
  intros Hin [Hm Hwf Hl Hs Hmr Hidx].
  destruct (set_vcp_effect a name Hin)
    as (Hc & Hst & Hsa & Hmrle & Hseq & _ & Hi & Hv & Hmult & (p & Hp & HL)).
  split; [|exact Hc]. constructor.
  - now rewrite Hmult.
  - rewrite Hseq. apply catalog_wf.
  - intros _. now exists p.
  - intros _. exists name. repeat split; [exact Hv|exact Hin|].
    now apply Loaded_empty in HL.
  - rewrite Hmrle. now left.
  - intros _. rewrite Hi, Hseq. exact (nth_error_in_range _ _ _ Hp).
Qed.

(** The common tail of the two selection handlers: rebuild, then load. *)
Ltac rebuild_and_load vcp Hv Hin Hmrle :=
  match goal with
  | |- context [build_pattern_sequence ?s] =>
      rewrite (build_pattern_sequence_stores s vcp Hv)
  end;
  attrs;
  match goal with
  | |- context [build_sequence vcp ?sails ?mrle] =>
      let built := fresh "built" in
      let Hb := fresh "Hb" in
      let Hbne := fresh "Hbne" in
      let Hbwf := fresh "Hbwf" in
      destruct (build_sequence_gui vcp sails mrle Hin Hmrle) as (built & Hb & Hbne & Hbwf);
      rewrite Hb; cbv beta iota;
      match goal with
      | |- context [advance_pattern_step ?s] =>
          let p := fresh "p" in
          let r := fresh "r" in
          let E := fresh "E" in
          let Hp := fresh "Hp" in
          destruct (advance_pattern_step_wf s Hbne Hbwf) as (p & r & Hp & _ & _ & E);
          rewrite E; clear E;
          split; [|reflexivity]; cbn [snd]; constructor; attrs; try assumption;
          [ discriminate
          | intros _; exists vcp; repeat split; assumption
          | ..
          | intros _; exact (nth_error_in_range _ _ _ Hp) ]
      end
  end.

Lemma choose_sails_inv (a : RadarApp) (value : string) :
  Inv a ->
  Inv (exec (choose_sails value) a) /\ completion (choose_sails value) a = inl tt.
Proof.
  intros [Hm Hwf Hl Hs Hmr Hidx].
  unfold exec, completion, choose_sails, set_sails, sails_selected. run_method. attrs.
  destruct (bool_cases (vcp_selected a)) as [Hsel|Hsel]; rewrite Hsel;
    cbv beta iota delta [negb].
  - destruct (Hs Hsel) as (vcp & Hv & Hin & Hne). attrs.
    destruct (value =? "None"); cbv beta iota delta [negb]; attrs.
    + rewrite Hv. cbv beta iota.
      destruct (str_in vcp ["VCP 212"; "VCP 12"]); cbv beta iota; attrs;
        rebuild_and_load vcp Hv Hin Hmr.
    + assert (Hnone : In "None" mrle_menu) by (left; reflexivity).
      rebuild_and_load vcp Hv Hin Hnone.
  - split; [|reflexivity]. cbn [snd]. constructor; attrs; assumption.
Qed.

Lemma choose_mrle_inv (a : RadarApp) (value : string) :
  In value mrle_menu ->
  Inv a ->
  Inv (exec (choose_mrle value) a) /\ completion (choose_mrle value) a = inl tt.
Proof.
  intros Hvalue [Hm Hwf Hl Hs Hmr Hidx].
  unfold exec, completion, choose_mrle, mrle_selected. run_method. attrs.
  destruct (bool_cases (vcp_selected a)) as [Hsel|Hsel]; rewrite Hsel;
    cbv beta iota delta [negb].
  - destruct (Hs Hsel) as (vcp & Hv & Hin & Hne). attrs.
    destruct (value =? "None"); cbv beta iota delta [negb]; attrs;
      rebuild_and_load vcp Hv Hin Hvalue.
  - split; [|reflexivity]. cbn [snd]. constructor; attrs; try assumption.
    left. reflexivity.
Qed.

(** Every object the window can reach satisfies the invariant, and no call
    from the window ends in an exception. *)
Theorem reachable_Inv (a : RadarApp) : reachable a -> Inv a.
Proof.
  induction 1 as [|a m Hr IH Hc].
  - constructor; try reflexivity; try discriminate; left; reflexivity.
  - destruct Hc.
    + now apply set_vcp_inv.
    + now apply choose_sails_inv.
    + now apply choose_mrle_inv.
    + now apply toggle_animation_inv.
    + now apply speed_multiply_inv.
    + now apply animate_inv.
Qed.

Theorem reachable_no_exception (a : RadarApp) (m : M unit) :
  reachable a -> gui_call m -> completion m a = inl tt.
Proof.
  intros Hr Hc. apply reachable_Inv in Hr. destruct Hc.
  - now apply set_vcp_inv.
  - now apply choose_sails_inv.
  - now apply choose_mrle_inv.
  - now apply toggle_animation_inv.
  - now apply speed_multiply_inv.
  - now apply animate_inv.
Qed.

(** A running object reached from the window has its current step loaded. *)
Corollary reachable_running_loaded (a : RadarApp) :
  reachable a -> running a = true ->
  (exists p, Loaded a p)
  /\ forallb wf_step (pattern_sequence a) = true
  /\ In (speed_multiplier a) [1; 2; 4; 8]%Z.
Proof.
  intros Hr Hrun. destruct (reachable_Inv a Hr) as [Hm Hwf Hl _ _ _].
  repeat split; auto.
Qed.

(** * The claims *)

(** C1 (the code departs from it). [set_vcp] stops the machine, clears both
    selections, rebuilds the sequence from the catalog and puts the angle at
    90, but it does not assign the step index: [advance_pattern_step] only
    resets an index that is out of range.  Choosing VCP 35 while VCP 12 runs
    at step index 1 leaves the index at 1 and loads the second step of
    VCP 35 (V at 0.5°, speed -0.26), not the first. *)
Theorem C1_set_vcp_keeps_step_index_in_range :
  let a := vcp_12_at_step_1 in
  let a' := exec (set_vcp "VCP 35") a in
  (state_of a = Running /\ pattern_step_index a = 1)
  /\ completion (set_vcp "VCP 35") a = inl tt
  /\ state_of a' = Stopped
  /\ sails_var a' = "None" /\ mrle_var a' = "None"
  /\ pattern_sequence a' = vcp_35
  /\ angle a' = 90%float
  /\ pattern_step_index a' = 1
  /\ Loaded a' (cone "V" "0.5°" (-0.26)%float 8 80)
  /\ nth_error vcp_35 0 = Some (cone "Z" "0.5°" (-0.08)%float 8 250)
  /\ current_label a' = Some "V"
  /\ sweep_speed a' = Some (-0.26)%float.
Proof.
  cbv zeta. unfold Loaded. vm_compute. repeat split.
Qed.

(** C2, as the claim states it, fails: on the running VCP 12 object, whose
    sequence is loaded, the angle is 88.25 before [speed_multiply] and 90
    after it. *)
Lemma C2_speed_multiply_moves_angle :
  is_empty (pattern_sequence running_vcp_12) = false
  /\ state_of running_vcp_12 = Running
  /\ angle running_vcp_12 = 88.25%float
  /\ angle (exec speed_multiply running_vcp_12) = 90%float
  /\ angle (exec speed_multiply running_vcp_12) <> angle running_vcp_12.
Proof.
  vm_compute. repeat split.
  intros H.
  assert (E : (90 =? 88.25)%float = true) by (rewrite H; reflexivity).
  vm_compute in E. discriminate E.
Qed.

(** C2 (amended). On a sequence whose current step is [p], whatever the
    machine state, [speed_multiply] moves the multiplier to the next power of
    two, makes the effective speed the step's speed times the new
    multiplier, leaves the step index, the sequence and [running] as they
    are, and restarts the step's sweep: the angle is 90. *)
Theorem C2_speed_multiply_reloads_speed (a : RadarApp) (p : ScanStep) :
  nth_error (pattern_sequence a) (pattern_step_index a) = Some p ->
  let m := (2 ^ ((fast_mode a mod 4 + 1) - 1))%Z in
  let a' := exec speed_multiply a in
  speed_multiplier a' = m
  /\ sweep_speed a' = Some (step_speed p * float_of_int m)%float
  /\ pattern_step_index a' = pattern_step_index a
  /\ angle a' = 90%float
  /\ running a' = running a
  /\ pattern_sequence a' = pattern_sequence a.
Proof.
  intros Hp m a'. subst a'.
  destruct (nth_error_not_empty _ _ _ Hp) as [Hne _].
  unfold exec, speed_multiply. run_method. attrs. rewrite Hne.
  cbv beta iota delta [negb]. fold m.
  match goal with
  | |- context [advance_pattern_step ?a2] =>
      pose proof (advance_pattern_step_fields a2 p Hp) as H
  end.
  cbv zeta in H. unfold exec in H. attrs_in H.
  destruct H as (Ha & Hi & Hs & Hq & Hr & Hm & _).
  repeat split; assumption.
Qed.

Lemma C2_speed_multiply_reloads_speed_witness :
  nth_error (pattern_sequence running_vcp_12) (pattern_step_index running_vcp_12)
  = Some (cone "Z" "0.5°" (-0.35)%float 8 250)
  /\ speed_multiplier (exec speed_multiply running_vcp_12) = 2%Z
  /\ sweep_speed (exec speed_multiply running_vcp_12) = Some (-0.35 * 2)%float
  /\ pattern_step_index (exec speed_multiply running_vcp_12) = 0
  /\ angle (exec speed_multiply running_vcp_12) = 90%float.
Proof.
  assert (Hp : nth_error (pattern_sequence running_vcp_12)
                         (pattern_step_index running_vcp_12)
               = Some (cone "Z" "0.5°" (-0.35)%float 8 250))
    by (vm_compute; reflexivity).
  split; [exact Hp|].
  destruct (C2_speed_multiply_reloads_speed running_vcp_12 _ Hp)
    as (Hm & Hs & Hi & Ha & _).
  split; [exact Hm|]. split; [exact Hs|]. split; [exact Hi|exact Ha].
Defined.

(** C3 (the code departs from it). With a VCP chosen and an empty sequence,
    [toggle_animation] does print the message of [advance_pattern_step], but
    then goes on: it sets [running] to true, relabels the button "Stop" and
    calls [animate].  On a fresh object [animate] stops on the unset
    [cone_angle_width]; on an object that had loaded a pattern before, the
    first tick runs with the old step's speed and the next one is scheduled. *)
Theorem C3_toggle_animation_on_empty_sequence_starts :
  (let a := unknown_vcp_chosen in
   let a' := exec toggle_animation a in
   vcp_selected a = true /\ pattern_sequence a = [] /\ running a = false
   /\ stdout a' = stdout a ++ ["Pattern sequence is empty!"]
   /\ running a' = true
   /\ toggle_button_text (widgets a') = "Stop"
   /\ completion toggle_animation a = inr (AttributeError "cone_angle_width"))
  /\
  (let a := unknown_vcp_after_vcp_12 in
   let a' := exec toggle_animation a in
   vcp_selected a = true /\ pattern_sequence a = [] /\ running a = false
   /\ stdout a' = stdout a ++ ["Pattern sequence is empty!"]
   /\ running a' = true
   /\ angle a' = 88.25%float
   /\ after_queue a' = S (after_queue a)
   /\ completion toggle_animation a = inl tt).
Proof.
  cbv zeta. vm_compute. repeat split.
Qed.

(** C4. A tick of a running object whose decremented angle is at or below
    -270 moves the step index by one and no more: when the incremented index
    reaches the length of the sequence the index is put back to 0 and
    [running] becomes false, with no further tick scheduled; otherwise the
    step at the incremented index is loaded, the angle is 90 again and the
    next tick is scheduled. *)
Theorem C4_tick_at_boundary_advances_one_step (a : RadarApp) (p : ScanStep) :
  running a = true ->
  Loaded a p ->
  forallb wf_step (pattern_sequence a) = true ->
  (angle a - abs (step_speed p * float_of_int (speed_multiplier a)) * 5 <=? -270)%float
  = true ->
  let n := List.length (pattern_sequence a) in
  let i := pattern_step_index a in
  let a' := exec animate a in
  completion animate a = inl tt
  /\ pattern_sequence a' = pattern_sequence a
  /\ (n <= i + 1 ->
      pattern_step_index a' = 0 /\ running a' = false
      /\ after_queue a' = after_queue a)
  /\ (i + 1 < n ->
      pattern_step_index a' = i + 1 /\ running a' = true
      /\ angle a' = 90%float
      /\ after_queue a' = S (after_queue a)
      /\ exists q, nth_error (pattern_sequence a) (i + 1) = Some q /\ Loaded a' q).
Proof.
  intros Hrun HL Hwf Hd n i a'.
  pose proof (animate_running a p Hrun HL) as E. cbv zeta in E. rewrite Hd in E.
  subst a'. unfold exec, completion. rewrite E. clear E. fold n. fold i.
  destruct (n <=? i + 1)%nat eqn:Hn.
  - apply Nat.leb_le in Hn. simpl. repeat split; try reflexivity; exfalso; lia.
  - apply Nat.leb_gt in Hn.
    destruct (nth_error (pattern_sequence a) (i + 1)) as [q|] eqn:Hq;
      [|apply nth_error_None in Hq; fold n in Hq; lia].
    pose proof (forallb_nth_error _ _ _ _ Hwf Hq) as Hwq.
    destruct (wf_step_radius q Hwq) as [r Hr].
    match goal with
    | |- context [(advance_pattern_step ;; root_after_animate) ?a2] =>
        assert (Hadv : (advance_pattern_step ;; root_after_animate) a2
                       = (inl tt, set_after_queue (S (after_queue a)) (load q r a2)))
          by (unfold bind;
              rewrite (advance_pattern_step_loads a2 q r Hq Hr); reflexivity);
        rewrite Hadv
    end.
    simpl. repeat split; try reflexivity; try (exfalso; lia); try assumption.
    exists q. split; [reflexivity|].
    unfold Loaded. simpl. rewrite Hr. repeat split; assumption.
Qed.

Lemma C4_tick_at_boundary_advances_one_step_witness :
  (running vcp_12_before_boundary = true
   /\ angle vcp_12_before_boundary = (-268.75)%float
   /\ pattern_step_index vcp_12_before_boundary = 0
   /\ pattern_step_index (exec animate vcp_12_before_boundary) = 1
   /\ angle (exec animate vcp_12_before_boundary) = 90%float)
  /\
  (running fast_vcp_212_at_last_step = true
   /\ angle fast_vcp_212_at_last_step = (-250)%float
   /\ pattern_step_index fast_vcp_212_at_last_step = 16
   /\ pattern_step_index (exec animate fast_vcp_212_at_last_step) = 0
   /\ running (exec animate fast_vcp_212_at_last_step) = false).
Proof.
  split.
  - assert (Hrun : running vcp_12_before_boundary = true) by (vm_compute; reflexivity).
    assert (HL : Loaded vcp_12_before_boundary (cone "Z" "0.5°" (-0.35)%float 8 250))
      by (unfold Loaded; vm_compute; repeat split).
    assert (Hwf : forallb wf_step (pattern_sequence vcp_12_before_boundary) = true)
      by (vm_compute; reflexivity).
    assert (Hd : (angle vcp_12_before_boundary
                  - abs (step_speed (cone "Z" "0.5°" (-0.35)%float 8 250)
                         * float_of_int (speed_multiplier vcp_12_before_boundary)) * 5
                  <=? -270)%float = true)
      by (vm_compute; reflexivity).
    assert (Hn : pattern_step_index vcp_12_before_boundary + 1
                 < List.length (pattern_sequence vcp_12_before_boundary))
      by (vm_compute; repeat constructor).
    assert (Hi : pattern_step_index vcp_12_before_boundary = 0)
      by (vm_compute; reflexivity).
    split; [exact Hrun|]. split; [vm_compute; reflexivity|]. split; [exact Hi|].
    destruct (C4_tick_at_boundary_advances_one_step _ _ Hrun HL Hwf Hd)
      as (_ & _ & _ & Hstep).
    destruct (Hstep Hn) as (Hidx & _ & Hangle & _).
    rewrite Hi in Hidx. split; [exact Hidx|exact Hangle].
  - assert (Hrun : running fast_vcp_212_at_last_step = true) by (vm_compute; reflexivity).
    assert (HL : Loaded fast_vcp_212_at_last_step (cone "V" "19.5°" (-0.5)%float 8 63))
      by (unfold Loaded; vm_compute; repeat split).
    assert (Hwf : forallb wf_step (pattern_sequence fast_vcp_212_at_last_step) = true)
      by (vm_compute; reflexivity).
    assert (Hd : (angle fast_vcp_212_at_last_step
                  - abs (step_speed (cone "V" "19.5°" (-0.5)%float 8 63)
                         * float_of_int (speed_multiplier fast_vcp_212_at_last_step)) * 5
                  <=? -270)%float = true)
      by (vm_compute; reflexivity).
    assert (Hn : List.length (pattern_sequence fast_vcp_212_at_last_step)
                 <= pattern_step_index fast_vcp_212_at_last_step + 1)
      by (vm_compute; repeat constructor).
    split; [exact Hrun|]. split; [vm_compute; reflexivity|].
    split; [vm_compute; reflexivity|].
    destruct (C4_tick_at_boundary_advances_one_step _ _ Hrun HL Hwf Hd)
      as (_ & _ & Hwrap & _).
    destruct (Hwrap Hn) as (Hidx & Hstop & _).
    split; [exact Hidx|exact Hstop].
Defined.

(** C5. SAILS insertion: for a choice other than ["None"] the anchors of the
    choice are applied one after the other; an anchor (outside the
    SAILS 3 / 1.3° combination, which C6 covers) puts the fixed two-step block
    right after the last step whose angle text is the anchor, and an anchor
    that no step carries leaves the pattern as it is: the backward scan is
    the rule "insert after the last step of that angle".  On each of the
    four catalog patterns and each of the three choices the built sequence
    is the pattern with the block inserted after the last step of every
    anchor's angle.  SAILS 1 on VCP 212 gives 19 steps, the block directly
    after the last "3.1°" step. *)
Theorem C5_sails_inserts_block_after_last_anchor_step :
  (forall (sails : string) (pattern : list ScanStep),
      sails <> "None" ->
      apply_sails sails pattern
      = fold_left (fun pat angle => sails_insert sails angle pat)
                  (dict_get insert_points sails []) pattern)
  /\
  (forall (sails angle : string) (l1 l2 : list ScanStep) (p : ScanStep),
      (angle =? "1.3°") && (sails =? "SAILS 3") = false ->
      step_angle p = angle ->
      (forall q, In q l2 -> step_angle q <> angle) ->
      sails_insert sails angle (l1 ++ p :: l2) = l1 ++ p :: sails_scans ++ l2)
  /\
  (forall (sails angle : string) (pattern : list ScanStep),
      (forall q, In q pattern -> step_angle q <> angle) ->
      sails_insert sails angle pattern = pattern)
  /\
  (forall (sails angle : string) (pattern : list ScanStep),
      (angle =? "1.3°") && (sails =? "SAILS 3") = false ->
      sails_insert sails angle pattern
      = spec_insert_after_last angle sails_scans pattern)
  /\
  (forall vcp sails : string,
      In vcp vcp_buttons ->
      In sails ["SAILS 1"; "SAILS 2"; "SAILS 3"] ->
      build_sequence vcp sails "None"
      = inl (fold_left (fun pat angle => spec_insert_after_last angle sails_scans pat)
                       (dict_get insert_points sails [])
                       (dict_get patterns vcp [])))
  /\
  (exists (l1 l2 : list ScanStep) (p : ScanStep),
      vcp_212 = l1 ++ p :: l2
      /\ step_angle p = "3.1°"
      /\ (forall q, In q l2 -> step_angle q <> "3.1°")
      /\ build_sequence "VCP 212" "SAILS 1" "None" = inl (l1 ++ p :: sails_scans ++ l2)
      /\ List.length vcp_212 = 17
      /\ List.length (l1 ++ p :: sails_scans ++ l2) = 19).
Proof.
  split; [|split; [|split; [|split; [|split]]]].
  - intros sails pattern Hs. unfold apply_sails.
    destruct (String.eqb_spec sails "None") as [E|_]; [contradiction|reflexivity].
  - intros sails angle l1 l2 p Hsp Hp Hl2.
    apply sails_insert_found.
    + unfold sails_match. now rewrite Hp, String.eqb_refl, Hsp.
    + now apply forallb_no_angle.
  - intros sails angle pattern H.
    apply sails_insert_absent. now apply forallb_no_angle.
  - exact sails_insert_is_spec.
  - intros vcp sails Hv Hs. simpl in Hv, Hs.
    destruct Hv as [<-|[<-|[<-|[<-|[]]]]];
      destruct Hs as [<-|[<-|[<-|[]]]]; vm_compute; reflexivity.
  - exists (firstn 8 vcp_212), (skipn 9 vcp_212), (cones "Z/V" "3.1°" (-0.46)%float 8 158 80).
    split; [reflexivity|]. split; [reflexivity|]. split.
    + intros q Hq. simpl in Hq.
      repeat (destruct Hq as [<-|Hq]; [discriminate|]). destruct Hq.
    + split; [vm_compute; reflexivity|]. split; reflexivity.
Qed.

Lemma C5_sails_inserts_block_after_last_anchor_step_witness :
  sails_insert "SAILS 2" "6.4°"
    (firstn 11 vcp_35 ++ cones "Z/V" "6.4°" (-0.30)%float 8 134 80 :: [])
  = firstn 11 vcp_35 ++ cones "Z/V" "6.4°" (-0.30)%float 8 134 80 :: sails_scans ++ [].
Proof.
  apply (proj1 (proj2 C5_sails_inserts_block_after_last_anchor_step)).
  - reflexivity.
  - reflexivity.
  - intros q [].
Defined.

(** C6. For SAILS 3 the "1.3°" anchor accepts only a step labelled V: the
    block goes after the last V step at "1.3°" even when Z steps at "1.3°"
    follow it, and a pattern whose "1.3°" steps are all other than V is left
    alone.  On VCP 212 the block's predecessor is the V step at "1.3°".
    Every other anchor/choice combination accepts the last step of the
    anchor's angle whatever its label. *)
Theorem C6_sails3_anchor_1_3_takes_V_step_only :
  (forall (l1 l2 : list ScanStep) (p : ScanStep),
      step_angle p = "1.3°" -> step_label p = "V" ->
      (forall q, In q l2 -> step_angle q = "1.3°" -> step_label q <> "V") ->
      sails_insert "SAILS 3" "1.3°" (l1 ++ p :: l2) = l1 ++ p :: sails_scans ++ l2)
  /\
  (forall pattern : list ScanStep,
      (forall q, In q pattern -> step_angle q = "1.3°" -> step_label q <> "V") ->
      sails_insert "SAILS 3" "1.3°" pattern = pattern)
  /\
  (exists (l1 l2 : list ScanStep) (p : ScanStep),
      build_sequence "VCP 212" "SAILS 3" "None" = inl (l1 ++ p :: sails_scans ++ l2)
      /\ l1 ++ [p] = firstn 6 vcp_212
      /\ step_label p = "V" /\ step_angle p = "1.3°"
      /\ option_map step_label (nth_error vcp_212 4) = Some "Z"
      /\ option_map step_angle (nth_error vcp_212 4) = Some "1.3°")
  /\
  (forall (sails angle : string) (l1 l2 : list ScanStep) (p : ScanStep),
      (angle =? "1.3°") && (sails =? "SAILS 3") = false ->
      step_angle p = angle ->
      (forall q, In q l2 -> step_angle q <> angle) ->
      sails_insert sails angle (l1 ++ p :: l2) = l1 ++ p :: sails_scans ++ l2).
Proof.
  assert (Hrej : forall l : list ScanStep,
             (forall q, In q l -> step_angle q = "1.3°" -> step_label q <> "V") ->
             forallb (fun q => negb (sails_match "SAILS 3" "1.3°" q)) l = true).
  { intros l H. apply forallb_forall. intros q Hq. unfold sails_match. simpl.
    destruct (String.eqb_spec (step_angle q) "1.3°") as [Ea|Ea]; [|reflexivity].
    destruct (String.eqb_spec (step_label q) "V") as [El|El]; [|reflexivity].
    now destruct (H q Hq Ea). }
  split; [|split; [|split]].
  - intros l1 l2 p Ha Hl Hl2. apply sails_insert_found.
    + unfold sails_match. now rewrite Ha, Hl.
    + now apply Hrej.
  - intros pattern H. apply sails_insert_absent. now apply Hrej.
  - exists (firstn 5 vcp_212),
      (skipn 8 (match build_sequence "VCP 212" "SAILS 3" "None" with
                | inl l => l | inr _ => [] end)),
      (cone "V" "1.3°" (-0.29)%float 8 74).
    split; [vm_compute; reflexivity|]. repeat split.
  - intros sails angle l1 l2 p Hsp Hp Hl2. apply sails_insert_found.
    + unfold sails_match. now rewrite Hp, String.eqb_refl, Hsp.
    + now apply forallb_no_angle.
Qed.

Lemma C6_sails3_anchor_1_3_takes_V_step_only_witness :
  sails_insert "SAILS 3" "1.3°"
    ([cone "Z" "0.9°" (-0.35)%float 8 250]
       ++ cone "V" "1.3°" (-0.29)%float 8 74 :: [cone "Z" "1.3°" (-0.38)%float 8 231])
  = [cone "Z" "0.9°" (-0.35)%float 8 250]
      ++ cone "V" "1.3°" (-0.29)%float 8 74
      :: sails_scans ++ [cone "Z" "1.3°" (-0.38)%float 8 231].
Proof.
  apply (proj1 C6_sails3_anchor_1_3_takes_V_step_only).
  - reflexivity.
  - reflexivity.
  - intros q [<-|[]] _. discriminate.
Defined.

(** C7. MRLE on VCP 12 or VCP 212: the block has 4, 6 and 7 steps for the
    counts 2, 3 and 4 (the four base steps, two more from count 3 on, the
    combined Z/V step for count 4); it is inserted whole right after the last
    step whose angle text is "5.1°", and a pattern with no such step is
    returned unchanged, without an exception. *)
Theorem C7_mrle_block_after_last_5_1 :
  (List.length (mrle_scans 2) = 4 /\ List.length (mrle_scans 3) = 6
   /\ List.length (mrle_scans 4) = 7
   /\ mrle_scans 3 = mrle_scans 2 ++ [ cone "Z" "1.3°" (-0.38)%float 8 231;
                                       cone "V" "1.3°" (-0.40)%float 8 80 ]
   /\ mrle_scans 4 = mrle_scans 3 ++ [ cones "Z/V" "1.8°" (-0.43)%float 8 208 80 ])
  /\
  (forall (vcp mrle : string) (count : Z) (l1 l2 : list ScanStep) (p : ScanStep),
      In vcp ["VCP 12"; "VCP 212"] ->
      In (mrle, count) [("MRLE 2", 2%Z); ("MRLE 3", 3%Z); ("MRLE 4", 4%Z)] ->
      step_angle p = "5.1°" ->
      (forall q, In q l2 -> step_angle q <> "5.1°") ->
      apply_mrle mrle vcp (l1 ++ p :: l2) = inl (l1 ++ p :: mrle_scans count ++ l2))
  /\
  (forall (vcp mrle : string) (count : Z) (pattern : list ScanStep),
      In vcp ["VCP 12"; "VCP 212"] ->
      In (mrle, count) [("MRLE 2", 2%Z); ("MRLE 3", 3%Z); ("MRLE 4", 4%Z)] ->
      (forall q, In q pattern -> step_angle q <> "5.1°") ->
      apply_mrle mrle vcp pattern = inl pattern)
  /\
  (forall (vcp mrle : string) (count : Z),
      In vcp ["VCP 12"; "VCP 212"] ->
      In (mrle, count) [("MRLE 2", 2%Z); ("MRLE 3", 3%Z); ("MRLE 4", 4%Z)] ->
      let base := dict_get patterns vcp [] in
      build_sequence vcp "None" mrle
      = inl (firstn 11 base ++ mrle_scans count ++ skipn 11 base)
      /\ option_map step_angle (nth_error base 10) = Some "5.1°"
      /\ forallb (fun q => negb (step_angle q =? "5.1°")) (skipn 11 base) = true).
Proof.
  split; [|split; [|split]].
  - repeat split.
  - intros vcp mrle count l1 l2 p Hv Hm Hp Hl2.
    rewrite (apply_mrle_choice vcp mrle count _ Hv Hm).
    now rewrite mrle_insert_found.
  - intros vcp mrle count pattern Hv Hm H.
    rewrite (apply_mrle_choice vcp mrle count _ Hv Hm).
    now rewrite mrle_insert_absent.
  - intros vcp mrle count Hv Hm. simpl in Hv, Hm.
    destruct Hv as [<-|[<-|[]]];
      destruct Hm as [E|[E|[E|[]]]]; inversion E; subst;
      (split; [vm_compute; reflexivity|split; reflexivity]).
Qed.

Lemma C7_mrle_block_after_last_5_1_witness :
  apply_mrle "MRLE 4" "VCP 12" (firstn 10 vcp_12 ++ cones "Z/V" "5.1°" (-0.43)%float 8 134 80
                                          :: skipn 11 vcp_12)
  = inl (firstn 10 vcp_12 ++ cones "Z/V" "5.1°" (-0.43)%float 8 134 80
                :: mrle_scans 4 ++ skipn 11 vcp_12).
Proof.
  apply (proj1 (proj2 C7_mrle_block_after_last_5_1)).
  - left. reflexivity.
  - right. right. left. reflexivity.
  - reflexivity.
  - intros q Hq. simpl in Hq.
    repeat (destruct Hq as [<-|Hq]; [discriminate|]). destruct Hq.
Defined.

(** C8. A tick of a running object decreases the angle by exactly
    [abs(step speed) * multiplier * 5]: the tick is the boundary test run on
    the object whose angle is that difference.  So the angle after the tick
    is the difference, unless the difference is at or below -270, where the
    boundary test of the same tick puts the angle back to 90 (C4).  From
    angle 90 with step speed -0.35 and multiplier 1 the angle after one tick
    is 88.25. *)
Theorem C8_tick_decrements_angle (a : RadarApp) (p : ScanStep) :
  running a = true ->
  Loaded a p ->
  In (speed_multiplier a) [1; 2; 4; 8]%Z ->
  let x := (abs (step_speed p) * float_of_int (speed_multiplier a) * 5)%float in
  animate a
  = animate_boundary (set_angle (angle a - x)%float
                        (set_sweep_progress (sweep_progress a + x)%float a))
  /\ angle (exec animate a)
     = (if (angle a - x <=? -270)%float then 90%float else (angle a - x)%float)
  /\ (angle a = 90%float -> step_speed p = (-0.35)%float -> speed_multiplier a = 1%Z ->
      angle (exec animate a) = 88.25%float).
Proof.
  intros Hrun HL Hm x.
  assert (Hx : x = (abs (step_speed p * float_of_int (speed_multiplier a)) * 5)%float)
    by (subst x; now rewrite (abs_speed_times_multiplier _ _ Hm)).
  assert (E : angle (exec animate a)
              = (if (angle a - x <=? -270)%float then 90%float else (angle a - x)%float)).
  { pose proof (animate_running a p Hrun HL) as E. cbv zeta in E.
    rewrite <- Hx in E. unfold exec. rewrite E. clear E.
    destruct (angle a - x <=? -270)%float; [|reflexivity].
    destruct (_ <=? _)%nat; [reflexivity|].
    match goal with
    | |- context [(advance_pattern_step ;; root_after_animate) ?a2] =>
        pose proof (advance_pattern_step_angle a2 eq_refl) as Ha2;
        unfold exec in Ha2; unfold bind;
        destruct (advance_pattern_step a2) as [[[]|e] a3]; exact Ha2
    end. }
  split; [|split; [exact E|]].
  - rewrite Hx. exact (animate_decrements a p Hrun HL).
  - intros Ha Hs H1. rewrite E. subst x. rewrite Ha, Hs, H1. reflexivity.
Qed.

Lemma C8_tick_decrements_angle_witness :
  running running_vcp_12_at_90 = true
  /\ angle running_vcp_12_at_90 = 90%float
  /\ speed_multiplier running_vcp_12_at_90 = 1%Z
  /\ angle (exec animate running_vcp_12_at_90) = 88.25%float.
Proof.
  assert (Hrun : running running_vcp_12_at_90 = true) by (vm_compute; reflexivity).
  assert (HL : Loaded running_vcp_12_at_90 (cone "Z" "0.5°" (-0.35)%float 8 250))
    by (unfold Loaded; vm_compute; repeat split).
  assert (Hm : speed_multiplier running_vcp_12_at_90 = 1%Z) by (vm_compute; reflexivity).
  assert (Hin : In (speed_multiplier running_vcp_12_at_90) [1; 2; 4; 8]%Z)
    by (rewrite Hm; left; reflexivity).
  assert (Ha : angle running_vcp_12_at_90 = 90%float) by (vm_compute; reflexivity).
  split; [exact Hrun|]. split; [exact Ha|]. split; [exact Hm|].
  exact (proj2 (proj2 (C8_tick_decrements_angle _ _ Hrun HL Hin)) Ha eq_refl Hm).
Defined.

(** C9. With both choices ["None"] the built sequence is the base pattern of
    the catalog, step for step (and empty for a name the catalog lacks);
    neither insertion block touches a pattern, and [build_pattern_sequence]
    stores the base pattern in the object. *)
Theorem C9_no_inserts_gives_base_pattern :
  (forall vcp : string,
      build_sequence vcp "None" "None" = inl (dict_get patterns vcp []))
  /\
  (forall (vcp : string) (pattern : list ScanStep),
      apply_sails "None" pattern = pattern
      /\ apply_mrle "None" vcp pattern = inl pattern)
  /\
  (forall (a : RadarApp) (vcp : string),
      selected_vcp a = Some vcp -> sails_var a = "None" -> mrle_var a = "None" ->
      build_pattern_sequence a
      = (inl tt, set_pattern_sequence (dict_get patterns vcp []) a)).
Proof.
  assert (H : forall vcp : string,
             build_sequence vcp "None" "None" = inl (dict_get patterns vcp [])).
  { intros vcp. unfold build_sequence.
    destruct (dict_get patterns vcp []); reflexivity. }
  split; [exact H|]. split.
  - intros vcp pattern. split; reflexivity.
  - intros a vcp Hv Hs Hm.
    rewrite (build_pattern_sequence_stores a vcp Hv), Hs, Hm, H. reflexivity.
Qed.

Lemma C9_no_inserts_gives_base_pattern_witness :
  pattern_sequence (exec build_pattern_sequence (exec (set_vcp "VCP 215") init)) = vcp_215.
Proof.
  unfold exec at 1.
  rewrite (proj2 (proj2 C9_no_inserts_gives_base_pattern)
             (exec (set_vcp "VCP 215") init) "VCP 215");
    reflexivity.
Defined.

(** C10. On an object with no VCP chosen, choosing a SAILS entry or an MRLE
    entry only puts that variable back to ["None"]: every other attribute,
    the sequence, the step index, the angle, [running] and the other
    selection among them, is as before, and nothing is rebuilt. *)
Theorem C10_idle_choice_is_reset (a : RadarApp) (choice : string) :
  state_of a = Idle ->
  (choose_sails choice a = (inl tt, set_sails_var "None" a)
   /\ let a' := exec (choose_sails choice) a in
      sails_var a' = "None" /\ mrle_var a' = mrle_var a
      /\ pattern_sequence a' = pattern_sequence a
      /\ pattern_step_index a' = pattern_step_index a
      /\ angle a' = angle a /\ running a' = running a
      /\ state_of a' = Idle)
  /\
  (choose_mrle choice a = (inl tt, set_mrle_var "None" a)
   /\ let a' := exec (choose_mrle choice) a in
      mrle_var a' = "None" /\ sails_var a' = sails_var a
      /\ pattern_sequence a' = pattern_sequence a
      /\ pattern_step_index a' = pattern_step_index a
      /\ angle a' = angle a /\ running a' = running a
      /\ state_of a' = Idle).
Proof.
  unfold state_of. intros Hidle.
  assert (Hsel : vcp_selected a = false).
  { destruct (vcp_selected a); [|reflexivity].
    simpl in Hidle. destruct (running a); discriminate. }
  assert (Es : choose_sails choice a = (inl tt, set_sails_var "None" a)).
  { unfold choose_sails, set_sails, sails_selected. run_method. attrs.
    rewrite Hsel. reflexivity. }
  assert (Em : choose_mrle choice a = (inl tt, set_mrle_var "None" a)).
  { unfold choose_mrle, mrle_selected. run_method. attrs.
    rewrite Hsel. reflexivity. }
  unfold exec. rewrite Es, Em. simpl. rewrite Hsel. simpl. repeat split.
Qed.

Lemma C10_idle_choice_is_reset_witness :
  state_of init = Idle
  /\ choose_sails "SAILS 2" init = (inl tt, init)
  /\ choose_mrle "MRLE 3" init = (inl tt, init).
Proof.
  split; [reflexivity|]. split.
  - exact (proj1 (proj1 (C10_idle_choice_is_reset init "SAILS 2" eq_refl))).
  - exact (proj1 (proj2 (C10_idle_choice_is_reset init "MRLE 3" eq_refl))).
Defined.

(** * Further properties *)

(** ** What the handlers leave and keep *)

(** What [advance_pattern_step] never touches, on any object and whether it
    returns or raises. *)
Lemma advance_pattern_step_frame (a : RadarApp) :
  let a' := exec advance_pattern_step a in
  pattern_sequence a' = pattern_sequence a
  /\ speed_multiplier a' = speed_multiplier a
  /\ fast_mode a' = fast_mode a
  /\ sails_var a' = sails_var a
  /\ mrle_var a' = mrle_var a
  /\ vcp_selected a' = vcp_selected a
  /\ selected_vcp a' = selected_vcp a
  /\ after_queue a' = after_queue a
  /\ fast_button_text (widgets a') = fast_button_text (widgets a)
  /\ sails_dropdown_state (widgets a') = sails_dropdown_state (widgets a)
  /\ mrle_dropdown_state (widgets a') = mrle_dropdown_state (widgets a)
  /\ sails_menu (widgets a') = sails_menu (widgets a).
Proof.
  unfold exec, advance_pattern_step. run_method.
  destruct (is_empty (pattern_sequence a)); [repeat split|].
  destruct (List.length (pattern_sequence a) <=? pattern_step_index a)%nat; attrs;
    (match goal with |- context [nth_error ?l ?i] => destruct (nth_error l i) as [q|] end;
     [|repeat split]);
    cbv beta iota;
    (destruct (negb (step_label q =? "Z/V")); [destruct (step_range q)|]); repeat split.
Qed.

(** One press of the speed button, on any object. *)
Lemma speed_multiply_fields (a : RadarApp) :
  let a' := exec speed_multiply a in
  fast_mode a' = (fast_mode a mod 4 + 1)%Z
  /\ speed_multiplier a' = (2 ^ (fast_mode a mod 4 + 1 - 1))%Z
  /\ fast_button_text (widgets a')
     = (str (2 ^ (fast_mode a mod 4 + 1 - 1)) ++ "x")%string
  /\ pattern_sequence a' = pattern_sequence a
  /\ sails_var a' = sails_var a /\ mrle_var a' = mrle_var a.
Proof.
  unfold exec, speed_multiply. run_method. attrs.
  destruct (is_empty (pattern_sequence a)); cbv beta iota delta [negb];
    [repeat split|].
  match goal with
  | |- context [advance_pattern_step ?s] =>
      pose proof (advance_pattern_step_frame s) as H
  end.
  cbv zeta in H. unfold exec in H. attrs_in H.
  cbn [widgets set_widgets fast_button_text config_fast_button_text] in H.
  destruct H as (Hseq & Hm & Hf & Hs & Hmr & _ & _ & _ & Hb & _).
  repeat split; assumption.
Qed.

Lemma subseq_refl {A : Type} (l : list A) : subseq l l.
Proof. induction l; [apply subseq_nil|now apply subseq_take]. Qed.

Lemma subseq_trans {A : Type} (l1 l2 l3 : list A) :
  subseq l1 l2 -> subseq l2 l3 -> subseq l1 l3.
Proof.
  intros H12 H23. revert l1 H12.
  induction H23 as [|x l2 l3 H23 IH|x l2 l3 H23 IH]; intros l1 H12.
  - exact H12.
  - apply subseq_skip. now apply IH.
  - inversion H12; subst.
    + apply subseq_skip. now apply IH.
    + apply subseq_take. now apply IH.
Qed.

Lemma subseq_app_block {A : Type} (l1 block l2 : list A) :
  subseq (l1 ++ l2) (l1 ++ block ++ l2).
Proof.
  induction l1 as [|x l1 IH]; simpl.
  - induction block as [|y block IHb]; simpl; [apply subseq_refl|now apply subseq_skip].
  - now apply subseq_take.
Qed.

Lemma slice_insert_subseq (pattern block : list ScanStep) (i : nat) :
  subseq pattern (slice_insert pattern i block).
Proof.
  unfold slice_insert. rewrite <- (firstn_skipn i pattern) at 1.
  apply subseq_app_block.
Qed.

Lemma slice_insert_In (pattern block : list ScanStep) (i : nat) (q : ScanStep) :
  In q (slice_insert pattern i block) -> In q pattern \/ In q block.
Proof.
  unfold slice_insert. rewrite <- (firstn_skipn i pattern) at 3.
  rewrite !in_app_iff. tauto.
Qed.

Lemma sails_scan_adds (sails angle : string) (pattern : list ScanStep) (idxs : list nat) :
  subseq pattern (sails_scan sails angle pattern idxs)
  /\ forall q, In q (sails_scan sails angle pattern idxs) ->
               In q pattern \/ In q sails_scans.
Proof.
  induction idxs as [|i idxs IH]; simpl.
  - split; [apply subseq_refl|auto].
  - destruct (nth_error pattern i) as [p|]; [|split; [apply subseq_refl|auto]].
    destruct (step_angle p =? angle); [|exact IH].
    destruct ((angle =? "1.3°") && (sails =? "SAILS 3") && (step_label p =? "V")).
    { split; [apply slice_insert_subseq|apply slice_insert_In]. }
    destruct (negb (angle =? "1.3°") || negb (sails =? "SAILS 3")); [|exact IH].
    split; [apply slice_insert_subseq|apply slice_insert_In].
Qed.

Lemma apply_sails_adds (sails : string) (pattern : list ScanStep) :
  subseq pattern (apply_sails sails pattern)
  /\ forall q, In q (apply_sails sails pattern) -> In q pattern \/ In q sails_scans.
Proof.
  unfold apply_sails. destruct (negb (sails =? "None"));
    [|split; [apply subseq_refl|auto]].
  generalize (dict_get insert_points sails []). intros anchors. revert pattern.
  induction anchors as [|angle anchors IH]; intros pattern; simpl.
  - split; [apply subseq_refl|auto].
  - destruct (IH (sails_insert sails angle pattern)) as [Hs Hin].
    destruct (sails_scan_adds sails angle pattern (rev (seq 0 (List.length pattern))))
      as [Hs0 Hin0].
    split.
    + eapply subseq_trans; [exact Hs0|exact Hs].
    + intros q Hq. destruct (Hin q Hq) as [H|H]; [|now right].
      exact (Hin0 q H).
Qed.

Lemma mrle_scans_In (count : Z) (q : ScanStep) :
  In q (mrle_scans count) -> In q (mrle_scans 4).
Proof.
  unfold mrle_scans. destruct (3 <=? count)%Z, (count =? 4)%Z; simpl; tauto.
Qed.

Lemma apply_mrle_adds (mrle vcp : string) (pattern built : list ScanStep) :
  apply_mrle mrle vcp pattern = inl built ->
  subseq pattern built
  /\ forall q, In q built -> In q pattern \/ In q (mrle_scans 4).
Proof.
  unfold apply_mrle.
  destruct (negb (mrle =? "None") && str_in vcp ["VCP 212"; "VCP 12"]).
  - destruct (last_char mrle) as [c|]; [|discriminate].
    destruct (int_of_char c) as [count|]; [|discriminate].
    intros [= <-]. unfold mrle_insert.
    destruct (last_index _); [|split; [apply subseq_refl|auto]].
    split; [apply slice_insert_subseq|].
    intros q Hq. destruct (slice_insert_In _ _ _ _ Hq) as [H|H]; [now left|].
    right. exact (mrle_scans_In _ _ H).
  - intros [= <-]. split; [apply subseq_refl|auto].
Qed.

Lemma speed_multiply_inv2 (a : RadarApp) :
  Inv a -> Inv2 a -> Inv2 (exec speed_multiply a).
Proof.
  intros [Hm Hwf Hl Hs Hmr Hidx] [Hex Hang Hidle Hbut Hbuilt].
  unfold exec, speed_multiply. run_method. attrs.
  destruct (is_empty (pattern_sequence a)) eqn:Hne; cbv beta iota delta [negb].
  - cbn [snd]. constructor; attrs; assumption.
  - match goal with
    | |- context [advance_pattern_step ?s] =>
        destruct (advance_pattern_step_wf s Hne Hwf) as (p & r & Hp & Hwp & Hr & E);
        rewrite E; clear E
    end.
    cbn [snd]. constructor; attrs; try assumption. reflexivity.
Qed.

Lemma animate_inv2 (a : RadarApp) :
  Inv a -> Inv2 a -> Inv2 (exec animate a).
Proof.
  intros HI [Hex Hang Hidle Hbut Hbuilt].
  destruct (bool_cases (running a)) as [Hrun|Hrun].
  - destruct HI as [Hm Hwf Hl Hs Hmr Hidx]. destruct (Hl Hrun) as [p HL].
    assert (Hsel : vcp_selected a = true).
    { destruct (bool_cases (vcp_selected a)) as [E|E]; [exact E|].
      destruct (Hidle E) as [Habs _]. congruence. }
    pose proof (animate_running a p Hrun HL) as E. cbv zeta in E.
    unfold exec. rewrite E. clear E.
    set (d := (angle a - abs (step_speed p * float_of_int (speed_multiplier a)) * 5)%float).
    destruct (d <=? -270)%float eqn:Hd.
    + destruct (List.length (pattern_sequence a) <=? pattern_step_index a + 1)%nat eqn:Hn.
      * cbn [snd]. constructor; attrs; try assumption; try reflexivity;
          try discriminate; try (rewrite Hsel; discriminate).
      * apply Nat.leb_gt in Hn.
        destruct (nth_error (pattern_sequence a) (pattern_step_index a + 1)) as [q|] eqn:Hq;
          [|apply nth_error_None in Hq; lia].
        pose proof (forallb_nth_error _ _ _ _ Hwf Hq) as Hwq.
        destruct (wf_step_radius q Hwq) as [r Hr].
        match goal with
        | |- context [(advance_pattern_step ;; root_after_animate) ?a2] =>
            assert (Hadv : (advance_pattern_step ;; root_after_animate) a2
                           = (inl tt, set_after_queue (S (after_queue a)) (load q r a2)))
              by (unfold bind;
                  rewrite (advance_pattern_step_loads a2 q r Hq Hr); reflexivity);
            rewrite Hadv
        end.
        cbn [snd]. constructor; attrs; try assumption; try reflexivity;
          try (rewrite Hsel; discriminate).
    + cbn [snd]. constructor; attrs; try assumption;
        try (rewrite Hsel; discriminate).
  - assert (E : animate a = (inl tt, a))
      by (unfold animate; run_method; rewrite Hrun; reflexivity).
    unfold exec. rewrite E. constructor; assumption.
Qed.

Lemma toggle_animation_inv2 (a : RadarApp) :
  Inv a -> Inv2 a -> Inv2 (exec toggle_animation a).
Proof.
  intros [Hm Hwf Hl Hs Hmr Hidx] [Hex Hang Hidle Hbut Hbuilt].
  unfold exec, toggle_animation. run_method.
  destruct (bool_cases (vcp_selected a)) as [Hsel|Hsel]; rewrite Hsel;
    cbv beta iota delta [negb].
  - destruct (bool_cases (running a)) as [Hrun|Hrun]; rewrite Hrun;
      cbv beta iota delta [negb].
    + cbn [snd]. constructor; attrs; try assumption; try discriminate.
      rewrite Hsel. discriminate.
    + destruct (Hs Hsel) as (vcp & Hv & Hin & Hne). attrs.
      match goal with
      | |- context [advance_pattern_step ?s] =>
          destruct (advance_pattern_step_wf s Hne Hwf) as (p & r & Hp & Hwp & Hr & E);
          rewrite E; clear E
      end.
      cbv beta iota. attrs.
      match goal with
      | |- context [animate ?b] =>
          assert (HIb : Inv b /\ Inv2 b);
          [|destruct HIb as [H1 H2]; exact (animate_inv2 b H1 H2)]
      end.
      split.
      * constructor; attrs; try assumption.
        -- intros _. exists p. unfold Loaded. attrs. rewrite Hr.
           repeat split; assumption.
        -- intros _. exact (nth_error_in_range _ _ _ Hp).
      * constructor; attrs; try assumption; try reflexivity.
        rewrite Hsel. discriminate.
  - cbn [snd]. constructor; attrs; assumption.
Qed.

Lemma set_vcp_inv2 (a : RadarApp) (name : string) :
  In name vcp_buttons -> Inv2 (exec (set_vcp name) a).
Proof.
  intros Hin.
  destruct (set_vcp_effect a name Hin)
    as (Hc & Hst & Hsa & Hmrle & Hseq & Hang & Hi & Hv & Hmult & (p & Hp & HL)).
  unfold state_of in Hst.
  destruct (vcp_selected (exec (set_vcp name) a)) eqn:Hsel; [|discriminate].
  destruct (running (exec (set_vcp name) a)) eqn:Hrun; [discriminate|].
  constructor.
  - now left.
  - rewrite Hang. reflexivity.
  - rewrite Hsel. discriminate.
  - rewrite Hrun. discriminate.
  - intros vcp Hv'. rewrite Hv in Hv'. injection Hv' as <-.
    rewrite Hsa, Hmrle, Hseq. apply build_sequence_no_inserts.
Qed.

(** The tail the two selection handlers share, on the object [t] they have
    prepared: [build_pattern_sequence] stores the built sequence and
    [advance_pattern_step] loads its first step. *)
Lemma rebuild_and_advance (t : RadarApp) (vcp : string) :
  selected_vcp t = Some vcp -> In vcp vcp_buttons -> In (mrle_var t) mrle_menu ->
  pattern_step_index t = 0 ->
  exists (built : list ScanStep) (p : ScanStep) (r : Z),
    build_sequence vcp (sails_var t) (mrle_var t) = inl built
    /\ nth_error built 0 = Some p
    /\ wf_step p = true
    /\ step_radius p = Some r
    /\ build_pattern_sequence t = (inl tt, set_pattern_sequence built t)
    /\ advance_pattern_step (set_pattern_sequence built t)
       = (inl tt, load p r (set_pattern_sequence built t)).
Proof.
  intros Hv Hin Hmr Hidx.
  destruct (build_sequence_gui vcp (sails_var t) (mrle_var t) Hin Hmr)
    as (built & Hb & Hbne & Hbwf).
  destruct built as [|p rest]; [discriminate|].
  assert (Hwp : wf_step p = true) by (simpl in Hbwf; now apply andb_true_iff in Hbwf).
  destruct (wf_step_radius p Hwp) as [r Hr].
  exists (p :: rest), p, r. repeat split; try assumption.
  - rewrite (build_pattern_sequence_stores t vcp Hv), Hb. reflexivity.
  - apply advance_pattern_step_loads; attrs; [now rewrite Hidx|exact Hr].
Qed.

Ltac rebuild_at vcp Hv Hin Hmr :=
  match goal with
  | |- context [build_pattern_sequence ?s] =>
      let E1 := fresh "E" in
      let E2 := fresh "E" in
      destruct (rebuild_and_advance s vcp)
        as (built & p & r & Hb & Hp & Hwp & Hr & E1 & E2);
      [ attrs; exact Hv | exact Hin | attrs; first [exact Hmr | now left]
      | attrs; reflexivity | ];
      rewrite E1; cbv beta iota; rewrite E2; clear E1 E2; attrs_in Hb
  end.

Lemma choose_sails_inv2 (a : RadarApp) (value : string) :
  Inv a -> Inv2 a -> Inv2 (exec (choose_sails value) a).
Proof.
  intros [Hm Hwf Hl Hs Hmr Hidx] [Hex Hang Hidle Hbut Hbuilt].
  unfold exec, choose_sails, set_sails, sails_selected. run_method. attrs.
  destruct (bool_cases (vcp_selected a)) as [Hsel|Hsel]; rewrite Hsel;
    cbv beta iota delta [negb].
  - destruct (Hs Hsel) as (vcp & Hv & Hin & Hne). attrs.
    destruct (String.eqb_spec value "None") as [Hval|Hval];
      cbv beta iota delta [negb]; attrs.
    + rewrite Hv. cbv beta iota.
      destruct (str_in vcp ["VCP 212"; "VCP 12"]); cbv beta iota; attrs;
        rebuild_at vcp Hv Hin Hmr;
        (cbn [snd]; constructor; attrs;
         [ now left | reflexivity | rewrite Hsel; discriminate | discriminate
         | intros vcp' Hv'; rewrite Hv in Hv'; injection Hv' as <-; exact Hb ]).
    + rebuild_at vcp Hv Hin Hmr.
      cbn [snd]. constructor; attrs;
        [ now right | reflexivity | rewrite Hsel; discriminate | discriminate
        | intros vcp' Hv'; rewrite Hv in Hv'; injection Hv' as <-; exact Hb ].
  - cbn [snd]. destruct (Hidle Hsel) as (_ & _ & Hv0).
    constructor; attrs; try assumption;
      [now left | intros vcp Hv; rewrite Hv0 in Hv; discriminate].
Qed.

Lemma choose_mrle_inv2 (a : RadarApp) (value : string) :
  In value mrle_menu -> Inv a -> Inv2 a -> Inv2 (exec (choose_mrle value) a).
Proof.
  intros Hvalue [Hm Hwf Hl Hs Hmr Hidx] [Hex Hang Hidle Hbut Hbuilt].
  unfold exec, choose_mrle, mrle_selected. run_method. attrs.
  destruct (bool_cases (vcp_selected a)) as [Hsel|Hsel]; rewrite Hsel;
    cbv beta iota delta [negb].
  - destruct (Hs Hsel) as (vcp & Hv & Hin & Hne). attrs.
    destruct (String.eqb_spec value "None") as [Hval|Hval];
      cbv beta iota delta [negb]; attrs;
      rebuild_at vcp Hv Hin Hvalue;
      (cbn [snd]; constructor; attrs;
       [ first [now right | now left] | reflexivity | rewrite Hsel; discriminate
       | discriminate
       | intros vcp' Hv'; rewrite Hv in Hv'; injection Hv' as <-; exact Hb ]).
  - cbn [snd]. destruct (Hidle Hsel) as (_ & _ & Hv0).
    constructor; attrs; try assumption;
      [now right | intros vcp Hv; rewrite Hv0 in Hv; discriminate].
Qed.

Lemma reachable_Inv2 (a : RadarApp) : reachable a -> Inv2 a.
Proof.
  induction 1 as [|a m Hr IH Hc].
  - constructor; try reflexivity; try discriminate; [now left|].
    intros _. repeat split.
  - pose proof (reachable_Inv a Hr) as HI. destruct Hc.
    + now apply set_vcp_inv2.
    + now apply choose_sails_inv2.
    + now apply choose_mrle_inv2.
    + now apply toggle_animation_inv2.
    + now apply speed_multiply_inv2.
    + now apply animate_inv2.
Qed.

(** What a SAILS choice does once a VCP is chosen. *)
Lemma choose_sails_effect (a : RadarApp) (value vcp : string) :
  Inv a -> vcp_selected a = true -> selected_vcp a = Some vcp ->
  let a' := exec (choose_sails value) a in
  let mrle := if value =? "None" then mrle_var a else "None" in
  exists p,
    build_sequence vcp value mrle = inl (pattern_sequence a')
    /\ nth_error (pattern_sequence a') 0 = Some p
    /\ Loaded a' p
    /\ sails_var a' = value /\ mrle_var a' = mrle
    /\ running a' = false /\ pattern_step_index a' = 0 /\ angle a' = 90%float
    /\ vcp_selected a' = true /\ selected_vcp a' = Some vcp
    /\ speed_multiplier a' = speed_multiplier a
    /\ after_queue a' = after_queue a
    /\ toggle_button_text (widgets a') = toggle_button_text (widgets a)
    /\ mrle_dropdown_state (widgets a')
       = (if negb (value =? "None") then "disabled"
          else if str_in vcp ["VCP 212"; "VCP 12"] then "normal"
          else mrle_dropdown_state (widgets a)).
Proof.
  intros [Hm Hwf Hl Hs Hmr Hidx] Hsel Hv. cbv zeta.
  destruct (Hs Hsel) as (vcp' & Hv' & Hin & Hne).
  rewrite Hv in Hv'. injection Hv' as <-.
  unfold exec, choose_sails, set_sails, sails_selected. run_method. attrs.
  rewrite Hsel. cbv beta iota delta [negb]. attrs.
  destruct (value =? "None"); cbv beta iota delta [negb]; attrs.
  - rewrite Hv. cbv beta iota.
    destruct (str_in vcp ["VCP 212"; "VCP 12"]); cbv beta iota; attrs;
      rebuild_at vcp Hv Hin Hmr;
      (cbn [snd]; exists p; unfold Loaded; attrs; rewrite Hr;
       repeat split; assumption).
  - rebuild_at vcp Hv Hin Hmr.
    cbn [snd]. exists p. unfold Loaded. attrs. rewrite Hr.
    repeat split; assumption.
Qed.

(** What an MRLE choice does once a VCP is chosen. *)
Lemma choose_mrle_effect (a : RadarApp) (value vcp : string) :
  In value mrle_menu ->
  Inv a -> vcp_selected a = true -> selected_vcp a = Some vcp ->
  let a' := exec (choose_mrle value) a in
  let sails := if value =? "None" then sails_var a else "None" in
  exists p,
    build_sequence vcp sails value = inl (pattern_sequence a')
    /\ nth_error (pattern_sequence a') 0 = Some p
    /\ Loaded a' p
    /\ sails_var a' = sails /\ mrle_var a' = value
    /\ running a' = false /\ pattern_step_index a' = 0 /\ angle a' = 90%float
    /\ vcp_selected a' = true /\ selected_vcp a' = Some vcp
    /\ speed_multiplier a' = speed_multiplier a
    /\ after_queue a' = after_queue a
    /\ toggle_button_text (widgets a') = toggle_button_text (widgets a)
    /\ sails_dropdown_state (widgets a')
       = (if negb (value =? "None") then "disabled" else "normal").
Proof.
  intros Hvalue [Hm Hwf Hl Hs Hmr Hidx] Hsel Hv. cbv zeta.
  destruct (Hs Hsel) as (vcp' & Hv' & Hin & Hne).
  rewrite Hv in Hv'. injection Hv' as <-.
  unfold exec, choose_mrle, mrle_selected. run_method. attrs.
  rewrite Hsel. cbv beta iota delta [negb]. attrs.
  destruct (value =? "None"); cbv beta iota delta [negb]; attrs;
    rebuild_at vcp Hv Hin Hvalue;
    (cbn [snd]; exists p; unfold Loaded; attrs; rewrite Hr;
     repeat split; assumption).
Qed.

(** Run pressed on a stopped object: the body up to the call of [animate]. *)
Lemma toggle_animation_run (a : RadarApp) :
  Inv a -> vcp_selected a = true -> running a = false ->
  exists (b : RadarApp) (p : ScanStep),
    toggle_animation a = animate b
    /\ Inv b
    /\ nth_error (pattern_sequence a) 0 = Some p
    /\ Loaded b p
    /\ running b = true /\ pattern_step_index b = 0
    /\ angle b = 90%float /\ sweep_progress b = 0%float
    /\ pattern_sequence b = pattern_sequence a
    /\ speed_multiplier b = speed_multiplier a
    /\ toggle_button_text (widgets b) = "Stop"
    /\ after_queue b = after_queue a.
Proof.
  intros [Hm Hwf Hl Hs Hmr Hidx] Hsel Hrun.
  destruct (Hs Hsel) as (vcp & Hv & Hin & Hne).
  assert (Hex : exists p, nth_error (pattern_sequence a) 0 = Some p)
    by (destruct (pattern_sequence a); [discriminate|eexists; reflexivity]).
  destruct Hex as [p Hp].
  pose proof (forallb_nth_error _ _ _ _ Hwf Hp) as Hwp.
  destruct (wf_step_radius p Hwp) as [r Hr].
  assert (E : advance_pattern_step (set_pattern_step_index 0 a)
              = (inl tt, load p r (set_pattern_step_index 0 a))).
  { apply advance_pattern_step_loads; attrs; assumption. }
  eexists. exists p. split.
  - unfold toggle_animation. run_method.
    rewrite Hsel. cbv beta iota delta [negb].
    rewrite Hrun. cbv beta iota delta [negb].
    rewrite E. cbv beta iota. reflexivity.
  - assert (HL : Loaded
                   (set_widgets
                      (config_toggle_button_text "Stop"
                         (widgets (set_running true
                            (set_angle 90%float (load p r (set_pattern_step_index 0 a))))))
                      (set_running true
                         (set_angle 90%float (load p r (set_pattern_step_index 0 a))))) p).
    { unfold Loaded. attrs. rewrite Hr. repeat split; assumption. }
    split; [|split; [exact Hp|split; [exact HL|attrs; repeat split]]].
    constructor; attrs; try assumption.
    + intros _. exists p. exact HL.
    + intros _. exact (nth_error_in_range _ _ _ Hp).
Qed.

(** One call of [animate] hands at most one callback to [root.after], and
    none once the sweep has stopped. *)
Lemma animate_queue (a : RadarApp) :
  Inv a ->
  let a' := exec animate a in
  after_queue a' = (if running a' then S (after_queue a) else after_queue a)
  /\ (running a = false -> a' = a)
  /\ (running a' = true -> running a = true)
  /\ pattern_sequence a' = pattern_sequence a.
Proof.
  intros [Hm Hwf Hl Hs Hmr Hidx]. cbv zeta.
  destruct (bool_cases (running a)) as [Hrun|Hrun].
  - destruct (Hl Hrun) as [p HL].
    pose proof (animate_running a p Hrun HL) as E. cbv zeta in E.
    unfold exec. rewrite E. clear E.
    set (d := (angle a - abs (step_speed p * float_of_int (speed_multiplier a)) * 5)%float).
    destruct (d <=? -270)%float.
    + destruct (List.length (pattern_sequence a) <=? pattern_step_index a + 1)%nat eqn:Hn.
      * cbn [snd]. attrs. repeat split; try reflexivity.
        -- intros Habs. rewrite Hrun in Habs. discriminate.
        -- discriminate.
      * apply Nat.leb_gt in Hn.
        destruct (nth_error (pattern_sequence a) (pattern_step_index a + 1)) as [q|] eqn:Hq;
          [|apply nth_error_None in Hq; lia].
        pose proof (forallb_nth_error _ _ _ _ Hwf Hq) as Hwq.
        destruct (wf_step_radius q Hwq) as [r Hr].
        match goal with
        | |- context [(advance_pattern_step ;; root_after_animate) ?a2] =>
            assert (Hadv : (advance_pattern_step ;; root_after_animate) a2
                           = (inl tt, set_after_queue (S (after_queue a)) (load q r a2)))
              by (unfold bind;
                  rewrite (advance_pattern_step_loads a2 q r Hq Hr); reflexivity);
            rewrite Hadv
        end.
        cbn [snd]. attrs. rewrite Hrun. repeat split; try reflexivity.
        intros Habs. discriminate.
    + cbn [snd]. attrs. rewrite Hrun. repeat split; try reflexivity.
      intros Habs. discriminate.
  - assert (E : animate a = (inl tt, a))
      by (unfold animate; run_method; rewrite Hrun; reflexivity).
    unfold exec. rewrite E. cbn [snd]. rewrite Hrun.
    repeat split; try reflexivity. intros Habs. discriminate.
Qed.

(** Stop pressed on a running object. *)
Lemma toggle_animation_stop (a : RadarApp) :
  vcp_selected a = true -> running a = true ->
  toggle_animation a
  = (inl tt, set_widgets (config_toggle_button_text "Run" (widgets a)) (set_running false a)).
Proof.
  intros Hsel Hrun. unfold toggle_animation. run_method.
  rewrite Hsel. cbv beta iota delta [negb].
  rewrite Hrun. reflexivity.
Qed.

(** The size of what one SAILS anchor and the MRLE block add. *)
Lemma sails_insert_length (sails angle : string) (pattern : list ScanStep) :
  List.length (sails_insert sails angle pattern)
  = List.length pattern + (if existsb (sails_match sails angle) pattern then 2 else 0).
Proof.
  destruct (last_accepted_split (sails_match sails angle) pattern)
    as [(l1 & p & l2 & -> & Hp & Hl2)|Hnone].
  - rewrite sails_insert_found; [|exact Hp|].
    + rewrite existsb_app. simpl. rewrite Hp, orb_true_r.
      rewrite ?length_app. simpl. rewrite ?length_app. simpl. lia.
    + apply forallb_forall. intros q Hq. now rewrite (Hl2 q Hq).
  - rewrite sails_insert_absent.
    + replace (existsb (sails_match sails angle) pattern) with false; [lia|].
      symmetry. apply not_true_is_false. intros E.
      apply existsb_exists in E as (q & Hq & E). rewrite (Hnone q Hq) in E. discriminate.
    + apply forallb_forall. intros q Hq. now rewrite (Hnone q Hq).
Qed.

Lemma mrle_insert_length (block pattern : list ScanStep) :
  List.length (mrle_insert block pattern)
  = List.length pattern
    + (if existsb (fun q => step_angle q =? "5.1°") pattern then List.length block else 0).
Proof.
  destruct (last_accepted_split (fun q => step_angle q =? "5.1°") pattern)
    as [(l1 & p & l2 & -> & Hp & Hl2)|Hnone].
  - apply String.eqb_eq in Hp.
    rewrite mrle_insert_found; [|exact Hp|].
    + rewrite existsb_app. simpl. rewrite Hp, String.eqb_refl, orb_true_r.
      rewrite ?length_app. simpl. rewrite ?length_app. simpl. lia.
    + intros q Hq. apply String.eqb_neq. now apply Hl2.
  - rewrite mrle_insert_absent.
    + replace (existsb (fun q => step_angle q =? "5.1°") pattern) with false; [lia|].
      symmetry. apply not_true_is_false. intros E.
      apply existsb_exists in E as (q & Hq & E). rewrite (Hnone q Hq) in E. discriminate.
    + intros q Hq. apply String.eqb_neq. now apply Hnone.
Qed.

(** Two objects the window reaches, for use as concrete inputs. *)
Lemma reachable_stopped_vcp_12 : reachable (exec (set_vcp "VCP 12") init).
Proof.
  apply reachable_call; [apply reachable_init|].
  apply call_set_vcp. simpl. auto.
Qed.

Lemma reachable_running_vcp_12 : reachable running_vcp_12.
Proof.
  assert (E : running_vcp_12 = exec toggle_animation (exec (set_vcp "VCP 12") init))
    by (vm_compute; reflexivity).
  rewrite E. apply reachable_call; [apply reachable_stopped_vcp_12|].
  apply call_toggle_animation.
Qed.

(** A reachable object that records a VCP has [vcp_selected] set. *)
Lemma reachable_selected (a : RadarApp) (vcp : string) :
  reachable a -> selected_vcp a = Some vcp -> vcp_selected a = true.
Proof.
  intros Hr Hv. destruct (reachable_Inv2 a Hr) as [_ _ Hidle _ _].
  destruct (bool_cases (vcp_selected a)) as [E|E]; [exact E|].
  destruct (Hidle E) as (_ & _ & Hnone). congruence.
Qed.

(** A running reachable object has a VCP chosen. *)
Lemma reachable_running_selected (a : RadarApp) :
  reachable a -> running a = true -> vcp_selected a = true.
Proof.
  intros Hr Hrun. destruct (reachable_Inv2 a Hr) as [_ _ Hidle _ _].
  destruct (bool_cases (vcp_selected a)) as [E|E]; [exact E|].
  destruct (Hidle E) as (Hstop & _). congruence.
Qed.

(** Case analysis on every test of a method body, innermost first. *)
Ltac split_matches :=
  repeat (match goal with
          | |- context [match ?x with _ => _ end] =>
              lazymatch x with
              | context [match _ with _ => _ end] => fail
              | _ => destruct x
              end
          end; cbv beta iota; attrs).

(** [animate] reads nothing outside [sweep_view]. *)
Lemma animate_view (a b : RadarApp) :
  sweep_view a = sweep_view b ->
  completion animate a = completion animate b
  /\ sweep_view (exec animate a) = sweep_view (exec animate b).
Proof.
  destruct a as [ang run sel mult fm prog idx seq svcp speed cone label radius sails mrle
                 w out q],
           b as [ang' run' sel' mult' fm' prog' idx' seq' svcp' speed' cone' label' radius'
                 sails' mrle' w' out' q'].
  unfold sweep_view. cbn [angle running pattern_step_index
    pattern_sequence speed_multiplier sweep_speed cone_angle_width current_label sweep_radius].
  intros H. injection H as -> -> -> -> -> -> -> -> ->.
  unfold exec, completion, animate, draw_sweep_cone, animate_boundary, advance_pattern_step.
  run_method. attrs.
  split_matches; cbn [fst snd]; attrs; split; reflexivity.
Qed.

Lemma bind_view (m k : M unit) (a b : RadarApp) :
  completion m a = completion m b ->
  sweep_view (exec m a) = sweep_view (exec m b) ->
  (forall a' b', sweep_view a' = sweep_view b' ->
                 completion k a' = completion k b'
                 /\ sweep_view (exec k a') = sweep_view (exec k b')) ->
  completion (m ;; k) a = completion (m ;; k) b
  /\ sweep_view (exec (m ;; k) a) = sweep_view (exec (m ;; k) b).
Proof.
  unfold exec, completion, bind.
  destruct (m a) as [[[]|e] a'], (m b) as [[[]|e'] b']; cbn [fst snd];
    intros Hc Hv Hk; try discriminate.
  - exact (Hk a' b' Hv).
  - split; assumption.
Qed.

Lemma tick_view (a b : RadarApp) :
  sweep_view a = sweep_view b ->
  completion tick a = completion tick b
  /\ sweep_view (exec tick a) = sweep_view (exec tick b).
Proof.
  intros Hv. unfold tick. apply bind_view.
  - reflexivity.
  - exact Hv.
  - exact animate_view.
Qed.

Lemma ticks_view (n : nat) (a b : RadarApp) :
  sweep_view a = sweep_view b ->
  completion (ticks n) a = completion (ticks n) b
  /\ sweep_view (exec (ticks n) a) = sweep_view (exec (ticks n) b).
Proof.
  revert a b. induction n as [|n IH]; intros a b Hv.
  - split; [reflexivity|exact Hv].
  - cbn [ticks]. destruct (tick_view a b Hv) as [Hc Hv'].
    apply bind_view; assumption.
Qed.

(** Run pressed on a stopped object with a VCP chosen, a sequence that is
    not empty and steps that have their keys: what [animate] is called on. *)
Lemma toggle_animation_start (a : RadarApp) :
  vcp_selected a = true -> running a = false ->
  is_empty (pattern_sequence a) = false ->
  forallb wf_step (pattern_sequence a) = true ->
  exists (p : ScanStep) (r : Z),
    nth_error (pattern_sequence a) 0 = Some p
    /\ step_radius p = Some r
    /\ toggle_animation a
       = animate (set_widgets
                    (config_toggle_button_text "Stop"
                       (widgets (load p r (set_pattern_step_index 0 a))))
                    (set_running true
                       (set_angle 90%float (load p r (set_pattern_step_index 0 a))))).
Proof.
  intros Hsel Hrun Hne Hwf.
  assert (Hex : exists p, nth_error (pattern_sequence a) 0 = Some p)
    by (destruct (pattern_sequence a); [discriminate|eexists; reflexivity]).
  destruct Hex as [p Hp].
  pose proof (forallb_nth_error _ _ _ _ Hwf Hp) as Hwp.
  destruct (wf_step_radius p Hwp) as [r Hr].
  exists p, r. split; [exact Hp|]. split; [exact Hr|].
  assert (E : advance_pattern_step (set_pattern_step_index 0 a)
              = (inl tt, load p r (set_pattern_step_index 0 a))).
  { apply advance_pattern_step_loads; attrs; assumption. }
  unfold toggle_animation. run_method.
  rewrite Hsel. cbv beta iota delta [negb].
  rewrite Hrun. cbv beta iota delta [negb].
  rewrite E. cbv beta iota. reflexivity.
Qed.

(** Run and [n] callbacks depend on the sequence and the multiplier only. *)
Lemma run_and_ticks_view (n : nat) (a b : RadarApp) :
  vcp_selected a = true -> running a = false ->
  vcp_selected b = true -> running b = false ->
  is_empty (pattern_sequence a) = false ->
  forallb wf_step (pattern_sequence a) = true ->
  pattern_sequence b = pattern_sequence a ->
  speed_multiplier b = speed_multiplier a ->
  completion (toggle_animation ;; ticks n) a = completion (toggle_animation ;; ticks n) b
  /\ sweep_view (exec (toggle_animation ;; ticks n) a)
     = sweep_view (exec (toggle_animation ;; ticks n) b).
Proof.
  intros Hsa Hra Hsb Hrb Hne Hwf Hseq Hmult.
  destruct (toggle_animation_start a Hsa Hra Hne Hwf) as (p & r & Hp & Hr & Ea).
  destruct (toggle_animation_start b Hsb Hrb) as (p' & r' & Hp' & Hr' & Eb);
    [now rewrite Hseq|now rewrite Hseq|].
  rewrite Hseq, Hp in Hp'. injection Hp' as <-.
  rewrite Hr in Hr'. injection Hr' as <-.
  match type of Ea with _ = animate ?a0 =>
  match type of Eb with _ = animate ?b0 =>
    assert (Hv : sweep_view a0 = sweep_view b0)
      by (unfold sweep_view; attrs; rewrite Hseq, Hmult; reflexivity);
    destruct (animate_view a0 b0 Hv) as [Hc Hv']
  end end.
  apply bind_view.
  - unfold completion. rewrite Ea, Eb. exact Hc.
  - unfold exec. rewrite Ea, Eb. exact Hv'.
  - exact (ticks_view n).
Qed.

(** An entry that is not a key of [insert_points] inserts nothing. *)
Lemma apply_sails_unknown (sails : string) (pattern : list ScanStep) :
  sails <> "SAILS 1" -> sails <> "SAILS 2" -> sails <> "SAILS 3" ->
  apply_sails sails pattern = pattern.
Proof.
  intros H1 H2 H3. unfold apply_sails, insert_points, dict_get.
  apply not_eq_sym in H1, H2, H3.
  apply String.eqb_neq in H1, H2, H3. rewrite H1, H2, H3.
  now destruct (negb (sails =? "None")).
Qed.

Lemma build_sequence_unknown_sails (vcp sails mrle : string) :
  sails <> "SAILS 1" -> sails <> "SAILS 2" -> sails <> "SAILS 3" ->
  build_sequence vcp sails mrle = build_sequence vcp "None" mrle.
Proof.
  intros H1 H2 H3. unfold build_sequence.
  destruct (dict_get patterns vcp []) as [|p0 base]; [reflexivity|].
  now rewrite (apply_sails_unknown sails (p0 :: base) H1 H2 H3).
Qed.

(** The sequence of a reachable object with a VCP chosen is one of
    [gui_sequences]. *)
Lemma reachable_gui_sequence (a : RadarApp) :
  reachable a -> vcp_selected a = true -> In (pattern_sequence a) gui_sequences.
Proof.
  intros Hr Hsel.
  destruct (reachable_Inv a Hr) as [_ _ _ Hs Hmr _].
  destruct (reachable_Inv2 a Hr) as [Hex _ _ _ Hbuilt].
  destruct (Hs Hsel) as (vcp & Hv & Hin & _).
  specialize (Hbuilt vcp Hv).
  unfold gui_sequences. apply in_flat_map. exists vcp. split; [exact Hin|].
  apply in_map_iff.
  assert (Hcase : exists sm, In sm selections
                             /\ build_sequence vcp (fst sm) (snd sm)
                                = inl (pattern_sequence a)).
  { destruct (String.eqb_spec (mrle_var a) "None") as [Hm|Hm].
    - rewrite Hm in Hbuilt.
      destruct (String.eqb_spec (sails_var a) "SAILS 1") as [E1|E1];
        [exists ("SAILS 1", "None"); rewrite E1 in Hbuilt; split; [simpl; auto|exact Hbuilt]|].
      destruct (String.eqb_spec (sails_var a) "SAILS 2") as [E2|E2];
        [exists ("SAILS 2", "None"); rewrite E2 in Hbuilt; split; [simpl; auto|exact Hbuilt]|].
      destruct (String.eqb_spec (sails_var a) "SAILS 3") as [E3|E3];
        [exists ("SAILS 3", "None"); rewrite E3 in Hbuilt; split; [simpl; auto|exact Hbuilt]|].
      rewrite (build_sequence_unknown_sails vcp _ _ E1 E2 E3) in Hbuilt.
      exists ("None", "None"). split; [simpl; auto|exact Hbuilt].
    - destruct Hex as [Hsa|Hm']; [|contradiction].
      rewrite Hsa in Hbuilt. exists ("None", mrle_var a). split; [|exact Hbuilt].
      unfold mrle_menu in Hmr. simpl in Hmr.
      destruct Hmr as [E|[E|[E|[E|[]]]]]; rewrite <- E in *; simpl; auto 10. }
  destruct Hcase as (sm & Hsm & Hb). exists sm. split; [|exact Hsm].
  now rewrite Hb.
Qed.

Lemma sweep_stops_transfer (m : M unit) (a b : RadarApp) :
  completion m a = completion m b ->
  sweep_view (exec m a) = sweep_view (exec m b) ->
  sweep_stops m b = true ->
  completion m a = inl tt
  /\ running (exec m a) = false
  /\ pattern_step_index (exec m a) = 0.
Proof.
  unfold sweep_stops, sweep_view. intros Hc Hv Hb. rewrite <- Hc in Hb.
  destruct (completion m a) as [[]|e]; [|discriminate].
  apply andb_true_iff in Hb as [Hstop Hidx].
  apply negb_true_iff in Hstop. apply Nat.eqb_eq in Hidx.
  injection Hv as _ Hrun' Hidx' _.
  repeat split; congruence.
Qed.

(** What holds of the sequences of [gui_sequences] at the four multipliers
    holds of every sweep a reachable object can start. *)
Lemma reachable_sweep_stops (n : nat) (a : RadarApp) :
  forallb (fun seq =>
             forallb (fun mult =>
                        sweep_stops (toggle_animation ;; ticks n) (sweep_object seq mult))
                     [1; 2; 4; 8]%Z) gui_sequences = true ->
  reachable a -> vcp_selected a = true -> running a = false ->
  completion (toggle_animation ;; ticks n) a = inl tt
  /\ running (exec (toggle_animation ;; ticks n) a) = false
  /\ pattern_step_index (exec (toggle_animation ;; ticks n) a) = 0.
Proof.
  intros Hall Hr Hsel Hrun.
  destruct (reachable_Inv a Hr) as [Hm Hwf _ Hs _ _].
  destruct (Hs Hsel) as (vcp & _ & _ & Hne).
  pose proof (reachable_gui_sequence a Hr Hsel) as Hin.
  pose proof (proj1 (forallb_forall _ _) Hall _ Hin) as H1.
  pose proof (proj1 (forallb_forall _ _) H1 _ Hm) as Hb.
  destruct (run_and_ticks_view n a
              (sweep_object (pattern_sequence a) (speed_multiplier a))
              Hsel Hrun eq_refl eq_refl Hne Hwf eq_refl eq_refl)
    as [Hc Hv].
  exact (sweep_stops_transfer _ a _ Hc Hv Hb).
Qed.

(** Every sweep the window can start ends within 5500 callbacks: checked by
    running each of the sequences at each multiplier. *)
Lemma gui_sweeps_stop :
  forallb (fun seq =>
             forallb (fun mult =>
                        sweep_stops (toggle_animation ;; ticks (55 * 100))
                                    (sweep_object seq mult))
                     [1; 2; 4; 8]%Z) gui_sequences = true.
Proof. vm_compute. reflexivity. Qed.

(** ** The properties *)

(** X1. No call the window can make ends in an exception on an object the
    window can reach: a VCP button, an entry of either menu, the Run/Stop
    button, the speed button and a scheduled tick all return normally. *)
Theorem X1_window_calls_never_raise (a : RadarApp) (m : M unit) :
  reachable a -> gui_call m -> completion m a = inl tt.
Proof.
  intros Hr Hc. exact (reachable_no_exception a m Hr Hc).
Qed.

Lemma X1_window_calls_never_raise_witness :
  completion toggle_animation (exec (set_vcp "VCP 12") init) = inl tt.
Proof.
  exact (X1_window_calls_never_raise (exec (set_vcp "VCP 12") init) toggle_animation
           reachable_stopped_vcp_12 call_toggle_animation).
Defined.

(** X2. On every reachable object that records a VCP, the stored sequence
    is the one the builder gives for that VCP and the two current
    selections; the VCP is one of the four buttons, the sequence is not
    empty, the step index is inside it and every step has the keys its
    label calls for. *)
Theorem X2_sequence_is_built_from_selections (a : RadarApp) (vcp : string) :
  reachable a -> selected_vcp a = Some vcp ->
  vcp_selected a = true
  /\ In vcp vcp_buttons
  /\ build_sequence vcp (sails_var a) (mrle_var a) = inl (pattern_sequence a)
  /\ is_empty (pattern_sequence a) = false
  /\ pattern_step_index a < List.length (pattern_sequence a)
  /\ forallb wf_step (pattern_sequence a) = true.
Proof.
  intros Hr Hv.
  destruct (reachable_Inv a Hr) as [Hm Hwf Hl Hs Hmr Hidx].
  destruct (reachable_Inv2 a Hr) as [Hex Hang Hidle Hbut Hbuilt].
  pose proof (reachable_selected a vcp Hr Hv) as Hsel.
  destruct (Hs Hsel) as (vcp' & Hv' & Hin & Hne).
  assert (vcp' = vcp) by congruence. subst vcp'.
  repeat split; auto.
Qed.

Lemma X2_sequence_is_built_from_selections_witness :
  selected_vcp running_vcp_12 = Some "VCP 12"
  /\ build_sequence "VCP 12" "None" "None" = inl (pattern_sequence running_vcp_12).
Proof.
  assert (Hv : selected_vcp running_vcp_12 = Some "VCP 12") by reflexivity.
  split; [exact Hv|].
  exact (proj1 (proj2 (proj2
           (X2_sequence_is_built_from_selections running_vcp_12 "VCP 12"
              reachable_running_vcp_12 Hv)))).
Defined.

(** X3. While the sweep runs on a reachable object a VCP is chosen, the
    button reads "Stop", and the parameters of the current step are the ones
    loaded, so that drawing the cone finds every attribute and key it
    reads. *)
Theorem X3_running_sweep_has_its_step_loaded (a : RadarApp) :
  reachable a -> running a = true ->
  vcp_selected a = true
  /\ toggle_button_text (widgets a) = "Stop"
  /\ exists p, Loaded a p /\ draw_sweep_cone a = (inl tt, a).
Proof.
  intros Hr Hrun.
  destruct (reachable_Inv a Hr) as [Hm Hwf Hl Hs Hmr Hidx].
  destruct (reachable_Inv2 a Hr) as [Hex Hang Hidle Hbut Hbuilt].
  split; [|split; [exact (Hbut Hrun)|]].
  - exact (reachable_running_selected a Hr Hrun).
  - destruct (Hl Hrun) as [p HL]. exists p. split; [exact HL|].
    exact (draw_sweep_cone_loaded a p HL).
Qed.

Lemma X3_running_sweep_has_its_step_loaded_witness :
  running running_vcp_12 = true
  /\ toggle_button_text (widgets running_vcp_12) = "Stop".
Proof.
  assert (Hrun : running running_vcp_12 = true) by reflexivity.
  split; [exact Hrun|].
  exact (proj1 (proj2
           (X3_running_sweep_has_its_step_loaded running_vcp_12
              reachable_running_vcp_12 Hrun))).
Defined.

(** X4. On every reachable object SAILS and MRLE are never both chosen, the
    MRLE variable holds an entry of its menu, and as long as no VCP is
    chosen nothing runs, no sequence is built and no VCP is recorded. *)
Theorem X4_sails_and_mrle_are_exclusive (a : RadarApp) :
  reachable a ->
  (sails_var a = "None" \/ mrle_var a = "None")
  /\ In (mrle_var a) mrle_menu
  /\ (vcp_selected a = false ->
      running a = false /\ pattern_sequence a = [] /\ selected_vcp a = None).
Proof.
  intros Hr.
  destruct (reachable_Inv a Hr) as [Hm Hwf Hl Hs Hmr Hidx].
  destruct (reachable_Inv2 a Hr) as [Hex Hang Hidle Hbut Hbuilt].
  repeat split; try assumption; now apply Hidle.
Qed.

Lemma X4_sails_and_mrle_are_exclusive_witness :
  let a := exec (choose_sails "SAILS 1")
             (exec (choose_mrle "MRLE 2") (exec (set_vcp "VCP 12") init)) in
  (sails_var a = "SAILS 1" /\ mrle_var a = "None")
  /\ (sails_var a = "None" \/ mrle_var a = "None").
Proof.
  cbv zeta. split; [split; reflexivity|].
  refine (proj1 (X4_sails_and_mrle_are_exclusive _ _)).
  apply reachable_call; [|apply call_choose_sails].
  apply reachable_call; [apply reachable_stopped_vcp_12|].
  apply call_choose_mrle. simpl. auto.
Defined.

(** X5. Between calls the angle of a reachable object is never at or below
    the boundary: the test [self.angle <= -270] is false; and the speed
    multiplier is 1, 2, 4 or 8. *)
Theorem X5_angle_stays_above_boundary (a : RadarApp) :
  reachable a ->
  (angle a <=? -270)%float = false /\ In (speed_multiplier a) [1; 2; 4; 8]%Z.
Proof.
  intros Hr.
  destruct (reachable_Inv a Hr) as [Hm _ _ _ _ _].
  destruct (reachable_Inv2 a Hr) as [_ Hang _ _ _].
  split; assumption.
Qed.

Lemma X5_angle_stays_above_boundary_witness :
  angle running_vcp_12 = 88.25%float
  /\ (angle running_vcp_12 <=? -270)%float = false.
Proof.
  split; [reflexivity|].
  exact (proj1 (X5_angle_stays_above_boundary running_vcp_12 reachable_running_vcp_12)).
Defined.

(** X6. The speed button: after a press the mode is between 1 and 4, the
    multiplier is 2 to the power mode - 1, so one of 1, 2, 4, 8, and the
    button shows it followed by "x"; once the mode is between 1 and 4,
    four presses bring mode and multiplier back: 1x, 2x, 4x, 8x, 1x. *)
Theorem X6_speed_button_cycles (a : RadarApp) :
  let press := exec speed_multiply in
  ((1 <= fast_mode (press a) <= 4)%Z
   /\ speed_multiplier (press a) = (2 ^ (fast_mode (press a) - 1))%Z
   /\ In (speed_multiplier (press a)) [1; 2; 4; 8]%Z
   /\ fast_button_text (widgets (press a))
      = (str (speed_multiplier (press a)) ++ "x")%string)
  /\
  ((1 <= fast_mode a <= 4)%Z ->
   fast_mode (press (press (press (press a)))) = fast_mode a
   /\ speed_multiplier (press (press (press (press a)))) = (2 ^ (fast_mode a - 1))%Z).
Proof.
  intros press.
  assert (Hstep : forall b, fast_mode (press b) = (fast_mode b mod 4 + 1)%Z
                            /\ speed_multiplier (press b)
                               = (2 ^ (fast_mode (press b) - 1))%Z
                            /\ fast_button_text (widgets (press b))
                               = (str (speed_multiplier (press b)) ++ "x")%string).
  { intros b. destruct (speed_multiply_fields b) as (Hf & Hm & Hb & _).
    fold press in Hf, Hm, Hb. rewrite Hf, Hm. repeat split. exact Hb. }
  split.
  - destruct (Hstep a) as (Hf & Hm & Hb).
    pose proof (Z.mod_pos_bound (fast_mode a) 4 eq_refl) as Hbound.
    repeat split; try (rewrite Hf; lia); try assumption.
    rewrite Hm, Hf. apply multiplier_cycle.
  - intros Hrange.
    destruct (Hstep a) as (H1 & _), (Hstep (press a)) as (H2 & _),
      (Hstep (press (press a))) as (H3 & _),
      (Hstep (press (press (press a)))) as (H4 & Hm4 & _).
    assert (Hf : fast_mode (press (press (press (press a)))) = fast_mode a).
    { rewrite H4, H3, H2, H1.
      assert (Hc : (fast_mode a = 1 \/ fast_mode a = 2 \/ fast_mode a = 3
                    \/ fast_mode a = 4)%Z) by lia.
      destruct Hc as [-> | [-> | [-> | ->]]]; reflexivity. }
    split; [exact Hf|]. now rewrite Hm4, Hf.
Qed.

Lemma X6_speed_button_cycles_witness :
  (1 <= fast_mode init <= 4)%Z
  /\ speed_multiplier (exec speed_multiply init) = 2%Z
  /\ speed_multiplier
       (exec speed_multiply (exec speed_multiply (exec speed_multiply
          (exec speed_multiply init)))) = 1%Z.
Proof.
  assert (H : (1 <= fast_mode init <= 4)%Z) by (simpl; lia).
  split; [exact H|]. split; [reflexivity|].
  exact (proj2 (proj2 (X6_speed_button_cycles init) H)).
Defined.

(** X7. The builder only adds steps: whatever the three strings are, the
    base pattern of the catalog is kept whole and in order inside the built
    sequence, every other step of it is one of the two SAILS steps or of the
    seven MRLE steps, and all its steps keep the shape invariant. *)
Theorem X7_builder_only_adds_block_steps
        (vcp sails mrle : string) (built : list ScanStep) :
  build_sequence vcp sails mrle = inl built ->
  subseq (dict_get patterns vcp []) built
  /\ (forall q, In q built ->
                In q (dict_get patterns vcp []) \/ In q sails_scans \/ In q (mrle_scans 4))
  /\ List.length (dict_get patterns vcp []) <= List.length built
  /\ forallb wf_step built = true.
Proof.
  intros Hb. pose proof (build_sequence_wf _ _ _ _ Hb) as Hwf.
  unfold build_sequence in Hb.
  destruct (dict_get patterns vcp []) as [|p0 base] eqn:Hbase.
  - injection Hb as <-. repeat split; try apply subseq_nil; try reflexivity.
    intros q [].
  - destruct (apply_sails_adds sails (p0 :: base)) as [Hs1 Hin1].
    destruct (apply_mrle_adds _ _ _ _ Hb) as [Hs2 Hin2].
    assert (Hsub : subseq (p0 :: base) built) by (eapply subseq_trans; eassumption).
    repeat split; try assumption.
    + intros q Hq. destruct (Hin2 q Hq) as [H|H]; [|now right; right].
      destruct (Hin1 q H) as [H'|H']; [now left|now right; left].
    + clear -Hsub. induction Hsub; simpl; lia.
Qed.

Lemma X7_builder_only_adds_block_steps_witness :
  exists built,
    build_sequence "VCP 12" "SAILS 2" "MRLE 3" = inl built
    /\ subseq vcp_12 built /\ List.length built = 27.
Proof.
  eexists. split; [vm_compute; reflexivity|].
  split; [|reflexivity].
  refine (proj1 (X7_builder_only_adds_block_steps "VCP 12" "SAILS 2" "MRLE 3" _ _)).
  vm_compute. reflexivity.
Defined.

(** X8. The size of what the inserter adds: one SAILS anchor adds the two
    SAILS steps exactly when the pattern has a step the loop accepts for
    that anchor, and nothing otherwise; the MRLE block is added whole
    exactly when the pattern has a step at 5.1°. *)
Theorem X8_insert_lengths (sails angle : string) (block pattern : list ScanStep) :
  List.length (sails_insert sails angle pattern)
  = List.length pattern + (if existsb (sails_match sails angle) pattern then 2 else 0)
  /\ List.length (mrle_insert block pattern)
     = List.length pattern
       + (if existsb (fun q => step_angle q =? "5.1°") pattern
          then List.length block else 0).
Proof.
  split; [apply sails_insert_length|apply mrle_insert_length].
Qed.

(** X9. A SAILS choice on a reachable object with a VCP chosen stops the
    sweep and restarts the volume: the sequence is rebuilt for the chosen
    entry (with MRLE put back to "None" unless the entry is "None"), the
    step index is 0, the angle 90 and the first step of the new sequence is
    loaded.  The MRLE menu is disabled by an entry other than "None" and
    enabled again by "None" on VCP 212 and VCP 12; the Run/Stop button, the
    multiplier and the pending callbacks are not touched. *)
Theorem X9_sails_choice_restarts_volume (a : RadarApp) (value vcp : string) :
  reachable a -> vcp_selected a = true -> selected_vcp a = Some vcp ->
  let a' := exec (choose_sails value) a in
  let mrle := if value =? "None" then mrle_var a else "None" in
  exists p,
    build_sequence vcp value mrle = inl (pattern_sequence a')
    /\ nth_error (pattern_sequence a') 0 = Some p
    /\ Loaded a' p
    /\ sails_var a' = value /\ mrle_var a' = mrle
    /\ running a' = false /\ pattern_step_index a' = 0 /\ angle a' = 90%float
    /\ vcp_selected a' = true /\ selected_vcp a' = Some vcp
    /\ speed_multiplier a' = speed_multiplier a
    /\ after_queue a' = after_queue a
    /\ toggle_button_text (widgets a') = toggle_button_text (widgets a)
    /\ mrle_dropdown_state (widgets a')
       = (if negb (value =? "None") then "disabled"
          else if str_in vcp ["VCP 212"; "VCP 12"] then "normal"
          else mrle_dropdown_state (widgets a)).
Proof.
  intros Hr Hsel Hv.
  exact (choose_sails_effect a value vcp (reachable_Inv a Hr) Hsel Hv).
Qed.

Lemma X9_sails_choice_restarts_volume_witness :
  let a' := exec (choose_sails "SAILS 1") running_vcp_12 in
  running running_vcp_12 = true
  /\ build_sequence "VCP 12" "SAILS 1" "None" = inl (pattern_sequence a')
  /\ running a' = false /\ pattern_step_index a' = 0 /\ angle a' = 90%float.
Proof.
  cbv zeta. split; [reflexivity|].
  destruct (X9_sails_choice_restarts_volume running_vcp_12 "SAILS 1" "VCP 12"
              reachable_running_vcp_12 eq_refl eq_refl)
    as (p & Hb & _ & _ & _ & _ & Hrun & Hi & Ha & _).
  repeat split; assumption.
Defined.

(** X10. An MRLE choice on a reachable object with a VCP chosen does the
    same: the sequence is rebuilt for the chosen entry (with SAILS put back
    to "None" unless the entry is "None"), the sweep is stopped, the step
    index is 0, the angle 90 and the first step is loaded; the SAILS menu is
    disabled by an entry other than "None" and enabled by "None". *)
Theorem X10_mrle_choice_restarts_volume (a : RadarApp) (value vcp : string) :
  reachable a -> In value mrle_menu ->
  vcp_selected a = true -> selected_vcp a = Some vcp ->
  let a' := exec (choose_mrle value) a in
  let sails := if value =? "None" then sails_var a else "None" in
  exists p,
    build_sequence vcp sails value = inl (pattern_sequence a')
    /\ nth_error (pattern_sequence a') 0 = Some p
    /\ Loaded a' p
    /\ sails_var a' = sails /\ mrle_var a' = value
    /\ running a' = false /\ pattern_step_index a' = 0 /\ angle a' = 90%float
    /\ vcp_selected a' = true /\ selected_vcp a' = Some vcp
    /\ speed_multiplier a' = speed_multiplier a
    /\ after_queue a' = after_queue a
    /\ toggle_button_text (widgets a') = toggle_button_text (widgets a)
    /\ sails_dropdown_state (widgets a')
       = (if negb (value =? "None") then "disabled" else "normal").
Proof.
  intros Hr Hvalue Hsel Hv.
  exact (choose_mrle_effect a value vcp Hvalue (reachable_Inv a Hr) Hsel Hv).
Qed.

Lemma X10_mrle_choice_restarts_volume_witness :
  let a' := exec (choose_mrle "MRLE 4") running_vcp_12 in
  build_sequence "VCP 12" "None" "MRLE 4" = inl (pattern_sequence a')
  /\ List.length (pattern_sequence a') = 24
  /\ running a' = false /\ pattern_step_index a' = 0.
Proof.
  cbv zeta.
  assert (Hm : In "MRLE 4" mrle_menu) by (simpl; auto).
  destruct (X10_mrle_choice_restarts_volume running_vcp_12 "MRLE 4" "VCP 12"
              reachable_running_vcp_12 Hm eq_refl eq_refl)
    as (p & Hb & _ & _ & _ & _ & Hrun & Hi & _).
  repeat split; assumption.
Defined.

(** X11. Neither selection handler touches the Run/Stop button: a SAILS or
    MRLE choice made while the sweep runs stops it and leaves the button
    reading "Stop". *)
Theorem X11_choice_while_running_keeps_stop_label (a : RadarApp) (value : string) :
  reachable a -> running a = true ->
  (running (exec (choose_sails value) a) = false
   /\ toggle_button_text (widgets (exec (choose_sails value) a)) = "Stop")
  /\ (In value mrle_menu ->
      running (exec (choose_mrle value) a) = false
      /\ toggle_button_text (widgets (exec (choose_mrle value) a)) = "Stop").
Proof.
  intros Hr Hrun.
  pose proof (reachable_Inv a Hr) as HI.
  destruct (reachable_Inv2 a Hr) as [Hex Hang Hidle Hbut Hbuilt].
  pose proof (reachable_running_selected a Hr Hrun) as Hsel.
  destruct (inv_selected a HI Hsel) as (vcp & Hv & _).
  split.
  - destruct (choose_sails_effect a value vcp HI Hsel Hv)
      as (p & _ & _ & _ & _ & _ & Hstop & _ & _ & _ & _ & _ & _ & Htext & _).
    split; [exact Hstop|]. rewrite Htext. exact (Hbut Hrun).
  - intros Hvalue.
    destruct (choose_mrle_effect a value vcp Hvalue HI Hsel Hv)
      as (p & _ & _ & _ & _ & _ & Hstop & _ & _ & _ & _ & _ & _ & Htext & _).
    split; [exact Hstop|]. rewrite Htext. exact (Hbut Hrun).
Qed.

Lemma X11_choice_while_running_keeps_stop_label_witness :
  running running_vcp_12 = true
  /\ running (exec (choose_sails "SAILS 2") running_vcp_12) = false
  /\ toggle_button_text (widgets (exec (choose_sails "SAILS 2") running_vcp_12)) = "Stop".
Proof.
  assert (Hrun : running running_vcp_12 = true) by reflexivity.
  split; [exact Hrun|].
  exact (proj1 (X11_choice_while_running_keeps_stop_label running_vcp_12 "SAILS 2"
                  reachable_running_vcp_12 Hrun)).
Defined.

(** X12. Choosing a SAILS entry and then "None" gives the base pattern of
    the VCP with both selections "None", whatever was chosen before: an
    MRLE choice made earlier is not restored.  The same holds for an MRLE
    entry followed by "None". *)
Theorem X12_choice_then_none_gives_base_pattern (a : RadarApp) (vcp value : string) :
  reachable a -> selected_vcp a = Some vcp -> value <> "None" ->
  (let b := exec (choose_sails "None") (exec (choose_sails value) a) in
   pattern_sequence b = dict_get patterns vcp []
   /\ sails_var b = "None" /\ mrle_var b = "None")
  /\ (In value mrle_menu ->
      let b := exec (choose_mrle "None") (exec (choose_mrle value) a) in
      pattern_sequence b = dict_get patterns vcp []
      /\ sails_var b = "None" /\ mrle_var b = "None").
Proof.
  intros Hr Hv Hvalue.
  pose proof (reachable_selected a vcp Hr Hv) as Hsel.
  pose proof (reachable_Inv a Hr) as HI.
  apply String.eqb_neq in Hvalue.
  assert (Hnone : In "None" mrle_menu) by (simpl; auto).
  split.
  - cbv zeta.
    destruct (choose_sails_effect a value vcp HI Hsel Hv)
      as (p & _ & _ & _ & Hs1 & Hm1 & _ & _ & _ & Hsel1 & Hv1 & _).
    rewrite Hvalue in Hm1.
    destruct (choose_sails_inv a value HI) as [HI1 _].
    destruct (choose_sails_effect _ "None" vcp HI1 Hsel1 Hv1)
      as (q & Hb & _ & _ & Hs2 & Hm2 & _).
    simpl in Hm2, Hb. rewrite Hm1 in Hm2, Hb.
    rewrite build_sequence_no_inserts in Hb. injection Hb as Hb.
    repeat split; [now symmetry|exact Hs2|exact Hm2].
  - intros Hin. cbv zeta.
    destruct (choose_mrle_effect a value vcp Hin HI Hsel Hv)
      as (p & _ & _ & _ & Hs1 & Hm1 & _ & _ & _ & Hsel1 & Hv1 & _).
    rewrite Hvalue in Hs1.
    destruct (choose_mrle_inv a value Hin HI) as [HI1 _].
    destruct (choose_mrle_effect _ "None" vcp Hnone HI1 Hsel1 Hv1)
      as (q & Hb & _ & _ & Hs2 & Hm2 & _).
    simpl in Hs2, Hb. rewrite Hs1 in Hs2, Hb.
    rewrite build_sequence_no_inserts in Hb. injection Hb as Hb.
    repeat split; [now symmetry|exact Hs2|exact Hm2].
Qed.

Lemma X12_choice_then_none_gives_base_pattern_witness :
  let a := exec (choose_mrle "MRLE 3") (exec (set_vcp "VCP 212") init) in
  mrle_var a = "MRLE 3"
  /\ pattern_sequence (exec (choose_sails "None") (exec (choose_sails "SAILS 3") a))
     = vcp_212
  /\ mrle_var (exec (choose_sails "None") (exec (choose_sails "SAILS 3") a)) = "None".
Proof.
  cbv zeta. split; [reflexivity|].
  assert (Hr : reachable (exec (choose_mrle "MRLE 3") (exec (set_vcp "VCP 212") init))).
  { apply reachable_call; [|apply call_choose_mrle; simpl; auto].
    apply reachable_call; [apply reachable_init|apply call_set_vcp; simpl; auto]. }
  assert (Hne : "SAILS 3" <> "None") by discriminate.
  destruct (proj1 (X12_choice_then_none_gives_base_pattern _ "VCP 212" "SAILS 3"
                     Hr eq_refl Hne)) as (Hseq & _ & Hm).
  split; [exact Hseq|exact Hm].
Defined.

(** X13. Run pressed on a stopped reachable object always starts the volume
    from its first step: what runs is [animate] on an object with the same
    sequence, step index 0, angle 90, sweep progress 0, the first step
    loaded, the button reading "Stop" and no callback added yet.  Stop
    followed by Run is no resume. *)
Theorem X13_run_starts_at_first_step (a : RadarApp) :
  reachable a -> vcp_selected a = true -> running a = false ->
  exists (b : RadarApp) (p : ScanStep),
    toggle_animation a = animate b
    /\ nth_error (pattern_sequence a) 0 = Some p
    /\ Loaded b p
    /\ running b = true /\ pattern_step_index b = 0
    /\ angle b = 90%float /\ sweep_progress b = 0%float
    /\ pattern_sequence b = pattern_sequence a
    /\ speed_multiplier b = speed_multiplier a
    /\ toggle_button_text (widgets b) = "Stop"
    /\ after_queue b = after_queue a.
Proof.
  intros Hr Hsel Hrun.
  destruct (toggle_animation_run a (reachable_Inv a Hr) Hsel Hrun)
    as (b & p & E & _ & H).
  exists b, p. split; [exact E|exact H].
Qed.

Lemma X13_run_starts_at_first_step_witness :
  exists b,
    toggle_animation (exec (set_vcp "VCP 12") init) = animate b
    /\ pattern_step_index b = 0 /\ angle b = 90%float /\ running b = true.
Proof.
  destruct (X13_run_starts_at_first_step (exec (set_vcp "VCP 12") init)
              reachable_stopped_vcp_12 eq_refl eq_refl)
    as (b & p & E & _ & _ & Hrun & Hi & Ha & _).
  exists b. repeat split; assumption.
Defined.

(** X14. One call of [animate] on a reachable object hands at most one
    callback to [root.after]: exactly one when the sweep is still running
    afterwards, none when it is not; on a stopped object the call changes
    nothing, it never starts a sweep and never changes the sequence. *)
Theorem X14_tick_schedules_at_most_one_callback (a : RadarApp) :
  reachable a ->
  let a' := exec animate a in
  after_queue a' = (if running a' then S (after_queue a) else after_queue a)
  /\ (running a = false -> a' = a)
  /\ (running a' = true -> running a = true)
  /\ pattern_sequence a' = pattern_sequence a.
Proof.
  intros Hr. exact (animate_queue a (reachable_Inv a Hr)).
Qed.

Lemma X14_tick_schedules_at_most_one_callback_witness :
  after_queue running_vcp_12 = 1
  /\ running (exec animate running_vcp_12) = true
  /\ after_queue (exec animate running_vcp_12) = 2.
Proof.
  split; [reflexivity|]. split; [reflexivity|].
  exact (proj1 (X14_tick_schedules_at_most_one_callback running_vcp_12
                  reachable_running_vcp_12)).
Defined.

(** X15. Stop does not cancel the callback that is pending, and Run adds
    one of its own: Stop on a running reachable object leaves the count of
    pending callbacks as it was, and after Stop and then Run an object that
    is running again has one more callback pending than before. *)
Theorem X15_stop_then_run_adds_a_callback (a : RadarApp) :
  reachable a -> running a = true ->
  let stopped := exec toggle_animation a in
  let b := exec toggle_animation stopped in
  running stopped = false
  /\ after_queue stopped = after_queue a
  /\ after_queue b = (if running b then S (after_queue a) else after_queue a)
  /\ pattern_sequence b = pattern_sequence a.
Proof.
  intros Hr Hrun. cbv zeta.
  pose proof (reachable_Inv a Hr) as HI.
  pose proof (reachable_running_selected a Hr Hrun) as Hsel.
  destruct (toggle_animation_inv a HI) as [HI1 _].
  unfold exec in HI1 |- *. rewrite (toggle_animation_stop a Hsel Hrun) in HI1 |- *.
  cbn [snd] in HI1 |- *.
  match type of HI1 with
  | Inv ?s =>
      destruct (toggle_animation_run s HI1)
        as (b & p & E & HIb & _ & _ & _ & _ & _ & _ & Hseq & _ & _ & Hq);
      [attrs; exact Hsel | attrs; reflexivity | ]
  end.
  rewrite E. attrs_in Hseq. attrs_in Hq.
  destruct (animate_queue b HIb) as (Hq' & _ & _ & Hseq').
  unfold exec in Hq', Hseq'. rewrite Hq', Hseq', Hq, Hseq. attrs.
  repeat split.
Qed.

Lemma X15_stop_then_run_adds_a_callback_witness :
  after_queue running_vcp_12 = 1
  /\ running (exec toggle_animation (exec toggle_animation running_vcp_12)) = true
  /\ after_queue (exec toggle_animation (exec toggle_animation running_vcp_12)) = 2.
Proof.
  split; [reflexivity|]. split; [reflexivity|].
  exact (proj1 (proj2 (proj2
           (X15_stop_then_run_adds_a_callback running_vcp_12
              reachable_running_vcp_12 eq_refl)))).
Defined.




(** X18. Loading a step twice is loading it once: on a sequence that is not
    empty and whose steps have the keys their labels call for, a second
    [advance_pattern_step] leaves the object exactly as the first did. *)
Theorem X18_advance_pattern_step_is_idempotent (a : RadarApp) :
  is_empty (pattern_sequence a) = false ->
  forallb wf_step (pattern_sequence a) = true ->
  exec advance_pattern_step (exec advance_pattern_step a) = exec advance_pattern_step a.
Proof.
  intros Hne Hwf.
  destruct (advance_pattern_step_wf a Hne Hwf) as (p & r & Hp & Hwp & Hr & E).
  unfold exec. rewrite E. cbn [snd].
  rewrite (advance_pattern_step_loads _ p r); [reflexivity| |exact Hr].
  attrs. exact Hp.
Qed.

Lemma X18_advance_pattern_step_is_idempotent_witness :
  angle running_vcp_12 = 88.25%float
  /\ angle (exec advance_pattern_step running_vcp_12) = 90%float
  /\ exec advance_pattern_step (exec advance_pattern_step running_vcp_12)
     = exec advance_pattern_step running_vcp_12.
Proof.
  split; [reflexivity|]. split; [reflexivity|].
  exact (X18_advance_pattern_step_is_idempotent running_vcp_12 eq_refl eq_refl).
Defined.

(** X19. Every sweep the window can start ends by itself: Run pressed on a
    stopped reachable object with a VCP chosen, followed by 5500 callbacks
    of the event loop, raises nothing and leaves the sweep stopped with the
    step index back at 0. *)
Theorem X19_every_sweep_stops_by_itself (a : RadarApp) :
  reachable a -> vcp_selected a = true -> running a = false ->
  completion (toggle_animation ;; ticks (55 * 100)) a = inl tt
  /\ running (exec (toggle_animation ;; ticks (55 * 100)) a) = false
  /\ pattern_step_index (exec (toggle_animation ;; ticks (55 * 100)) a) = 0.
Proof.
  intros Hr Hsel Hrun.
  exact (reachable_sweep_stops (55 * 100) a gui_sweeps_stop Hr Hsel Hrun).
Qed.

Lemma X19_every_sweep_stops_by_itself_witness :
  running (exec toggle_animation (exec (set_vcp "VCP 12") init)) = true
  /\ running (exec (toggle_animation ;; ticks (55 * 100)) (exec (set_vcp "VCP 12") init))
     = false
  /\ pattern_step_index
       (exec (toggle_animation ;; ticks (55 * 100)) (exec (set_vcp "VCP 12") init)) = 0.
Proof.
  split; [reflexivity|].
  exact (proj2 (X19_every_sweep_stops_by_itself (exec (set_vcp "VCP 12") init)
                  reachable_stopped_vcp_12 eq_refl eq_refl)).
Defined.

(** X20. Choices the builder has no entry for are ignored: a SAILS string
    that is not a key of the insertion table inserts nothing, and on a VCP
    other than VCP 212 and VCP 12 the MRLE string is never read, so it can
    neither insert nor raise. *)
Theorem X20_unsupported_choices_are_ignored (vcp sails mrle : string) :
  (~ In sails ["SAILS 1"; "SAILS 2"; "SAILS 3"] ->
   build_sequence vcp sails mrle = build_sequence vcp "None" mrle)
  /\ (str_in vcp ["VCP 212"; "VCP 12"] = false ->
      build_sequence vcp sails mrle = build_sequence vcp sails "None"
      /\ exists built, build_sequence vcp sails mrle = inl built).
Proof.
  split.
  - intros Hs. apply build_sequence_unknown_sails; intros E; apply Hs; simpl; auto.
  - intros Hv. unfold build_sequence.
    destruct (dict_get patterns vcp []) as [|p0 base];
      [split; [reflexivity|now exists []]|].
    unfold apply_mrle. rewrite Hv, !andb_false_r.
    split; [reflexivity|eexists; reflexivity].
Qed.

Lemma X20_unsupported_choices_are_ignored_witness :
  build_sequence "VCP 12" "SAILS 4" "None" = inl vcp_12
  /\ build_sequence "VCP 35" "None" "" = inl vcp_35.
Proof.
  split.
  - rewrite (proj1 (X20_unsupported_choices_are_ignored "VCP 12" "SAILS 4" "None")).
    + reflexivity.
    + simpl. intros [E|[E|[E|[]]]]; discriminate.
  - rewrite (proj1 (proj2 (X20_unsupported_choices_are_ignored "VCP 35" "None" "")
                      eq_refl)).
    reflexivity.
Defined.
